(** * Chemist 4 U: cart, search and billing core of [app/src/chemist4u.py]

    A shallow embedding of the Python program and the proofs of its
    specified properties.

    - Files.  The CSV files are modelled at the level of the rows that
      [csv.reader] yields and [csv.writer] receives: a file is a list of
      rows, a row a list of cells, a missing file is [None].  The [csv]
      module itself, the encoding and failures of the file system are not
      modelled; the folders are taken to exist.
    - Effects.  The files, the lines typed at the terminal, what is printed
      and the random source of the tracking identifiers make up a [World],
      threaded through a state-and-exception monad [M].  Screen clearing,
      the loading animation and [time.sleep] leave no trace and are omitted.
      [main_menu] never returns in Python: it ends with [sys.exit(0)], which
      is the [Return] of its model.
    - Numbers.  An [int] is a [Z].  A [float] is an IEEE 754 binary64 number
      of the standard library's [SpecFloat], with its operations; [float(s)]
      and [f"{x:.2f}"] round correctly, to nearest and ties to even.  The
      built-in [sum] adds from left to right, as CPython does up to 3.11
      (later versions compensate the rounding errors of float sums; the two
      agree whenever the additions are exact).  CPython 3.11 and later
      refuse to convert between [int] and [str] beyond 4300 digits unless
      [sys.set_int_max_str_digits] lifts the limit; the model is of the
      interpreter with the limit lifted.  What the limit changes in
      writing the cart is in [write_cart_within_limit] and
      [append_to_cart_within_limit]; the theorems on adding to the cart
      are stated for numbers of at most 4300 digits ([printable],
      [plain_file]), where the functions do the same under the limit.
    - Text.  A [str] is the string of its UTF-8 bytes; whitespace, digits
      and letter case are those of ASCII.  On ASCII text ([plain_text])
      [str.strip], [str.lower], [int] and [float] are Python's; their
      treatment of other characters (Unicode letter case, spaces and digits)
      is not modelled, and the theorems on searching are stated for ASCII
      text.
    - Loops.  A [while True] loop runs on fuel, one round more than there
      are lines left to read; [loops_have_fuel] shows that this is always
      enough. *)

From Stdlib Require Import ZArith List String Ascii Bool Lia.
From Stdlib Require Import Decimal DecimalString DecimalPos DecimalZ SpecFloat.
From Stdlib Require Import QArith Qabs Qpower.
Import ListNotations.

#[local] Open Scope string_scope.
#[local] Open Scope Z_scope.

(** ** Python built-ins used by the program *)

Module Py.

(** Strings are byte strings; the character classes below are the ASCII part
    of Python's ([str.isspace], [str.lower], decimal digits). *)

Definition is_space (c : ascii) : bool :=
  let n := N.to_nat (N_of_ascii c) in
  ((9 <=? n)%nat && (n <=? 13)%nat) || ((28 <=? n)%nat && (n <=? 32)%nat).

Definition is_digit (c : ascii) : bool :=
  let n := N.to_nat (N_of_ascii c) in (48 <=? n)%nat && (n <=? 57)%nat.

Definition lower_char (c : ascii) : ascii :=
  let n := N.to_nat (N_of_ascii c) in
  if (65 <=? n)%nat && (n <=? 90)%nat then ascii_of_nat (n + 32) else c.

(** [s.lower()] *)
Fixpoint lower (s : string) : string :=
  match s with
  | EmptyString => EmptyString
  | String c s' => String (lower_char c) (lower s')
  end.

Fixpoint lstrip (s : string) : string :=
  match s with
  | EmptyString => EmptyString
  | String c s' => if is_space c then lstrip s' else s
  end.

Fixpoint rstrip (s : string) : string :=
  match s with
  | EmptyString => EmptyString
  | String c s' =>
      match rstrip s' with
      | EmptyString => if is_space c then EmptyString else String c EmptyString
      | r => String c r
      end
  end.

(** [s.strip()] *)
Definition strip (s : string) : string := rstrip (lstrip s).

(** The whitespace that [int] and [float] skip around a number is that of
    C's [isspace] (tab to carriage return, and the space): narrower than
    that of [str.strip], which also removes the separators 28 to 31. *)
Definition is_c_space (c : ascii) : bool :=
  let n := N.to_nat (N_of_ascii c) in
  ((9 <=? n)%nat && (n <=? 13)%nat) || (n =? 32)%nat.

Fixpoint c_lstrip (s : string) : string :=
  match s with
  | EmptyString => EmptyString
  | String c s' => if is_c_space c then c_lstrip s' else s
  end.

Fixpoint c_rstrip (s : string) : string :=
  match s with
  | EmptyString => EmptyString
  | String c s' =>
      match c_rstrip s' with
      | EmptyString => if is_c_space c then EmptyString else String c EmptyString
      | r => String c r
      end
  end.

Definition c_strip (s : string) : string := c_rstrip (c_lstrip s).

(** [needle in hay] on strings *)
Fixpoint contains (needle hay : string) : bool :=
  String.prefix needle hay ||
  match hay with
  | EmptyString => false
  | String _ hay' => contains needle hay'
  end.

(** [len(s)] counts code points: the bytes of a UTF-8 string that are not
    continuation bytes. *)
Fixpoint len (s : string) : nat :=
  match s with
  | EmptyString => O
  | String c s' =>
      let n := N.to_nat (N_of_ascii c) in
      if (128 <=? n)%nat && (n <=? 191)%nat then len s' else S (len s')
  end.

Fixpoint spaces (n : nat) : string :=
  match n with O => EmptyString | S k => String " " (spaces k) end.

(** [f"{s:w}"] for a string, [f"{x:w}"] for a number *)
Definition ljust (w : nat) (s : string) : string := s ++ spaces (w - len s).
Definition rjust (w : nat) (s : string) : string := spaces (w - len s) ++ s.

Fixpoint repeat_char (c : ascii) (n : nat) : string :=
  match n with O => EmptyString | S k => String c (repeat_char c k) end.

(** [s[:n]] *)
Fixpoint take (n : nat) (s : string) : string :=
  match n, s with
  | S k, String c s' => String c (take k s')
  | _, _ => EmptyString
  end.

Definition upper_char (c : ascii) : ascii :=
  let n := N.to_nat (N_of_ascii c) in
  if (97 <=? n)%nat && (n <=? 122)%nat then ascii_of_nat (n - 32) else c.

Fixpoint upper (s : string) : string :=
  match s with
  | EmptyString => EmptyString
  | String c s' => String (upper_char c) (upper s')
  end.

(** *** Integers: [str(n)] and [int(s)] *)

(** [str(n)], for a number of any length (the limit of 4300 digits is
    lifted, see the head of the file). *)
Definition str_of_Z (z : Z) : string := NilEmpty.string_of_int (Z.to_int z).

(** Underscores in a numeric literal must stand between two digits; they are
    dropped before the digits are read. *)
Fixpoint drop_underscores (prev_digit : bool) (s : string) : option string :=
  match s with
  | EmptyString => Some EmptyString
  | String c s' =>
      if Ascii.eqb c "_" then
        match s' with
        | String d _ =>
            if prev_digit && is_digit d then drop_underscores false s' else None
        | EmptyString => None
        end
      else option_map (String c) (drop_underscores (is_digit c) s')
  end.

Definition digits_value (s : string) : option Z :=
  option_map Z.of_uint (NilZero.uint_of_string s).

(** an optional sign, then the rest *)
Definition split_sign (s : string) : bool * string :=
  match s with
  | String "-" r => (true, r)
  | String "+" r => (false, r)
  | _ => (false, s)
  end.

(** [int(s)] for a string of ASCII characters: [None] is [ValueError].  The
    digits may be of any number (the limit of 4300 digits is lifted). *)
Definition int_of_string (s : string) : option Z :=
  match drop_underscores false (c_strip s) with
  | None => None
  | Some t =>
      let '(neg, r) := split_sign t in
      option_map (fun n => if neg then - n else n) (digits_value r)
  end.

(** *** Floats: IEEE 754 binary64 *)

Definition float := spec_float.
Definition prec : Z := 53.
Definition emax : Z := 1024.

Definition fzero : float := S754_zero false.
Definition fadd : float -> float -> float := SFadd prec emax.
Definition fmul : float -> float -> float := SFmul prec emax.

(** Conversion of an [int] operand to [float]: round to nearest even;
    [None] is [OverflowError]. *)
Definition float_of_Z (z : Z) : option float :=
  match binary_normalize prec emax z 0 false with
  | S754_infinity _ => None
  | f => Some f
  end.

(** [x * n] for a float [x] and an int [n] *)
Definition fmul_int (x : float) (n : Z) : option float :=
  option_map (fmul x) (float_of_Z n).

(** The decimal [(-1)^s * d * 10^e] rounded to the nearest binary64. *)
Definition float_of_decimal (s : bool) (d e : Z) : float :=
  if d =? 0 then S754_zero s
  else if 0 <=? e then binary_normalize prec emax (cond_Zopp s (d * 10 ^ e)) 0 false
  else
    let '(q, e', l) := SFdiv_core_binary prec emax d 0 (10 ^ (- e)) 0 in
    binary_round_aux prec emax s q e' l.

Fixpoint span_digits (s : string) : string * string :=
  match s with
  | EmptyString => (EmptyString, EmptyString)
  | String c s' =>
      if is_digit c then let '(ds, r) := span_digits s' in (String c ds, r)
      else (EmptyString, s)
  end.

Definition signed_digits_value (s : string) : option Z :=
  let '(neg, r) := split_sign s in
  option_map (fun n => if neg then - n else n) (digits_value r).

(** the part of a float literal after the sign *)
Definition float_body (s : bool) (t : string) : option float :=
  let lt := lower t in
  if String.eqb lt "inf" || String.eqb lt "infinity" then Some (S754_infinity s)
  else if String.eqb lt "nan" then Some S754_nan
  else
    let '(ip, r1) := span_digits t in
    let '(fp, r2) :=
      match r1 with
      | String "." r => span_digits r
      | _ => (EmptyString, r1)
      end in
    match digits_value (ip ++ fp) with
    | None => None
    | Some d =>
        let exp :=
          match r2 with
          | EmptyString => Some 0
          | String c r3 =>
              if Ascii.eqb c "e" || Ascii.eqb c "E" then signed_digits_value r3
              else None
          end in
        option_map
          (fun x => float_of_decimal s d (x - Z.of_nat (String.length fp))) exp
    end.

(** [float(s)] for a string of ASCII characters: [None] is [ValueError]. *)
Definition float_of_string (s : string) : option float :=
  match drop_underscores false (c_strip s) with
  | None => None
  | Some t => let '(neg, r) := split_sign t in float_body neg r
  end.

(** [n / d] rounded to the nearest integer, ties to even ([0 <= n], [0 < d]) *)
Definition div_half_even (n d : Z) : Z :=
  let q := n / d in
  match 2 * (n mod d) ?= d with
  | Lt => q
  | Gt => q + 1
  | Eq => if Z.even q then q else q + 1
  end.

(** [m * 2^e] in hundredths, correctly rounded *)
Definition hundredths (m : positive) (e : Z) : Z :=
  if 0 <=? e then Zpos m * 2 ^ e * 100
  else div_half_even (Zpos m * 100) (2 ^ (- e)).

Definition two_digits (n : Z) : string :=
  (if n <? 10 then "0" else "") ++ str_of_Z n.

Definition format_hundredths (s : bool) (c : Z) : string :=
  (if s then "-" else "") ++ str_of_Z (c / 100) ++ "." ++ two_digits (c mod 100).

(** [f"{x:.2f}"] *)
Definition format_2f (x : float) : string :=
  match x with
  | S754_zero s => format_hundredths s 0
  | S754_infinity s => if s then "-inf" else "inf"
  | S754_nan => "nan"
  | S754_finite s m e => format_hundredths s (hundredths m e)
  end.

(** [s.center(w)]: of an odd number of spaces the larger half goes to the
    left when [w] is odd, to the right otherwise. *)
Definition center (w : nat) (s : string) : string :=
  let marg := (w - len s)%nat in
  let left := (Nat.div2 marg + (if Nat.odd marg && Nat.odd w then 1 else 0))%nat in
  spaces left ++ s ++ spaces (marg - left).

End Py.


(** ** Data model *)

(** A text attribute of a [Medicine] is a Python [str] or [None]
    ([csv.DictReader] fills the missing cells of a short row with [None]). *)
Definition text := option string.

Record Medicine := {
  id : Z;
  name : text;
  intensity : text;
  disease : text;
  cost : Py.float;
  quantity : Z
}.

(** [Medicine.__init__]: an unparsable [id_] becomes [0], an unparsable [cost]
    [0.0], and [quantity] starts at [1]. *)
Definition Medicine_init (id_ name_ intensity_ disease_ cost_ : text) : Medicine :=
  {| id := match id_ with
           | Some s => match Py.int_of_string s with Some z => z | None => 0 end
           | None => 0
           end;
     name := name_;
     intensity := intensity_;
     disease := disease_;
     cost := match cost_ with
             | Some s =>
                 match Py.float_of_string s with Some x => x | None => Py.fzero end
             | None => Py.fzero
             end;
     quantity := 1 |}.

Definition set_quantity (m : Medicine) (q : Z) : Medicine :=
  {| id := id m; name := name m; intensity := intensity m;
     disease := disease m; cost := cost m; quantity := q |}.

(** ** CSV files *)

Definition row := list string.

(** A record of [csv.DictReader]: the field names and the cells of the row. *)
Definition dict_row := (row * row)%type.

(** [csv.DictReader(f)]: the first row gives the field names, blank rows are
    skipped. *)
Definition DictReader (rows : list row) : list dict_row :=
  match rows with
  | [] => []
  | fieldnames :: rest =>
      map (pair fieldnames)
          (filter (fun r => match r with [] => false | _ => true end) rest)
  end.

(** The value stored under [key]: the outer [None] says that the key is
    absent, [Some None] that the row is too short to have the cell.  Of two
    columns of the same name the later one wins. *)
Fixpoint lookup (fieldnames cells : row) (key : string) : option text :=
  match fieldnames with
  | [] => None
  | f :: fieldnames' =>
      match lookup fieldnames' (tl cells) key with
      | Some v => Some v
      | None => if String.eqb f key then Some (hd_error cells) else None
      end
  end.

(** [row.get(key, default)] *)
Definition get (r : dict_row) (key : string) (default : text) : text :=
  match lookup (fst r) (snd r) key with
  | Some v => v
  | None => default
  end.

(** truth value of a [str] or [None] *)
Definition truthy (v : text) : bool :=
  match v with
  | Some (String _ _) => true
  | _ => false
  end.

(** what [csv.writer] writes for a [str] or [None] cell *)
Definition cell (v : text) : string :=
  match v with Some s => s | None => "" end.

(** ** The world: files, terminal and random source *)

Record World := {
  store_file : option (list row);        (* data/store.csv *)
  cart_file : option (list row);         (* data/cart.csv *)
  instr_file : option string;            (* data/instructions.txt *)
  output_dir : list (string * string);   (* output/: file name and content *)
  stdin : list string;                   (* the lines still to be typed *)
  stdout : list string;                  (* what was printed, oldest first *)
  uuid4_hex : nat -> string;             (* successive uuid.uuid4().hex *)
  uuid4_calls : nat
}.

Definition with_store (f : option (list row)) (w : World) : World :=
  {| store_file := f; cart_file := cart_file w; instr_file := instr_file w;
     output_dir := output_dir w; stdin := stdin w; stdout := stdout w;
     uuid4_hex := uuid4_hex w; uuid4_calls := uuid4_calls w |}.

Definition with_cart (f : option (list row)) (w : World) : World :=
  {| store_file := store_file w; cart_file := f; instr_file := instr_file w;
     output_dir := output_dir w; stdin := stdin w; stdout := stdout w;
     uuid4_hex := uuid4_hex w; uuid4_calls := uuid4_calls w |}.

Definition with_instr (f : option string) (w : World) : World :=
  {| store_file := store_file w; cart_file := cart_file w; instr_file := f;
     output_dir := output_dir w; stdin := stdin w; stdout := stdout w;
     uuid4_hex := uuid4_hex w; uuid4_calls := uuid4_calls w |}.

Definition with_output (d : list (string * string)) (w : World) : World :=
  {| store_file := store_file w; cart_file := cart_file w;
     instr_file := instr_file w; output_dir := d; stdin := stdin w;
     stdout := stdout w; uuid4_hex := uuid4_hex w;
     uuid4_calls := uuid4_calls w |}.

Definition with_stdin (l : list string) (w : World) : World :=
  {| store_file := store_file w; cart_file := cart_file w;
     instr_file := instr_file w; output_dir := output_dir w; stdin := l;
     stdout := stdout w; uuid4_hex := uuid4_hex w;
     uuid4_calls := uuid4_calls w |}.

Definition with_stdout (l : list string) (w : World) : World :=
  {| store_file := store_file w; cart_file := cart_file w;
     instr_file := instr_file w; output_dir := output_dir w; stdin := stdin w;
     stdout := l; uuid4_hex := uuid4_hex w; uuid4_calls := uuid4_calls w |}.

Definition with_uuid4_calls (n : nat) (w : World) : World :=
  {| store_file := store_file w; cart_file := cart_file w;
     instr_file := instr_file w; output_dir := output_dir w; stdin := stdin w;
     stdout := stdout w; uuid4_hex := uuid4_hex w; uuid4_calls := n |}.

(** [open(path, "w")] on a file of the output directory replaces a file of
    the same name. *)
Definition write_file (fname content : string) (d : list (string * string))
  : list (string * string) :=
  filter (fun p => negb (String.eqb (fst p) fname)) d ++ [(fname, content)].

(** ** Computations: state and exceptions *)

(** The exceptions the modelled code can raise. *)
Inductive exn := EOFError | ValueError | TypeError | OverflowError.

(** [OutOfFuel] belongs to the model only: the [while True] loops are run
    with a bound taken from the input that is left (see [while_true]). *)
Inductive outcome (A : Type) :=
| Return (a : A)
| Raise (e : exn)
| OutOfFuel.
Arguments Return {A} a.
Arguments Raise {A} e.
Arguments OutOfFuel {A}.

Definition M (A : Type) : Type := World -> outcome A * World.

Definition ret {A} (a : A) : M A := fun w => (Return a, w).

Definition raise {A} (e : exn) : M A := fun w => (Raise e, w).

Definition bind {A B} (c : M A) (k : A -> M B) : M B :=
  fun w =>
    match c w with
    | (Return a, w') => k a w'
    | (Raise e, w') => (Raise e, w')
    | (OutOfFuel, w') => (OutOfFuel, w')
    end.

(** [try: c  except Exception: h] *)
Definition try_except {A} (c : M A) (h : M A) : M A :=
  fun w =>
    match c w with
    | (Raise _, w') => h w'
    | r => r
    end.

Declare Scope py_scope.
Delimit Scope py_scope with py.
Notation "x <- c ;; k" := (bind c (fun x => k))
  (at level 61, c at next level, right associativity) : py_scope.
Notation "c ;; k" := (bind c (fun _ => k))
  (at level 61, right associativity) : py_scope.
#[local] Open Scope py_scope.

(** the outcome of a Python expression that may raise *)
Definition lift {A} (e : exn) (o : option A) : M A :=
  match o with Some a => ret a | None => raise e end.

Definition print (s : string) : M unit :=
  fun w => (Return tt, with_stdout (stdout w ++ [s]) w).

(** [input(prompt)]: [EOFError] when nothing is left to read. *)
Definition input (prompt : string) : M string :=
  fun w =>
    let w' := with_stdout (stdout w ++ [prompt]) w in
    match stdin w with
    | [] => (Raise EOFError, w')
    | l :: rest => (Return l, with_stdin rest w')
    end.

(** the final state and the result of a computation *)
Definition exec {A} (c : M A) (w : World) : World := snd (c w).
Definition eval {A} (c : M A) (w : World) : outcome A := fst (c w).

(** [while True: body], the loop state passed along: the body answers
    [inl s] to go round again ([continue], or the end of the body) and
    [inr a] to [return a]. *)
Fixpoint loop {S A} (fuel : nat) (body : S -> M (S + A)) (s : S) : M A :=
  match fuel with
  | O => fun w => (OutOfFuel, w)
  | Datatypes.S fuel' =>
      r <- body s;;
      match r with
      | inl s' => loop fuel' body s'
      | inr a => ret a
      end
  end.

(** Every round of the program's loops reads a line, so one round more than
    there are lines left is enough. *)
Definition while_true {S A} (body : S -> M (S + A)) (s : S) : M A :=
  fun w => loop (Datatypes.S (List.length (stdin w))) body s w.

(** ** The program *)

Definition NL : string := String (ascii_of_nat 10) EmptyString.
Definition TAB : string := String (ascii_of_nat 9) EmptyString.
Definition rule (c : ascii) (n : nat) : string := Py.repeat_char c n.

(** [f"{v}"] for a [str] or [None] *)
Definition str_of_text (v : text) : string :=
  match v with Some s => s | None => "None" end.

Definition OUTPUT_DIR : string := "output".

Definition CART_HEADER : row :=
  ["id"; "name"; "intensity"; "disease"; "cost"; "quantity"].

Definition sample : list row :=
  [ ["id"; "name"; "intensity"; "disease"; "cost"];
    ["101"; "Paracetamol"; "500mg"; "Fever"; "20.00"];
    ["102"; "Dolo"; "650mg"; "Fever"; "30.00"];
    ["103"; "Azithromycin"; "250mg"; "Infection"; "85.00"];
    ["104"; "Amoxicillin"; "500mg"; "Infection"; "60.00"];
    ["105"; "Cetirizine"; "10mg"; "Allergy"; "30.00"];
    ["106"; "Omeprazole"; "20mg"; "Acidity"; "50.00"];
    ["107"; "Multivitamin"; "1tab"; "General Health"; "25.00"];
    ["108"; "Ibuprofen"; "400mg"; "Pain Relief"; "45.00"];
    ["109"; "Cetraxal"; "10mg"; "Ear Infection"; "120.00"] ].

Definition instructions_text : string :=
  "Welcome to Chemist 4 U (Python CLI Edition)" ++ NL ++
  "--------------------------------------------" ++ NL ++
  "1. Choose 'Place your order' to search medicines by disease." ++ NL ++
  "2. Add medicines by ID and specify quantity to your cart." ++ NL ++
  "3. View or delete items (or quantities) before billing." ++ NL ++
  "4. Payment mode: Cash on Delivery." ++ NL ++
  "5. Bill will be saved automatically in the /output folder." ++ NL.

Definition ensure_folders_and_files : M unit :=
  fun w =>
    let w1 := match store_file w with
              | None => with_store (Some sample) w
              | Some _ => w
              end in
    let w2 := match cart_file w1 with
              | None => with_cart (Some [CART_HEADER]) w1
              | Some _ => w1
              end in
    let w3 := match instr_file w2 with
              | None => with_instr (Some instructions_text) w2
              | Some _ => w2
              end in
    (Return tt, w3).

(** *** Store and cart operations *)

(** [if not row.get("id"): continue] *)
Definition has_id (r : dict_row) : bool := truthy (get r "id" None).

Definition medicine_of_row (r : dict_row) : Medicine :=
  Medicine_init (get r "id" (Some "0")) (get r "name" (Some ""))
    (get r "intensity" (Some "")) (get r "disease" (Some ""))
    (get r "cost" (Some "0")).

(** [int(row.get("quantity", 1))], [1] when that raises *)
Definition quantity_of_row (r : dict_row) : Z :=
  match lookup (fst r) (snd r) "quantity" with
  | None => 1
  | Some None => 1
  | Some (Some s) =>
      match Py.int_of_string s with Some q => q | None => 1 end
  end.

Definition store_items (rows : list row) : list Medicine :=
  map medicine_of_row (filter has_id (DictReader rows)).

Definition load_store : M (list Medicine) :=
  fun w =>
    match store_file w with
    | None => (Return [], w)
    | Some rows => (Return (store_items rows), w)
    end.

Definition cart_item (r : dict_row) : Medicine :=
  set_quantity (medicine_of_row r) (quantity_of_row r).

Definition cart_items (rows : list row) : list Medicine :=
  map cart_item (filter has_id (DictReader rows)).

Definition read_cart : M (list Medicine) :=
  fun w =>
    match cart_file w with
    | None => (Return [], w)
    | Some rows => (Return (cart_items rows), w)
    end.

(** the row written for an item *)
Definition cart_row (it : Medicine) : row :=
  [ Py.str_of_Z (id it); cell (name it); cell (intensity it);
    cell (disease it); Py.format_2f (cost it); Py.str_of_Z (quantity it) ].

(** [csv.writer] turns the id and the quantity into text with [str]: the
    rows are all written when these numbers are [printable], and always
    with the limit lifted, as here. *)
Definition write_cart_from_items (items : list Medicine) : M unit :=
  fun w => (Return tt, with_cart (Some (CART_HEADER :: map cart_row items)) w).

Definition clear_cart : M unit :=
  fun w => (Return tt, with_cart (Some [CART_HEADER]) w).

(** The [for]/[else] of [append_to_cart]: the first item of the same id has
    its quantity raised; when there is none, [med] is appended with [qty] as
    its quantity. *)
Fixpoint add_or_merge (items : list Medicine) (med : Medicine) (qty : Z)
  : list Medicine :=
  match items with
  | [] => [set_quantity med qty]
  | it :: rest =>
      if id it =? id med then set_quantity it (quantity it + qty) :: rest
      else it :: add_or_merge rest med qty
  end.

(** [med.quantity = qty] also changes the object of the caller, who reads
    its name only afterwards. *)
Definition append_to_cart (med : Medicine) (qty : Z) : M unit :=
  if qty <=? 0 then ret tt
  else
    items <- read_cart;;
    write_cart_from_items (add_or_merge items med qty).

(** *** Display *)

(** [it.cost * it.quantity] *)
Definition subtotal_of (it : Medicine) : M Py.float :=
  lift OverflowError (Py.fmul_int (cost it) (quantity it)).

(** [f"{x:w}"] on [None] raises [TypeError]. *)
Definition format_text (w : nat) (v : text) : M string :=
  match v with
  | Some s => ret (Py.ljust w s)
  | None => raise TypeError
  end.

(** [f"{it.name:30} {it.quantity:3}  ₹{it.cost:8.2f}  ₹{subtotal:10.2f}"] *)
Definition item_line (it : Medicine) (subtotal : Py.float) : M string :=
  n <- format_text 30 (name it);;
  ret (n ++ " " ++ Py.rjust 3 (Py.str_of_Z (quantity it)) ++ "  ₹" ++
       Py.rjust 8 (Py.format_2f (cost it)) ++ "  ₹" ++
       Py.rjust 10 (Py.format_2f subtotal)).

Definition table_head : string :=
  Py.ljust 30 "Item" ++ " " ++ Py.rjust 3 "Qty" ++ "  " ++ Py.rjust 8 "Rate" ++
  "  " ++ Py.rjust 10 "Subtotal".

(** [Medicine.print] *)
Definition Medicine_print (m : Medicine) : M unit :=
  print ("ID: " ++ Py.str_of_Z (id m));;
  print ("Name: " ++ str_of_text (name m));;
  print ("Intensity: " ++ str_of_text (intensity m));;
  print ("Disease: " ++ str_of_text (disease m));;
  print ("Cost: ₹" ++ Py.format_2f (cost m));;
  print (rule "-" 40).

(** [for x in l: f(x)] *)
Fixpoint for_each {A} (l : list A) (f : A -> M unit) : M unit :=
  match l with
  | [] => ret tt
  | x :: l' => f x;; for_each l' f
  end.

(** the loop of [display_cart] that prints the lines and adds up [total] *)
Fixpoint display_lines (items : list Medicine) (total : Py.float) : M Py.float :=
  match items with
  | [] => ret total
  | it :: rest =>
      subtotal <- subtotal_of it;;
      l <- item_line it subtotal;;
      print l;;
      display_lines rest (Py.fadd total subtotal)
  end.

Definition display_cart (return_choice : bool) : M (option string) :=
  items <- read_cart;;
  print (rule "=" 60);;
  print (TAB ++ TAB ++ "YOUR CURRENT CART");;
  print (rule "=" 60);;
  match items with
  | [] =>
      print "Cart is empty.";;
      if return_choice then
        input (NL ++ "Press Enter to return to main menu...");;
        ret (Some "m")
      else
        input "Press Enter to continue...";;
        ret None
  | _ =>
      print table_head;;
      print (rule "-" 60);;
      total <- display_lines items Py.fzero;;
      print (rule "-" 60);;
      print ("Total = ₹" ++ Py.format_2f total);;
      if negb return_choice then
        input "Press Enter to continue...";;
        ret None
      else
        while_true (fun _ : unit =>
          print (NL ++ "Options: [B]ill now   [D]elete item from cart   [M]ain menu");;
          ch <- input "Choose B / D / M: ";;
          let ch := Py.lower (Py.strip ch) in
          if String.eqb ch "b" || String.eqb ch "d" || String.eqb ch "m"
          then ret (inr (Some ch))
          else
            print "Invalid choice. Enter B, D or M.";;
            ret (inl tt)) tt
  end.

(** *** Deletion *)

(** [next((it for it in items if it.id == id_to_del), None)] *)
Definition find_item (id_to_del : Z) (items : list Medicine) : option Medicine :=
  find (fun it => id it =? id_to_del) items.

(** [items.remove(found)], [found] being the first item of that id *)
Fixpoint remove_found (id_to_del : Z) (items : list Medicine) : list Medicine :=
  match items with
  | [] => []
  | it :: rest =>
      if id it =? id_to_del then rest else it :: remove_found id_to_del rest
  end.

(** [found.quantity -= qty_del]: [found] is the object held by the list, so
    the list sees the new quantity. *)
Fixpoint decrease_found (id_to_del qty_del : Z) (items : list Medicine)
  : list Medicine :=
  match items with
  | [] => []
  | it :: rest =>
      if id it =? id_to_del then set_quantity it (quantity it - qty_del) :: rest
      else it :: decrease_found id_to_del qty_del rest
  end.

(** lines 274-279: what [items] is after the deletion of [qty_del] of [found] *)
Definition remove_quantity (items : list Medicine) (found : Medicine)
  (qty_del : Z) : list Medicine :=
  if quantity found <=? qty_del then remove_found (id found) items
  else decrease_found (id found) qty_del items.

(** [int(input(prompt).strip())] under [try]: [None] stands for the
    [except Exception] branch, which prints [msg]. *)
Definition input_int (prompt msg : string) : M (option Z) :=
  try_except
    (s <- input prompt;;
     z <- lift ValueError (Py.int_of_string (Py.strip s));;
     ret (Some z))
    (print msg;; ret None).

(** Lines 260-291: the deletion of the item of id [id_to_del]; [items] is
    the list read before the loop, which the rounds change in place. *)
Definition delete_item (items : list Medicine) (id_to_del : Z)
  : M (list Medicine + unit) :=
  match find_item id_to_del items with
  | None =>
      print "Medicine ID not found in cart.";;
      ret (inl items)
  | Some found =>
      print ("Current quantity of " ++ str_of_text (name found) ++ ": " ++
             Py.str_of_Z (quantity found));;
      q <- input_int ("Enter how many to delete (1–" ++
                      Py.str_of_Z (quantity found) ++ "): ")
                     "Invalid number.";;
      match q with
      | None => ret (inl items)
      | Some qty_del =>
          let items' := remove_quantity items found qty_del in
          (if quantity found <=? qty_del then
             print ("Removed all " ++ str_of_text (name found) ++ " from cart.")
           else
             print ("Removed " ++ Py.str_of_Z qty_del ++ " of " ++
                    str_of_text (name found) ++ ". Remaining: " ++
                    Py.str_of_Z (quantity found - qty_del)));;
          write_cart_from_items items';;
          match items' with
          | [] =>
              print "Cart is now empty.";;
              ret (inr tt)
          | _ =>
              more <- input "Delete another item? (y/n): ";;
              if String.eqb (Py.lower (Py.strip more)) "y"
              then ret (inl items')
              else ret (inr tt)
          end
      end
  end.

(** One round of the loop of [delete_from_cart]. *)
Definition delete_round (items : list Medicine) : M (list Medicine + unit) :=
  display_cart false;;
  r <- input_int "Enter ID of medicine to delete (0 to cancel): " "Invalid input.";;
  match r with
  | None => ret (inl items)
  | Some id_to_del =>
      if id_to_del =? 0 then ret (inr tt)
      else delete_item items id_to_del
  end.

Definition delete_from_cart : M unit :=
  items <- read_cart;;
  match items with
  | [] => print "Cart is empty. Nothing to delete."
  | _ => while_true delete_round items
  end.

(** *** Order and billing *)

(** [(m.disease or "").strip().lower()] *)
Definition disease_key (m : Medicine) : string :=
  Py.lower (Py.strip (match disease m with Some s => s | None => "" end)).

Definition find_by_disease (disease_ : string) : M (list Medicine) :=
  meds <- load_store;;
  ret (filter (fun m => String.eqb (disease_key m) (Py.lower (Py.strip disease_)))
              meds).

(** line 378 of [place_order]: the medicines whose disease contains the term *)
Definition approximate_matches (disease_ : string) (meds : list Medicine)
  : list Medicine :=
  filter (fun m => Py.contains (Py.lower (Py.strip disease_)) (disease_key m)) meds.

(** [uuid.uuid4().hex[:10].upper()] *)
Definition generate_tracking_id : M string :=
  fun w =>
    (Return (Py.upper (Py.take 10 (uuid4_hex w (uuid4_calls w)))),
     with_uuid4_calls (Datatypes.S (uuid4_calls w)) w).

(** The item lines of the bill: the text written before an exception stays
    in the file. *)
Fixpoint bill_lines (items : list Medicine) (written : string)
  : string * option exn :=
  match items with
  | [] => (written, None)
  | it :: rest =>
      match Py.fmul_int (cost it) (quantity it), name it with
      | None, _ => (written, Some OverflowError)
      | Some _, None => (written, Some TypeError)
      | Some subtotal, Some n =>
          bill_lines rest
            (written ++ Py.ljust 30 n ++ " " ++
             Py.rjust 3 (Py.str_of_Z (quantity it)) ++ "  ₹" ++
             Py.rjust 8 (Py.format_2f (cost it)) ++ "  ₹" ++
             Py.rjust 10 (Py.format_2f subtotal) ++ NL)
      end
  end.

Definition bill_filename (tracking_id : string) : string :=
  "bill_" ++ tracking_id ++ ".txt".

(** what [save_bill] writes before the item lines *)
Definition bill_head (name_ address phone : string) : string :=
  "CHEMIST 4 U" ++ NL ++
  rule "=" 60 ++ NL ++
  "Customer: " ++ name_ ++ NL ++
  "Address:  " ++ address ++ NL ++
  "Phone:    " ++ phone ++ NL ++
  rule "-" 60 ++ NL ++
  table_head ++ NL ++
  rule "-" 60 ++ NL.

(** what [save_bill] writes after the item lines *)
Definition bill_foot (total : Py.float) (tracking_id : string) : string :=
  rule "-" 60 ++ NL ++
  "Total: ₹" ++ Py.format_2f total ++ NL ++
  "Payment Mode: Cash on Delivery" ++ NL ++
  "Tracking ID: " ++ tracking_id ++ NL ++
  rule "=" 60 ++ NL ++
  "Thank you for shopping with Chemist 4 U!" ++ NL.

Definition save_bill (name_ address phone : string) (items : list Medicine)
  (total : Py.float) (tracking_id : string) : M string :=
  fun w =>
    let filename := bill_filename tracking_id in
    let filepath := OUTPUT_DIR ++ "/" ++ filename in
    match bill_lines items (bill_head name_ address phone) with
    | (written, Some e) =>
        (Raise e, with_output (write_file filename written (output_dir w)) w)
    | (written, None) =>
        (Return filepath,
         with_output
           (write_file filename (written ++ bill_foot total tracking_id)
                       (output_dir w)) w)
    end.

(** [sum(it.cost * it.quantity for it in items)], the additions done from
    left to right on [acc] (which starts as [0]). *)
Fixpoint sum_subtotals (items : list Medicine) (acc : Py.float) : M Py.float :=
  match items with
  | [] => ret acc
  | it :: rest =>
      subtotal <- subtotal_of it;;
      sum_subtotals rest (Py.fadd acc subtotal)
  end.

Definition bill_process : M unit :=
  items <- read_cart;;
  match items with
  | [] => print "Cart is empty! Add items before billing."
  | _ =>
      print (rule "=" 60);;
      print (TAB ++ TAB ++ "BILLING INFORMATION");;
      print (rule "=" 60);;
      name_ <- input "Name: ";;
      address <- input "Address: ";;
      phone <- input "Phone: ";;
      let name_ := Py.strip name_ in
      let address := Py.strip address in
      let phone := Py.strip phone in
      total <- sum_subtotals items Py.fzero;;
      tracking_id <- generate_tracking_id;;
      path <- save_bill name_ address phone items total tracking_id;;
      print (rule "=" 60);;
      print (TAB ++ TAB ++ "CHEMIST 4 U - BILL SUMMARY");;
      print (rule "=" 60);;
      for_each items (fun it =>
        subtotal <- subtotal_of it;;
        print (str_of_text (name it) ++ " (" ++ str_of_text (intensity it) ++
               ") x " ++ Py.str_of_Z (quantity it) ++ " → ₹" ++
               Py.format_2f subtotal));;
      print (rule "-" 60);;
      print ("TOTAL COST: ₹" ++ Py.format_2f total);;
      print ("Tracking ID: " ++ tracking_id);;
      print ("Bill saved at: " ++ path);;
      print (NL ++ "Payment Mode: CASH ON DELIVERY");;
      print "Thank you for shopping with Chemist 4 U!";;
      clear_cart;;
      input (NL ++ "Press Enter to return to menu...");;
      ret tt
  end.

(** What the search of [place_order] hands on: the exact matches, or, when
    there are none, the approximate ones (lines 374-378). *)
Inductive search_result :=
| Exact (results : list Medicine)
| Approximate (approx : list Medicine).

Definition search (disease_ : string) : M search_result :=
  results <- find_by_disease disease_;;
  match results with
  | [] =>
      print "No medicines found for that disease (case-insensitive exact match).";;
      meds <- load_store;;
      ret (Approximate (approximate_matches disease_ meds))
  | _ => ret (Exact results)
  end.

(** [if read_cart(): bill_process() else: print(msg)] *)
Definition bill_if_cart (msg : string) : M unit :=
  items <- read_cart;;
  match items with
  | [] => print msg
  | _ => bill_process
  end.

(** the inner loop of [place_order]: every choice but an invalid one leaves
    [place_order] *)
Definition next_step_round (_ : unit) : M (unit + unit) :=
  print (NL ++ "What would you like to do next?");;
  print "[B] Proceed to BILLING";;
  print "[C] Go to CART (view/manage)";;
  print "[M] Return to MAIN MENU";;
  next_choice <- input "Choose B / C / M: ";;
  let next_choice := Py.lower (Py.strip next_choice) in
  if String.eqb next_choice "b" then
    bill_if_cart "Cart is empty; cannot bill.";;
    ret (inr tt)
  else if String.eqb next_choice "c" then
    cart_action <- display_cart true;;
    match cart_action with
    | Some "d" =>
        delete_from_cart;;
        post <- input "After cart changes: [B]ill now or [M]ain menu? (B/M): ";;
        if String.eqb (Py.lower (Py.strip post)) "b" then
          items <- read_cart;;
          match items with
          | [] => ret (inr tt)
          | _ => bill_process;; ret (inr tt)
          end
        else ret (inr tt)
    | Some "b" =>
        bill_if_cart "Cart empty; nothing to bill.";;
        ret (inr tt)
    | _ => ret (inr tt)
    end
  else if String.eqb next_choice "m" then ret (inr tt)
  else
    print "Invalid choice. Enter B, C or M.";;
    ret (inl tt).

(** the quantity asked for in [place_order]: [None] for [continue] *)
Definition input_quantity : M (option Z) :=
  try_except
    (s <- input "Enter quantity to add: ";;
     qty <- lift ValueError (Py.int_of_string (Py.strip s));;
     if qty <=? 0 then
       print "Quantity must be >= 1.";;
       ret None
     else ret (Some qty))
    (print "Invalid quantity.";; ret None).

Definition place_order_round (_ : unit) : M (unit + unit) :=
  print (TAB ++ TAB ++ "PLACE YOUR ORDER");;
  print (rule "-" 60);;
  disease_ <- input "Enter disease to search (or 'back' to return): ";;
  let disease_ := Py.strip disease_ in
  if String.eqb (Py.lower disease_) "back" then ret (inr tt)
  else
    found <- search disease_;;
    match found with
    | Approximate approx =>
        match approx with
        | [] => ret tt
        | _ =>
            print (NL ++ "Approximate matches based on substring in disease:");;
            for_each approx Medicine_print
        end;;
        input "Press Enter to continue...";;
        ret (inl tt)
    | Exact results =>
        print (NL ++ "Found " ++ Py.str_of_Z (Z.of_nat (List.length results)) ++
               " medicine(s):");;
        for_each results Medicine_print;;
        r <- input_int "Enter ID to add to cart (0 to cancel): " "Invalid input.";;
        match r with
        | None => ret (inl tt)
        | Some id_choice =>
            if id_choice =? 0 then ret (inl tt)
            else
              chosen <-
                match find_item id_choice results with
                | Some m => ret (Some m)
                | None =>
                    all_meds <- load_store;;
                    ret (find_item id_choice all_meds)
                end;;
              added <-
                match chosen with
                | Some med =>
                    q <- input_quantity;;
                    match q with
                    | None => ret false
                    | Some qty =>
                        append_to_cart med qty;;
                        print ("Added " ++ Py.str_of_Z qty ++ " x " ++
                               str_of_text (name med) ++ " to cart!");;
                        ret true
                    end
                | None =>
                    print "Invalid ID. ";;
                    ret true
                end;;
              if added then
                while_true next_step_round tt;;
                ret (inr tt)
              else ret (inl tt)
        end
    end.

Definition place_order : M unit := while_true place_order_round tt.

(** *** The other screens and the menu *)

(** [Medicine.to_row]: the values handed to a [csv.writer], the numbers
    as it writes them. *)
Definition Medicine_to_row (m : Medicine) : list text :=
  [ Some (Py.str_of_Z (id m)); name m; intensity m; disease m;
    Some (Py.format_2f (cost m)); Some (Py.str_of_Z (quantity m)) ].

Definition display_store : M unit :=
  meds <- load_store;;
  print (rule "=" 60);;
  print (TAB ++ TAB ++ "CHEMIST 4 U - MEDICINE LIST");;
  print (rule "=" 60);;
  match meds with
  | [] => print "No medicines in store."
  | _ => for_each meds Medicine_print
  end;;
  input "Press Enter to return to menu...";;
  ret tt.

(** [open(INSTR_FILE)] fails when the file is missing, the one failure of
    the [try] block that the model has. *)
Definition instructions : M unit :=
  (fun w =>
     match instr_file w with
     | Some content => print content w
     | None => print "No instructions file found." w
     end);;
  input (NL ++ "Press Enter to return to menu...");;
  ret tt.

(** One round of the loop of [main_menu]: [inr tt] is [sys.exit(0)]. *)
Definition menu_round (_ : unit) : M (unit + unit) :=
  print (Py.center 60 "CHEMIST 4 U");;
  print (rule "=" 60);;
  print "1. Instructions";;
  print "2. Place your order";;
  print "3. View medicines";;
  print "4. View cart";;
  print "5. Exit";;
  print (rule "=" 60);;
  choice <- input "Enter your choice: ";;
  let choice := Py.strip choice in
  if String.eqb choice "1" then
    instructions;;
    ret (inl tt)
  else if String.eqb choice "2" then
    place_order;;
    ret (inl tt)
  else if String.eqb choice "3" then
    display_store;;
    ret (inl tt)
  else if String.eqb choice "4" then
    action <- display_cart true;;
    match action with
    | Some "d" =>
        delete_from_cart;;
        items <- read_cart;;
        match items with
        | [] => ret (inl tt)
        | _ =>
            answer <- input "Bill now? (y/n): ";;
            if String.eqb (Py.lower (Py.strip answer)) "y" then
              bill_process;;
              ret (inl tt)
            else ret (inl tt)
        end
    | Some "b" =>
        bill_if_cart "Cart is empty.";;
        ret (inl tt)
    | _ => ret (inl tt)
    end
  else if String.eqb choice "5" then
    print (Py.center 60 "CHEMIST 4 U");;
    print "Your Health. Our Expertise.";;
    print "Thank you for visiting!";;
    ret (inr tt)
  else
    print "Invalid choice.";;
    ret (inl tt).

Definition main_menu : M unit :=
  ensure_folders_and_files;;
  while_true menu_round tt.

(** ** Worlds for the examples *)

Definition no_uuid (n : nat) : string := "3f2a9c01d4e5b6a7c8d9e0f1a2b3c4d5".

Definition world0 : World :=
  {| store_file := None; cart_file := None; instr_file := None;
     output_dir := []; stdin := []; stdout := [];
     uuid4_hex := no_uuid; uuid4_calls := 0 |}.

(** ** Notions used in the statements *)

Fixpoint all_chars (P : ascii -> bool) (s : string) : bool :=
  match s with
  | EmptyString => true
  | String c s' => P c && all_chars P s'
  end.

(** a character of the numeral that [str] gives for an integer *)
Definition numeral_char (c : ascii) : bool := Py.is_digit c || Ascii.eqb c "-".

(** the cart that [read_cart] returns in a world *)
Definition cart_of (w : World) : list Medicine :=
  match cart_file w with
  | None => []
  | Some rows => cart_items rows
  end.

(** the catalog that [load_store] returns in a world *)
Definition store_of (w : World) : list Medicine :=
  match store_file w with
  | None => []
  | Some rows => store_items rows
  end.

(** What [read_cart] makes of the row that [write_cart_from_items] wrote for
    [it]: the id and the quantity are those of [it]; a text that was [None]
    comes back as the empty string, and the cost as the float of its two
    decimals. *)
Definition read_back (it : Medicine) : Medicine :=
  {| id := id it;
     name := Some (cell (name it));
     intensity := Some (cell (intensity it));
     disease := Some (cell (disease it));
     cost := match Py.float_of_string (Py.format_2f (cost it)) with
             | Some x => x
             | None => Py.fzero
             end;
     quantity := quantity it |}.

(** The cost of [it] is printed with the same two decimals after it has
    been written and read: so it is for the costs of two decimals within
    the precision of a float. *)
Definition stable_cost (it : Medicine) : Prop :=
  Py.format_2f (cost (read_back it)) = Py.format_2f (cost it).

(** a row of the cart file without its cost cell *)
Definition without_cost (r : row) : row :=
  match r with
  | [i; n; s; d; c; q] => [i; n; s; d; q]
  | _ => r
  end.

(** the product id and the quantity of each entry, in order *)
Definition id_quantity (it : Medicine) : Z * Z := (id it, quantity it).

(** the entries of a cart for product [p] *)
Definition entries_for (p : Z) (items : list Medicine) : list Medicine :=
  filter (fun it => id it =? p) items.

(** no entry of [items] is for product [p] *)
Definition absent (p : Z) (items : list Medicine) : Prop :=
  Forall (fun it => id it <> p) items.

(** at most one entry per product id *)
Definition one_entry_per_id (items : list Medicine) : Prop :=
  NoDup (map id items).

(** The search in the words of the specification.  Two strings are the same
    but for the case of their letters; a term matches a product exactly when
    it is its ailment but for case and surrounding whitespace, and
    approximately when, case apart, the trimmed term occurs in the trimmed
    ailment. *)
Fixpoint same_ignoring_case (a b : string) : Prop :=
  match a, b with
  | EmptyString, EmptyString => True
  | String x a', String y b' =>
      Py.lower_char x = Py.lower_char y /\ same_ignoring_case a' b'
  | _, _ => False
  end.

Definition ailment (m : Medicine) : string :=
  match disease m with Some s => s | None => "" end.

Definition exact_match (term : string) (m : Medicine) : Prop :=
  same_ignoring_case (Py.strip (ailment m)) (Py.strip term).

Definition occurs_in (needle hay : string) : Prop :=
  exists pre post, hay = pre ++ needle ++ post.

Definition approximate_match (term : string) (m : Medicine) : Prop :=
  occurs_in (Py.lower (Py.strip term)) (Py.lower (Py.strip (ailment m))).

(** The grand total in the words of the specification: the subtotal of an
    entry is its unit cost times its quantity, the grand total the sum of the
    subtotals, taken in the order of the cart.  [None] when a quantity is
    too large for a float. *)
Definition subtotal (it : Medicine) : option Py.float :=
  Py.fmul_int (cost it) (quantity it).

Fixpoint subtotals (items : list Medicine) : option (list Py.float) :=
  match items with
  | [] => Some []
  | it :: rest =>
      match subtotal it, subtotals rest with
      | Some x, Some l => Some (x :: l)
      | _, _ => None
      end
  end.

Definition grand_total (items : list Medicine) : option Py.float :=
  option_map (fun l => fold_left Py.fadd l Py.fzero) (subtotals items).

(** the first entry for [p] has quantity [q]; [0] when there is none *)
Definition quantity_for (p : Z) (items : list Medicine) : Z :=
  match find_item p items with
  | Some e => quantity e
  | None => 0
  end.

(** ** Reasoning about computations *)

(** [c], started in a world that satisfies [P], ends with an outcome and in
    a world that satisfy [Q]. *)
Definition hoare {A} (P : World -> Prop) (c : M A)
  (Q : outcome A -> World -> Prop) : Prop :=
  forall w, P w -> Q (fst (c w)) (snd (c w)).

(** [c] keeps [I], however it ends, and its result satisfies [Q] when it
    returns *)
Definition keeps_with {A} (I : World -> Prop) (c : M A) (Q : A -> Prop) : Prop :=
  hoare I c (fun o w => I w /\ forall a, o = Return a -> Q a).

Definition keeps {A} (I : World -> Prop) (c : M A) : Prop :=
  keeps_with I c (fun _ => True).

(** the persisted cart has at most one entry per product id *)
Definition tidy (w : World) : Prop := one_entry_per_id (cart_of w).

(** [c] does not use up the fuel of its loops and adds nothing to the input *)
Definition safe {A} (c : M A) : Prop :=
  forall w, fst (c w) <> OutOfFuel /\
            (List.length (stdin (snd (c w))) <= List.length (stdin w))%nat.

(** [c] has read a line when it returns *)
Definition reads {A} (c : M A) : Prop :=
  forall w a w', c w = (Return a, w') ->
                 (List.length (stdin w') < List.length (stdin w))%nat.

(** [c] returns whenever [n] lines or more are left to read, and leaves [m]
    or more *)
Definition returns_from {A} (n m : nat) (c : M A) : Prop :=
  forall w, (n <= List.length (stdin w))%nat ->
            exists a w', c w = (Return a, w') /\
                         (m <= List.length (stdin w'))%nat.

(** every entry has a name, and a quantity that a float can hold *)
Definition billable (items : list Medicine) : Prop :=
  Forall (fun it => name it <> None) items /\ subtotals items <> None.

(** a computation that prints and does nothing else *)
Definition prints_only {A} (c : M A) : Prop :=
  forall w a w', c w = (Return a, w') ->
                 exists lines, w' = with_stdout (stdout w ++ lines) w.

(** ** The carts that the program builds *)

(** What the user can have the program do to the cart, with the lines typed
    while it is done. *)
Inductive operation :=
| Append (med : Medicine) (qty : Z)
| Delete (typed : list string)
| Bill (typed : list string)
| Order (typed : list string)
| ViewCart (return_choice : bool) (typed : list string)
| Ensure.

Definition typing {A} (typed : list string) (c : M A) : M unit :=
  fun w => (Return tt, snd (c (with_stdin typed w))).

Definition run (op : operation) : M unit :=
  match op with
  | Append med qty => append_to_cart med qty
  | Delete typed => typing typed delete_from_cart
  | Bill typed => typing typed bill_process
  | Order typed => typing typed place_order
  | ViewCart b typed => typing typed (display_cart b)
  | Ensure => ensure_folders_and_files
  end.

(** the worlds reached from one with an empty cart *)
Inductive built : World -> Prop :=
| built_empty w : cart_of w = [] -> built w
| built_step w op : built w -> built (exec (run op) w).

(** ** Data for the examples *)

(** the floats [20.0], [30.0] and [85.0] *)
Definition f20 : Py.float := S754_finite false 5629499534213120 (-48).
Definition f30 : Py.float := S754_finite false 8444249301319680 (-48).
Definition f85 : Py.float := S754_finite false 5981343255101440 (-46).

Definition paracetamol : Medicine :=
  {| id := 101; name := Some "Paracetamol"; intensity := Some "500mg";
     disease := Some "Fever"; cost := f20; quantity := 1 |}.

Definition dolo : Medicine :=
  {| id := 102; name := Some "Dolo"; intensity := Some "650mg";
     disease := Some "Fever"; cost := f30; quantity := 1 |}.

Definition azithromycin : Medicine :=
  {| id := 103; name := Some "Azithromycin"; intensity := Some "250mg";
     disease := Some "Infection"; cost := f85; quantity := 1 |}.

(** the world after the first-run bootstrap *)
Definition fresh_world : World := exec ensure_folders_and_files world0.

(** a world whose cart holds two Paracetamol and one Azithromycin *)
Definition two_item_world : World :=
  with_cart
    (Some [ CART_HEADER;
            ["101"; "Paracetamol"; "500mg"; "Fever"; "20.00"; "2"];
            ["103"; "Azithromycin"; "250mg"; "Infection"; "85.00"; "1"] ])
    fresh_world.

(** the float [125.0] *)
Definition f125 : Py.float := S754_finite false 8796093022208000 (-46).

(** [two_item_world] with the customer's answers typed *)
Definition billing_world : World :=
  with_stdin ["Ann"; "12 Hill Road"; "555-0100"; ""] two_item_world.

(** ** Further notions *)

(** [a] is [b] with some of its elements left out, the others in order *)
Inductive subseq {A : Type} : list A -> list A -> Prop :=
| subseq_nil : subseq [] []
| subseq_skip x a b : subseq a b -> subseq a (x :: b)
| subseq_keep x a b : subseq a b -> subseq (x :: a) (x :: b).

(** what the cart file keeps of an entry: all but the exact cost *)
Definition written_fields (it : Medicine) : Z * string * string * string * Z :=
  (id it, cell (name it), cell (intensity it), cell (disease it), quantity it).

(** [or_else d o]: the value of [o], and [d] when the conversion raised *)
Definition or_else {A} (d : A) (o : option A) : A :=
  match o with Some a => a | None => d end.

(** the files of a world: the store, the cart, the instructions and the
    receipts *)
Definition files (w : World)
  : option (list row) * option (list row) * option string * list (string * string) :=
  (store_file w, cart_file w, instr_file w, output_dir w).

(** [c], started in a world that satisfies [P], returns a value and a world
    that satisfy [R], or ends otherwise in a world that satisfies [J]. *)
Definition triple {A} (P : World -> Prop) (c : M A)
  (R : A -> World -> Prop) (J : World -> Prop) : Prop :=
  forall w, P w ->
    match c w with
    | (Return a, w') => R a w'
    | (_, w') => J w'
    end.

(** the tracking identifier that the next call of [generate_tracking_id]
    gives *)
Definition next_tracking_id (w : World) : string :=
  Py.upper (Py.take 10 (uuid4_hex w (uuid4_calls w))).

(** [content] is a whole receipt for [items]: the head with some name,
    address and phone, a line for every item, and the foot with the grand
    total of the items and the tracking identifier [tid] *)
Definition complete_receipt (items : list Medicine) (tid content : string) : Prop :=
  exists name_ address phone total written,
    grand_total items = Some total /\
    bill_lines items (bill_head name_ address phone) = (written, None) /\
    content = written ++ bill_foot total tid.

(** How [bill_process] can leave the cart and the receipts of a world [w0]:
    the cart as it was and at most one file written, or the cart cleared
    and a whole receipt written. *)
Definition checkout_end (w0 w' : World) : Prop :=
  (cart_file w' = cart_file w0 /\
   (output_dir w' = output_dir w0 \/
    exists content,
      output_dir w' =
      write_file (bill_filename (next_tracking_id w0)) content (output_dir w0)))
  \/
  (cart_file w' = Some [CART_HEADER] /\
   exists content,
     complete_receipt (cart_of w0) (next_tracking_id w0) content /\
     output_dir w' =
     write_file (bill_filename (next_tracking_id w0)) content (output_dir w0)).

(** the lines that [Medicine.print] prints *)
Definition medicine_lines (m : Medicine) : list string :=
  [ "ID: " ++ Py.str_of_Z (id m);
    "Name: " ++ str_of_text (name m);
    "Intensity: " ++ str_of_text (intensity m);
    "Disease: " ++ str_of_text (disease m);
    "Cost: ₹" ++ Py.format_2f (cost m);
    rule "-" 40 ].

(** the digits of [uuid.uuid4().hex], and those of a tracking identifier *)
Definition lower_hex_digit (c : ascii) : bool :=
  let n := N.to_nat (N_of_ascii c) in
  Py.is_digit c || ((97 <=? n)%nat && (n <=? 102)%nat).

Definition upper_hex_digit (c : ascii) : bool :=
  let n := N.to_nat (N_of_ascii c) in
  Py.is_digit c || ((65 <=? n)%nat && (n <=? 70)%nat).

(** every entry of the persisted cart has a quantity of [1] or more *)
Definition positive (w : World) : Prop :=
  Forall (fun it => 0 < quantity it) (cart_of w).

(** a world with the store, the instructions and the receipts of [w0], the
    cart file [c], and [lines] still to be typed *)
Definition poised (w0 : World) (c : option (list row)) (lines : list string)
  (w : World) : Prop :=
  store_file w = store_file w0 /\ instr_file w = instr_file w0 /\
  output_dir w = output_dir w0 /\ cart_file w = c /\ stdin w = lines.

(** ** The scope of the model *)

Definition is_ascii (c : ascii) : bool := (N.to_nat (N_of_ascii c) <? 128)%nat.

(** the limit of CPython 3.11 and later on the digits of an integer that is
    converted to or from a string ([sys.int_info.default_max_str_digits]) *)
Definition int_max_str_digits : nat := 4300.

(** the number of decimal digits of [z] *)
Definition digits (z : Z) : nat := String.length (Py.str_of_Z (Z.abs z)).

(** [str(z)] succeeds under the limit *)
Definition printable (z : Z) : bool := (digits z <=? int_max_str_digits)%nat.

Definition ascii_text (s : string) : bool := all_chars is_ascii s.

(** ASCII text, short enough for [int] to read it under the limit: on such
    text the conversions of the model are Python's *)
Definition plain_text (s : string) : bool :=
  ascii_text s && (String.length s <=? int_max_str_digits)%nat.

(** a CSV file whose cells are all [plain_text] (or no file) *)
Definition plain_file (f : option (list row)) : bool :=
  match f with
  | None => true
  | Some rows => forallb (forallb plain_text) rows
  end.

(** the entries that [csv.writer] can write under the limit *)
Definition writable (it : Medicine) : bool :=
  printable (id it) && printable (quantity it).

(** [write_cart_from_items] under the limit: the file is opened and gets its
    header, then the rows one after the other; at the first entry whose id
    or quantity [str] refuses, [csv.writer] raises [ValueError] and the file
    is closed with the rows written so far. *)
Fixpoint rows_within_limit (items : list Medicine) : list row * bool :=
  match items with
  | [] => ([], true)
  | it :: rest =>
      if writable it then
        let '(rows, complete) := rows_within_limit rest in
        (cart_row it :: rows, complete)
      else ([], false)
  end.

Definition write_cart_within_limit (items : list Medicine) : M unit :=
  fun w =>
    let '(rows, complete) := rows_within_limit items in
    (if complete then Return tt else Raise ValueError,
     with_cart (Some (CART_HEADER :: rows)) w).

(** [append_to_cart] under the limit *)
Definition append_to_cart_within_limit (med : Medicine) (qty : Z) : M unit :=
  if qty <=? 0 then ret tt
  else
    items <- read_cart;;
    write_cart_within_limit (add_or_merge items med qty).

(** ** Exact arithmetic *)

(** the number that a finite float stands for *)
Definition value (x : Py.float) : option Q :=
  match x with
  | S754_zero _ => Some 0%Q
  | S754_finite s m e =>
      let q := (inject_Z (Zpos m) * Qpower 2 e)%Q in
      Some (if s then (- q)%Q else q)
  | _ => None
  end.

(** unit cost times quantity, and their sum over the cart, in exact
    arithmetic; [None] when a cost is infinite or not a number *)
Definition exact_subtotal (it : Medicine) : option Q :=
  option_map (fun c => (c * inject_Z (quantity it))%Q) (value (cost it)).

Fixpoint exact_total (items : list Medicine) : option Q :=
  match items with
  | [] => Some 0%Q
  | it :: rest =>
      match exact_subtotal it, exact_total rest with
      | Some x, Some t => Some (x + t)%Q
      | _, _ => None
      end
  end.

Definition has_value (x : Py.float) (q : Q) : bool :=
  match value x with
  | Some v => Qeq_bool v q
  | None => false
  end.

(** No product and no partial sum is rounded when the subtotals of [items]
    are added to [acc] one after the other. *)
Fixpoint unrounded (items : list Medicine) (acc : Py.float) : bool :=
  match items with
  | [] => true
  | it :: rest =>
      match subtotal it, exact_subtotal it, value acc with
      | Some x, Some p, Some a =>
          has_value x p && has_value (Py.fadd acc x) (a + p)%Q &&
          unrounded rest (Py.fadd acc x)
      | _, _, _ => false
      end
  end.

(** ** Worlds for the counterexamples *)

(** a cart with 9007199254740993 items at 1.00, and the customer's answers *)
Definition large_order_world : World :=
  with_stdin ["Ann"; "12 Hill Road"; "555-0100"; ""]
    (with_cart
       (Some [ CART_HEADER;
               ["101"; "Paracetamol"; "500mg"; "Fever"; "1.00";
                "9007199254740993"] ])
       fresh_world).

(** a cart whose second entry has the largest quantity of 4300 digits *)
Definition full_cart_world : World :=
  with_cart
    (Some [ CART_HEADER;
            ["102"; "Dolo"; "650mg"; "Fever"; "30.00"; "1"];
            ["101"; "Paracetamol"; "500mg"; "Fever"; "20.00";
             Py.repeat_char "9" 4300];
            ["103"; "Azithromycin"; "250mg"; "Infection"; "85.00"; "1"] ])
    fresh_world.

(** a cart file edited by hand, with a cost of three decimals *)
Definition three_decimals_world : World :=
  with_cart
    (Some [ CART_HEADER;
            ["101"; "Paracetamol"; "500mg"; "Fever"; "0.125"; "2"] ])
    fresh_world.

(** * Properties *)

#[local] Open Scope list_scope.

(** ** The built-ins *)

(** Values that Python gives, as checks of the model of [int], [float],
    float arithmetic and [f"{x:.2f}"]. *)
Example int_of_string_checks :
  Py.int_of_string " +1_000 " = Some 1000 /\
  Py.int_of_string "-007" = Some (-7) /\
  Py.int_of_string "1__0" = None /\
  Py.int_of_string "12a" = None /\
  Py.int_of_string "" = None.
Proof. vm_compute. auto. Qed.

Example float_of_string_checks :
  Py.float_of_string "0.1" = Some (S754_finite false 7205759403792794 (-56)) /\
  Py.float_of_string " 20.00 " = Some (S754_finite false 5629499534213120 (-48)) /\
  Py.float_of_string "1e400" = Some (S754_infinity false) /\
  Py.float_of_string "5e-324" = Some (S754_finite false 1 (-1074)) /\
  Py.float_of_string "-Infinity" = Some (S754_infinity true) /\
  Py.float_of_string "1_0.5" = Some (S754_finite false 5910974510923776 (-49)) /\
  Py.float_of_string "abc" = None /\
  Py.float_of_string "1e" = None /\
  Py.float_of_string "." = None.
Proof. vm_compute. repeat split. Qed.

Example format_2f_checks :
  option_map Py.format_2f (Py.float_of_string "2.675") = Some "2.67"%string /\
  option_map Py.format_2f (Py.float_of_string "0.125") = Some "0.12"%string /\
  option_map Py.format_2f (Py.float_of_string "0.375") = Some "0.38"%string /\
  option_map Py.format_2f (Py.float_of_string "-0.001") = Some "-0.00"%string /\
  option_map Py.format_2f (Py.float_of_string "1e22")
    = Some "10000000000000000000000.00"%string /\
  option_map Py.format_2f (Py.float_of_string "nan") = Some "nan"%string.
Proof. vm_compute. repeat split. Qed.

Example float_arithmetic_checks :
  option_map (Py.fadd (S754_finite false 7205759403792794 (-56)))
             (Py.float_of_string "0.2")
    = Some (S754_finite false 5404319552844596 (-54)) /\
  Py.fmul_int (S754_finite false 5629499534213120 (-48)) 2
    = Some (S754_finite false 5629499534213120 (-47)) /\
  Py.fmul_int (S754_zero false) (2 ^ 1024) = None.
Proof. vm_compute. repeat split. Qed.

Example string_checks :
  Py.lower (Py.strip "  Fever ") = "fever"%string /\
  Py.contains "fev" "fever" = true /\
  Py.contains "" "" = true /\
  Py.contains "ver " "fever" = false /\
  Py.rjust 8 "20.00" = "   20.00"%string /\
  Py.ljust 6 "₹" = "₹     "%string.
Proof. vm_compute. repeat split. Qed.

Lemma numeral_char_plain c :
  numeral_char c = true -> Py.is_space c = false /\ Ascii.eqb c "_" = false.
Proof.
  destruct c as [[] [] [] [] [] [] [] []]; vm_compute; intuition congruence.
Qed.

Lemma numeral_char_no_c_space c : numeral_char c = true -> Py.is_c_space c = false.
Proof.
  destruct c as [[] [] [] [] [] [] [] []]; vm_compute; intuition congruence.
Qed.

Lemma digit_numeral c : Py.is_digit c = true -> numeral_char c = true.
Proof. unfold numeral_char. intros ->. reflexivity. Qed.

Lemma uint_chars d : all_chars Py.is_digit (NilEmpty.string_of_uint d) = true.
Proof. induction d; simpl; auto. Qed.

Lemma all_chars_impl (P Q : ascii -> bool) s :
  (forall c, P c = true -> Q c = true) ->
  all_chars P s = true -> all_chars Q s = true.
Proof.
  intros HPQ. induction s as [|c s IH]; simpl; auto.
  intros H. apply andb_true_iff in H as [Hc Hs].
  rewrite (HPQ _ Hc), (IH Hs). reflexivity.
Qed.

Lemma rstrip_numeral s : all_chars numeral_char s = true -> Py.rstrip s = s.
Proof.
  induction s as [|c s IH]; simpl; auto.
  intros H. apply andb_true_iff in H as [Hc Hs].
  rewrite (IH Hs). destruct s.
  - destruct (numeral_char_plain _ Hc) as [-> _]. reflexivity.
  - reflexivity.
Qed.

Lemma strip_numeral s : all_chars numeral_char s = true -> Py.strip s = s.
Proof.
  intros H. unfold Py.strip.
  assert (Py.lstrip s = s) as ->.
  { destruct s as [|c s]; simpl; auto. simpl in H.
    apply andb_true_iff in H as [Hc _].
    destruct (numeral_char_plain _ Hc) as [-> _]. reflexivity. }
  now apply rstrip_numeral.
Qed.

Lemma drop_underscores_numeral b s :
  all_chars numeral_char s = true -> Py.drop_underscores b s = Some s.
Proof.
  revert b. induction s as [|c s IH]; simpl; auto.
  intros b H. apply andb_true_iff in H as [Hc Hs].
  destruct (numeral_char_plain _ Hc) as [_ ->].
  rewrite (IH _ Hs). reflexivity.
Qed.

Lemma split_sign_digits s :
  all_chars Py.is_digit s = true -> Py.split_sign s = (false, s).
Proof.
  destruct s as [|c s]; simpl; auto.
  intros H. apply andb_true_iff in H as [Hc _].
  destruct c as [[] [] [] [] [] [] [] []]; try reflexivity; discriminate Hc.
Qed.

Lemma digits_value_uint d :
  d <> Decimal.Nil -> Py.digits_value (NilEmpty.string_of_uint d) = Some (Z.of_uint d).
Proof.
  intros Hd. unfold Py.digits_value.
  assert (NilZero.uint_of_string (NilEmpty.string_of_uint d) = Some d) as ->.
  { destruct d; try congruence; simpl; rewrite NilEmpty.usu; reflexivity. }
  reflexivity.
Qed.

Lemma str_of_Z_numeral z : all_chars numeral_char (Py.str_of_Z z) = true.
Proof.
  unfold Py.str_of_Z.
  destruct (Z.to_int z) as [d|d]; simpl.
  - apply all_chars_impl with (P := Py.is_digit);
      [exact digit_numeral | apply uint_chars].
  - apply all_chars_impl with (P := Py.is_digit);
      [exact digit_numeral | apply uint_chars].
Qed.

Lemma to_int_nonnil z :
  match Z.to_int z with Pos d | Neg d => d <> Nil end.
Proof.
  destruct z; simpl; try apply Unsigned.to_uint_nonnil. discriminate.
Qed.

Lemma c_rstrip_numeral s : all_chars numeral_char s = true -> Py.c_rstrip s = s.
Proof.
  induction s as [|c s IH]; simpl; auto.
  intros H. apply andb_true_iff in H as [Hc Hs].
  rewrite (IH Hs). destruct s.
  - now rewrite (numeral_char_no_c_space _ Hc).
  - reflexivity.
Qed.

Lemma c_strip_numeral s : all_chars numeral_char s = true -> Py.c_strip s = s.
Proof.
  intros H. unfold Py.c_strip.
  assert (Py.c_lstrip s = s) as ->.
  { destruct s as [|c s]; simpl; auto. simpl in H.
    apply andb_true_iff in H as [Hc _].
    now rewrite (numeral_char_no_c_space _ Hc). }
  now apply c_rstrip_numeral.
Qed.

(** [int] and [float] skip blanks and tabs around a number, but not the
    separators that [str.strip] removes: a cell that starts with the
    character 28 is no number, a typed line that starts with it is one once
    it has been stripped. *)
Example separators_are_not_skipped :
  let s := String (ascii_of_nat 28) "5" in
  Py.int_of_string s = None /\ Py.float_of_string s = None /\
  Py.int_of_string (" 5" ++ TAB) = Some 5 /\
  Py.int_of_string (Py.strip s) = Some 5.
Proof. vm_compute. auto. Qed.

(** [int(str(n)) == n] *)
Lemma int_of_str z : Py.int_of_string (Py.str_of_Z z) = Some z.
Proof.
  unfold Py.int_of_string.
  rewrite (c_strip_numeral _ (str_of_Z_numeral z)).
  rewrite (drop_underscores_numeral _ _ (str_of_Z_numeral z)).
  pose proof (DecimalZ.of_to z) as Hz.
  pose proof (to_int_nonnil z) as Hn.
  unfold Py.str_of_Z.
  destruct (Z.to_int z) as [d|d]; simpl in *.
  - rewrite (split_sign_digits _ (uint_chars d)).
    rewrite (digits_value_uint _ Hn). simpl. now rewrite Hz.
  - rewrite (digits_value_uint _ Hn). simpl. now rewrite Hz.
Qed.

(** [str(n)] is never empty *)
Lemma str_of_Z_truthy z : truthy (Some (Py.str_of_Z z)) = true.
Proof.
  pose proof (to_int_nonnil z) as Hn.
  unfold Py.str_of_Z.
  destruct (Z.to_int z) as [d|d]; simpl; auto.
  destruct d; try congruence; reflexivity.
Qed.

(** ** Reading back what was written *)

Lemma cart_item_written it :
  cart_item (CART_HEADER, cart_row it) = read_back it.
Proof.
  unfold cart_item, medicine_of_row, quantity_of_row, get, cart_row,
    CART_HEADER, Medicine_init, set_quantity, read_back.
  cbn [lookup fst snd tl hd_error String.eqb Ascii.eqb Bool.eqb id name
       intensity disease cost quantity].
  rewrite !int_of_str. reflexivity.
Qed.

Lemma has_id_written it : has_id (CART_HEADER, cart_row it) = true.
Proof.
  unfold has_id, get, cart_row, CART_HEADER.
  cbn [lookup fst snd tl hd_error String.eqb Ascii.eqb Bool.eqb].
  apply str_of_Z_truthy.
Qed.

Lemma cart_items_written items :
  cart_items (CART_HEADER :: map cart_row items) = map read_back items.
Proof.
  unfold cart_items, DictReader.
  induction items as [|it items IH]; simpl; auto.
  rewrite has_id_written. simpl. rewrite cart_item_written.
  f_equal. exact IH.
Qed.

Lemma cart_of_written items w :
  cart_of (exec (write_cart_from_items items) w) = map read_back items.
Proof. unfold cart_of, exec; simpl. apply cart_items_written. Qed.

Lemma read_cart_eq w : read_cart w = (Return (cart_of w), w).
Proof. unfold read_cart, cart_of. destruct (cart_file w); reflexivity. Qed.

Lemma load_store_eq w : load_store w = (Return (store_of w), w).
Proof. unfold load_store, store_of. destruct (store_file w); reflexivity. Qed.

Lemma id_quantity_read_back items :
  map id_quantity (map read_back items) = map id_quantity items.
Proof. rewrite map_map. reflexivity. Qed.

Lemma id_read_back items : map id (map read_back items) = map id items.
Proof. rewrite map_map. reflexivity. Qed.

(** ** The for/else of [append_to_cart] *)

Lemma find_item_absent p items : find_item p items = None <-> absent p items.
Proof.
  unfold find_item, absent. induction items as [|it items IH]; simpl.
  - split; auto.
  - destruct (Z.eqb_spec (id it) p) as [E|E].
    + split; [discriminate|]. intros H. inversion H; subst. congruence.
    + rewrite IH. split.
      * intros H. constructor; auto.
      * intros H. now inversion H.
Qed.

Lemma find_item_split p items e :
  find_item p items = Some e ->
  exists l1 l2, items = l1 ++ e :: l2 /\ absent p l1 /\ id e = p.
Proof.
  unfold find_item, absent. induction items as [|it items IH]; simpl.
  - discriminate.
  - destruct (Z.eqb_spec (id it) p) as [E|E].
    + intros [= <-]. exists [], items. repeat split; auto.
    + intros H. destruct (IH H) as (l1 & l2 & -> & H1 & H2).
      exists (it :: l1), l2. repeat split; auto.
Qed.

Lemma find_item_found p l1 e l2 :
  absent p l1 -> id e = p -> find_item p (l1 ++ e :: l2) = Some e.
Proof.
  unfold find_item, absent. intros H He.
  induction H as [|it l1 Hit _ IH]; simpl.
  - subst p. now rewrite Z.eqb_refl.
  - destruct (Z.eqb_spec (id it) p); [contradiction | exact IH].
Qed.

Lemma add_or_merge_absent items med qty :
  absent (id med) items ->
  add_or_merge items med qty = items ++ [set_quantity med qty].
Proof.
  unfold absent. induction 1 as [|it items Hit _ IH]; simpl; auto.
  destruct (Z.eqb_spec (id it) (id med)); [contradiction|]. now rewrite IH.
Qed.

Lemma add_or_merge_present l1 e l2 med qty :
  absent (id med) l1 -> id e = id med ->
  add_or_merge (l1 ++ e :: l2) med qty =
  l1 ++ set_quantity e (quantity e + qty) :: l2.
Proof.
  unfold absent. intros H He.
  induction H as [|it l1 Hit _ IH]; simpl.
  - rewrite He, Z.eqb_refl. reflexivity.
  - destruct (Z.eqb_spec (id it) (id med)); [contradiction|]. now rewrite IH.
Qed.

Lemma absent_in p items : absent p items <-> ~ In p (map id items).
Proof.
  unfold absent. rewrite Forall_forall, in_map_iff. split.
  - intros H (it & E & Hin). exact (H it Hin E).
  - intros H it Hin E. apply H. now exists it.
Qed.

Lemma add_or_merge_ids items med qty :
  map id (add_or_merge items med qty) =
  match find_item (id med) items with
  | Some _ => map id items
  | None => map id items ++ [id med]
  end.
Proof.
  destruct (find_item (id med) items) as [e|] eqn:F.
  - destruct (find_item_split _ _ _ F) as (l1 & l2 & -> & H1 & H2).
    rewrite add_or_merge_present by auto.
    rewrite !map_app. reflexivity.
  - apply find_item_absent in F. rewrite add_or_merge_absent by auto.
    rewrite map_app. reflexivity.
Qed.

Lemma add_or_merge_one_entry items med qty :
  one_entry_per_id items -> one_entry_per_id (add_or_merge items med qty).
Proof.
  unfold one_entry_per_id. intros H. rewrite add_or_merge_ids.
  destruct (find_item (id med) items) eqn:F; auto.
  apply find_item_absent, absent_in in F.
  apply NoDup_app; auto.
  - repeat constructor. intros [].
  - intros x Hx [<-|[]]. contradiction.
Qed.

Lemma entries_for_absent p items : absent p items -> entries_for p items = [].
Proof.
  unfold absent, entries_for. induction 1 as [|it items Hit _ IH]; simpl; auto.
  destruct (Z.eqb_spec (id it) p); [contradiction | exact IH].
Qed.

Lemma entries_for_app p l1 l2 :
  entries_for p (l1 ++ l2) = entries_for p l1 ++ entries_for p l2.
Proof. apply filter_app. Qed.

Lemma absent_read_back p items : absent p items -> absent p (map read_back items).
Proof.
  unfold absent. rewrite !Forall_forall. intros H it Hin.
  apply in_map_iff in Hin as (it0 & <- & Hin). simpl. now apply H.
Qed.

Lemma one_entry_split l1 e l2 :
  one_entry_per_id (l1 ++ e :: l2) -> absent (id e) l1 /\ absent (id e) l2.
Proof.
  unfold one_entry_per_id. rewrite map_app. simpl. intros H.
  apply NoDup_remove_2 in H. rewrite !absent_in.
  split; intros Hin; apply H, in_or_app; auto.
Qed.

(** one entry for [p], of quantity [q], when the ids and quantities say so *)
Lemma entries_for_middle p l1 e l2 :
  absent p l1 -> absent p l2 -> id e = p -> entries_for p (l1 ++ e :: l2) = [e].
Proof.
  intros H1 H2 He. rewrite entries_for_app. simpl.
  unfold entries_for at 2. simpl. fold (entries_for p l2).
  rewrite (entries_for_absent _ _ H1), (entries_for_absent _ _ H2).
  rewrite He, Z.eqb_refl. reflexivity.
Qed.

Lemma find_item_read_back p items :
  find_item p (map read_back items) = option_map read_back (find_item p items).
Proof.
  unfold find_item. induction items as [|it items IH]; simpl; auto.
  destruct (id it =? p); auto.
Qed.

Lemma quantity_for_read_back p items :
  quantity_for p (map read_back items) = quantity_for p items.
Proof.
  unfold quantity_for. rewrite find_item_read_back.
  destruct (find_item p items); reflexivity.
Qed.

Lemma quantity_for_add_or_merge items med qty :
  exists e, find_item (id med) (add_or_merge items med qty) = Some e /\
            quantity e = quantity_for (id med) items + qty.
Proof.
  unfold quantity_for.
  destruct (find_item (id med) items) as [e|] eqn:F.
  - destruct (find_item_split _ _ _ F) as (l1 & l2 & -> & H1 & H2).
    rewrite add_or_merge_present by auto.
    exists (set_quantity e (quantity e + qty)). split; auto.
    apply find_item_found; auto.
  - apply find_item_absent in F. rewrite add_or_merge_absent by auto.
    exists (set_quantity med qty). split; auto.
    rewrite <- (app_nil_r [set_quantity med qty]) at 1.
    change (items ++ [set_quantity med qty] ++ [])
      with (items ++ set_quantity med qty :: []).
    apply find_item_found; auto.
Qed.

Lemma entries_for_found p items e :
  one_entry_per_id items -> find_item p items = Some e ->
  entries_for p items = [e].
Proof.
  intros Hn F. destruct (find_item_split _ _ _ F) as (l1 & l2 & -> & H1 & H2).
  destruct (one_entry_split _ _ _ Hn) as [_ H3]. rewrite H2 in H3.
  now apply entries_for_middle.
Qed.

(** ** [append_to_cart] *)

Lemma append_to_cart_positive med qty w :
  0 < qty ->
  append_to_cart med qty w =
  (Return tt,
   with_cart (Some (CART_HEADER :: map cart_row (add_or_merge (cart_of w) med qty))) w).
Proof.
  intros Hq. unfold append_to_cart.
  destruct (Z.leb_spec qty 0); [lia|].
  unfold bind. rewrite read_cart_eq. reflexivity.
Qed.

Lemma cart_of_append med qty w :
  0 < qty ->
  cart_of (exec (append_to_cart med qty) w) =
  map read_back (add_or_merge (cart_of w) med qty).
Proof.
  intros Hq. unfold exec. rewrite append_to_cart_positive by auto.
  unfold cart_of; simpl. apply cart_items_written.
Qed.

Lemma cart_of_append_nonpositive med qty w :
  qty <= 0 -> exec (append_to_cart med qty) w = w.
Proof.
  intros Hq. unfold exec, append_to_cart.
  destruct (Z.leb_spec qty 0); [reflexivity | lia].
Qed.

Lemma append_keeps_one_entry med qty w :
  one_entry_per_id (cart_of w) ->
  one_entry_per_id (cart_of (exec (append_to_cart med qty) w)).
Proof.
  intros H. destruct (Z_lt_le_dec 0 qty) as [Hq|Hq].
  - rewrite cart_of_append by auto. unfold one_entry_per_id.
    rewrite id_read_back. now apply add_or_merge_one_entry.
  - now rewrite cart_of_append_nonpositive.
Qed.

Lemma exec_bind_unit (c : M unit) (k : M unit) w :
  fst (c w) = Return tt -> exec (c;; k) w = exec k (exec c w).
Proof.
  unfold exec, bind. destruct (c w) as [[[]|e|] w1]; simpl; congruence.
Qed.

Lemma eval_append med qty w : eval (append_to_cart med qty) w = Return tt.
Proof.
  unfold eval, append_to_cart. destruct (qty <=? 0); [reflexivity|].
  unfold bind. rewrite read_cart_eq. reflexivity.
Qed.

(** ** Rules for [keeps_with] *)

Section Keeping.

Variable I : World -> Prop.

(** [I] looks at the cart file only *)
Hypothesis I_cart : forall w w', cart_file w' = cart_file w -> I w -> I w'.

Lemma kw_ret {A} (a : A) (Q : A -> Prop) : Q a -> keeps_with I (ret a) Q.
Proof. intros Ha w Hw. simpl. split; auto. now intros ? [= <-]. Qed.

Lemma kw_raise {A} (e : exn) (Q : A -> Prop) : keeps_with I (raise e) Q.
Proof. intros w Hw. simpl. split; auto. discriminate. Qed.

Lemma kw_bind {A B} (c : M A) (k : A -> M B) (R : A -> Prop) (Q : B -> Prop) :
  keeps_with I c R -> (forall a, R a -> keeps_with I (k a) Q) ->
  keeps_with I (bind c k) Q.
Proof.
  intros Hc Hk w Hw. specialize (Hc w Hw). unfold bind.
  destruct (c w) as [[a|e|] w1]; simpl in *; destruct Hc as [H1 H2].
  - apply (Hk a (H2 a eq_refl) w1 H1).
  - split; auto. discriminate.
  - split; auto. discriminate.
Qed.

Lemma kw_weaken {A} (c : M A) (Q Q' : A -> Prop) :
  keeps_with I c Q -> (forall a, Q a -> Q' a) -> keeps_with I c Q'.
Proof. intros Hc HQ w Hw. destruct (Hc w Hw) as [H1 H2]. split; auto. Qed.

Lemma kw_then {A B} (c : M A) (k : A -> M B) (Q : B -> Prop) :
  keeps I c -> (forall a, keeps_with I (k a) Q) -> keeps_with I (bind c k) Q.
Proof. intros Hc Hk. apply kw_bind with (R := fun _ => True); auto. Qed.

Lemma kw_try_except {A} (c h : M A) (Q : A -> Prop) :
  keeps_with I c Q -> keeps_with I h Q -> keeps_with I (try_except c h) Q.
Proof.
  intros Hc Hh w Hw. specialize (Hc w Hw). unfold try_except.
  destruct (c w) as [[a|e|] w1]; simpl in *; auto.
  apply Hh. tauto.
Qed.

Lemma kw_print s : keeps I (print s).
Proof. intros w Hw. simpl. split; auto. apply (I_cart w); auto. Qed.

Lemma kw_input s : keeps I (input s).
Proof.
  intros w Hw. unfold input. destruct (stdin w); simpl; split; auto;
    apply (I_cart w); auto.
Qed.

Lemma kw_lift {A} e (o : option A) : keeps I (lift e o).
Proof. destruct o; [apply kw_ret | apply kw_raise]; auto. Qed.

Lemma kw_read_cart : keeps I read_cart.
Proof. intros w Hw. rewrite read_cart_eq. simpl. auto. Qed.

Lemma kw_load_store : keeps I load_store.
Proof. intros w Hw. rewrite load_store_eq. simpl. auto. Qed.

Lemma kw_generate_tracking_id : keeps I generate_tracking_id.
Proof. intros w Hw. simpl. split; auto. apply (I_cart w); auto. Qed.

Lemma kw_save_bill n a p items total t : keeps I (save_bill n a p items total t).
Proof.
  intros w Hw. unfold save_bill.
  destruct (bill_lines items _) as [written [e|]]; simpl; split; auto;
    apply (I_cart w); auto.
Qed.

Lemma kw_for_each {A} (l : list A) (f : A -> M unit) :
  (forall x, keeps I (f x)) -> keeps I (for_each l f).
Proof.
  intros Hf. induction l as [|x l IH]; simpl.
  - apply kw_ret; auto.
  - apply kw_then; auto.
Qed.

Lemma kw_loop {S A} (Inv : S -> Prop) (body : S -> M (S + A)) (Q : A -> Prop) :
  (forall s, Inv s ->
     keeps_with I (body s)
       (fun r => match r with inl s' => Inv s' | inr a => Q a end)) ->
  forall fuel s, Inv s -> keeps_with I (loop fuel body s) Q.
Proof.
  intros Hb. induction fuel as [|fuel IH]; intros s Hs; simpl.
  - intros w Hw. simpl. split; auto. discriminate.
  - eapply kw_bind; [apply Hb, Hs|].
    intros [s'|a] Hr; [apply IH, Hr | apply kw_ret, Hr].
Qed.

Lemma kw_while_true {S A} (Inv : S -> Prop) (body : S -> M (S + A)) (Q : A -> Prop) :
  (forall s, Inv s ->
     keeps_with I (body s)
       (fun r => match r with inl s' => Inv s' | inr a => Q a end)) ->
  forall s, Inv s -> keeps_with I (while_true body s) Q.
Proof.
  intros Hb s Hs w Hw. unfold while_true.
  apply (kw_loop Inv body Q Hb _ s Hs w Hw).
Qed.

Lemma kw_typing {A} typed (c : M A) : keeps I c -> keeps I (typing typed c).
Proof.
  intros Hc w Hw. unfold typing. simpl. split; auto.
  apply Hc. apply (I_cart w); auto.
Qed.

Lemma kw_subtotal_of it : keeps I (subtotal_of it).
Proof. apply kw_lift. Qed.

Lemma kw_display_lines items total : keeps I (display_lines items total).
Proof.
  revert total. induction items as [|it items IH]; intros total; simpl.
  - apply kw_ret; auto.
  - apply kw_then; [apply kw_subtotal_of|]. intros subtotal.
    apply kw_then.
    { unfold item_line, format_text. apply kw_then.
      - destruct (name it); [apply kw_ret | apply kw_raise]; auto.
      - intros n. apply kw_ret; auto. }
    intros l. apply kw_then; [apply kw_print|]. intros _. apply IH.
Qed.

Lemma kw_sum_subtotals items acc : keeps I (sum_subtotals items acc).
Proof.
  revert acc. induction items as [|it items IH]; intros acc; simpl.
  - apply kw_ret; auto.
  - apply kw_then; [apply kw_subtotal_of|]. intros subtotal. apply IH.
Qed.

Lemma kw_Medicine_print m : keeps I (Medicine_print m).
Proof.
  unfold Medicine_print.
  repeat (apply kw_then; [apply kw_print|]; intros _). apply kw_print.
Qed.

Lemma kw_display_cart b : keeps I (display_cart b).
Proof.
  unfold display_cart.
  apply kw_then; [apply kw_read_cart|]. intros items.
  repeat (apply kw_then; [apply kw_print|]; intros _).
  destruct items as [|it items].
  - apply kw_then; [apply kw_print|]. intros _.
    destruct b; (apply kw_then; [apply kw_input|]; intros _; apply kw_ret; auto).
  - repeat (apply kw_then; [apply kw_print|]; intros _).
    apply kw_then; [apply kw_display_lines|]. intros total.
    repeat (apply kw_then; [apply kw_print|]; intros _).
    destruct b; simpl.
    + apply kw_while_true with (Inv := fun _ => True); auto.
      intros [] _.
      apply kw_then; [apply kw_print|]. intros _.
      apply kw_then; [apply kw_input|]. intros ch.
      destruct (_ || _ || _)%bool.
      * apply kw_ret; auto.
      * apply kw_then; [apply kw_print|]. intros _. apply kw_ret; auto.
    + apply kw_then; [apply kw_input|]. intros _. apply kw_ret; auto.
Qed.

Lemma kw_input_int prompt msg : keeps I (input_int prompt msg).
Proof.
  unfold input_int. apply kw_try_except.
  - apply kw_then; [apply kw_input|]. intros s.
    apply kw_then; [apply kw_lift|]. intros z. apply kw_ret; auto.
  - apply kw_then; [apply kw_print|]. intros _. apply kw_ret; auto.
Qed.

End Keeping.

(** ** Deletion from the list *)

Lemma remove_found_split p l1 e l2 :
  absent p l1 -> id e = p -> remove_found p (l1 ++ e :: l2) = l1 ++ l2.
Proof.
  unfold absent. intros H He. induction H as [|it l1 Hit _ IH]; simpl.
  - subst p. now rewrite Z.eqb_refl.
  - destruct (Z.eqb_spec (id it) p); [contradiction | now rewrite IH].
Qed.

Lemma decrease_found_split p a l1 e l2 :
  absent p l1 -> id e = p ->
  decrease_found p a (l1 ++ e :: l2) = l1 ++ set_quantity e (quantity e - a) :: l2.
Proof.
  unfold absent. intros H He. induction H as [|it l1 Hit _ IH]; simpl.
  - subst p. now rewrite Z.eqb_refl.
  - destruct (Z.eqb_spec (id it) p); [contradiction | now rewrite IH].
Qed.

Lemma one_entry_remove l1 e l2 :
  one_entry_per_id (l1 ++ e :: l2) -> one_entry_per_id (l1 ++ l2).
Proof.
  unfold one_entry_per_id. rewrite !map_app. simpl. apply NoDup_remove_1.
Qed.

Lemma remove_quantity_one_entry items found qty_del :
  one_entry_per_id items -> find_item (id found) items = Some found ->
  one_entry_per_id (remove_quantity items found qty_del).
Proof.
  intros Hn F. destruct (find_item_split _ _ _ F) as (l1 & l2 & -> & H1 & _).
  unfold remove_quantity. destruct (quantity found <=? qty_del).
  - rewrite remove_found_split by auto. now apply one_entry_remove in Hn.
  - rewrite decrease_found_split by auto.
    unfold one_entry_per_id in *. rewrite map_app in *. exact Hn.
Qed.

Lemma find_item_id p items e : find_item p items = Some e -> id e = p.
Proof.
  intros F. now destruct (find_item_split _ _ _ F) as (_ & _ & _ & _ & H).
Qed.

(** ** The program keeps the cart tidy *)

Lemma tidy_cart w w' : cart_file w' = cart_file w -> tidy w -> tidy w'.
Proof. unfold tidy, cart_of. now intros ->. Qed.

Lemma tidy_write items :
  one_entry_per_id items -> keeps tidy (write_cart_from_items items).
Proof.
  intros Hn w _. simpl. split; auto. unfold tidy.
  change (one_entry_per_id (cart_of (exec (write_cart_from_items items) w))).
  rewrite cart_of_written. unfold one_entry_per_id. now rewrite id_read_back.
Qed.

Lemma tidy_clear_cart : keeps tidy clear_cart.
Proof. intros w _. simpl. split; auto. constructor. Qed.

Lemma tidy_append med qty : keeps tidy (append_to_cart med qty).
Proof.
  intros w Hw. split; auto. now apply append_keeps_one_entry.
Qed.

Lemma cart_of_ensure w : cart_of (exec ensure_folders_and_files w) = cart_of w.
Proof.
  unfold exec, ensure_folders_and_files, cart_of.
  destruct (store_file w) eqn:S, (cart_file w) eqn:C, (instr_file w) eqn:N;
    repeat (simpl; rewrite ?S, ?C, ?N); reflexivity.
Qed.

Lemma tidy_ensure : keeps tidy ensure_folders_and_files.
Proof.
  intros w Hw. split; auto. unfold tidy.
  change (one_entry_per_id (cart_of (exec ensure_folders_and_files w))).
  now rewrite cart_of_ensure.
Qed.

#[local] Ltac step_io :=
  first [ apply kw_then; [first [ apply kw_print | apply kw_input
                                | apply kw_read_cart | apply kw_load_store ];
                          exact tidy_cart |]
        | apply kw_ret; auto ].

Lemma tidy_delete_item items id_to_del :
  one_entry_per_id items ->
  keeps_with tidy (delete_item items id_to_del)
    (fun r => match r with inl items' => one_entry_per_id items' | inr _ => True end).
Proof.
  intros Hn. unfold delete_item.
  destruct (find_item id_to_del items) as [found|] eqn:F.
  - pose proof (find_item_id _ _ _ F) as Hid. subst id_to_del.
    step_io. intros _.
    apply kw_then; [apply kw_input_int; exact tidy_cart|]. intros [qty_del|].
    + pose proof (remove_quantity_one_entry _ _ qty_del Hn F) as Hn'.
      apply kw_then.
      { destruct (_ <=? _); apply kw_print; exact tidy_cart. }
      intros _. apply kw_then; [now apply tidy_write|]. intros _.
      destruct (remove_quantity items found qty_del) eqn:R.
      * step_io. intros _. step_io.
      * step_io. intros more. destruct (String.eqb _ _); step_io.
    + step_io.
  - step_io. intros _. step_io.
Qed.

Lemma tidy_delete_round items :
  one_entry_per_id items ->
  keeps_with tidy (delete_round items)
    (fun r => match r with inl items' => one_entry_per_id items' | inr _ => True end).
Proof.
  intros Hn. unfold delete_round.
  apply kw_then; [apply kw_display_cart; exact tidy_cart|]. intros _.
  apply kw_then; [apply kw_input_int; exact tidy_cart|]. intros [id_to_del|].
  - destruct (id_to_del =? 0); [step_io|]. now apply tidy_delete_item.
  - step_io.
Qed.

Lemma tidy_delete_from_cart : keeps tidy delete_from_cart.
Proof.
  intros w Hw. unfold delete_from_cart, bind. rewrite read_cart_eq.
  destruct (cart_of w) as [|it items] eqn:C.
  - apply (kw_print tidy tidy_cart _ w Hw).
  - apply (kw_while_true tidy one_entry_per_id delete_round (fun _ => True)
             tidy_delete_round (it :: items)); auto.
    unfold tidy in Hw. now rewrite C in Hw.
Qed.

Lemma tidy_bill_process : keeps tidy bill_process.
Proof.
  unfold bill_process. step_io. intros [|it items].
  - apply kw_print; exact tidy_cart.
  - do 6 (step_io; intros ?).
    apply kw_then; [apply kw_sum_subtotals; exact tidy_cart|]. intros total.
    apply kw_then; [apply kw_generate_tracking_id; exact tidy_cart|]. intros t.
    apply kw_then; [apply kw_save_bill; exact tidy_cart|]. intros path.
    do 3 (step_io; intros ?).
    apply kw_then.
    { apply kw_for_each. intros x.
      apply kw_then; [apply kw_subtotal_of|]. intros s.
      apply kw_print; exact tidy_cart. }
    intros _. do 6 (step_io; intros ?).
    apply kw_then; [apply tidy_clear_cart|]. intros _.
    step_io. intros _. step_io.
Qed.

Lemma tidy_bill_if_cart msg : keeps tidy (bill_if_cart msg).
Proof.
  unfold bill_if_cart. step_io. intros [|it items].
  - apply kw_print; exact tidy_cart.
  - apply tidy_bill_process.
Qed.

Lemma tidy_next_step_round u :
  keeps_with tidy (next_step_round u)
    (fun r => match r with inl _ => True | inr _ => True end).
Proof.
  apply kw_weaken with (Q := fun _ => True); [|now intros []].
  unfold next_step_round. do 5 (step_io; intros ?).
  destruct (String.eqb _ "b"%string).
  { apply kw_then; [apply tidy_bill_if_cart|]. intros _. step_io. }
  destruct (String.eqb _ "c"%string).
  { apply kw_then; [apply kw_display_cart; exact tidy_cart|]. intros act.
    assert (D : keeps tidy
                  (delete_from_cart;;
                   post <- input "After cart changes: [B]ill now or [M]ain menu? (B/M): ";;
                   if String.eqb (Py.lower (Py.strip post)) "b"
                   then items <- read_cart;;
                        match items with
                        | [] => ret (inr tt)
                        | _ :: _ => bill_process;; ret (inr tt)
                        end
                   else ret (inr tt) : M (unit + unit))).
    { apply kw_then; [apply tidy_delete_from_cart|]. intros _.
      step_io. intros post. destruct (String.eqb _ _); [|step_io].
      step_io. intros [|it items]; [step_io|].
      apply kw_then; [apply tidy_bill_process|]. intros _. step_io. }
    assert (B : keeps tidy
                  (bill_if_cart "Cart empty; nothing to bill.";; ret (inr tt)
                   : M (unit + unit))).
    { apply kw_then; [apply tidy_bill_if_cart|]. intros _. step_io. }
    destruct act as [s|]; [|step_io].
    repeat match goal with
           | |- context [match ?x with EmptyString => _ | String _ _ => _ end] =>
               destruct x; try step_io
           | |- context [match ?x with Ascii _ _ _ _ _ _ _ _ => _ end] =>
               destruct x as [[] [] [] [] [] [] [] []]; try step_io
           end; assumption. }
  destruct (String.eqb _ "m"%string); [step_io|].
  step_io. intros _. step_io.
Qed.

Lemma tidy_input_quantity : keeps tidy input_quantity.
Proof.
  unfold input_quantity. apply kw_try_except.
  - step_io. intros s. apply kw_then; [apply kw_lift|]. intros qty.
    destruct (qty <=? 0); [|step_io]. step_io. intros _. step_io.
  - step_io. intros _. step_io.
Qed.

Lemma tidy_search d : keeps tidy (search d).
Proof.
  unfold search, find_by_disease.
  apply kw_then.
  { step_io. intros meds. step_io. }
  intros [|m results]; [|step_io].
  step_io. intros _. step_io. intros meds. step_io.
Qed.

Lemma tidy_place_order_round u :
  keeps_with tidy (place_order_round u)
    (fun r => match r with inl _ => True | inr _ => True end).
Proof.
  apply kw_weaken with (Q := fun _ => True); [|now intros []].
  unfold place_order_round. do 3 (step_io; intros ?).
  destruct (String.eqb _ _); [step_io|].
  apply kw_then; [apply tidy_search|]. intros [results|approx].
  - step_io. intros _.
    apply kw_then.
    { apply kw_for_each. intros m. apply kw_Medicine_print; exact tidy_cart. }
    intros _.
    apply kw_then; [apply kw_input_int; exact tidy_cart|]. intros [id_choice|];
      [|step_io].
    destruct (id_choice =? 0); [step_io|].
    apply kw_then.
    { destruct (find_item id_choice results); [step_io|].
      step_io. intros all_meds. step_io. }
    intros chosen. apply kw_then.
    { destruct chosen as [med|].
      - apply kw_then; [apply tidy_input_quantity|]. intros [qty|]; [|step_io].
        apply kw_then; [apply tidy_append|]. intros _.
        step_io. intros _. step_io.
      - step_io. intros _. step_io. }
    intros [|]; [|step_io].
    apply kw_then; [|intros _; step_io].
    apply kw_while_true with (Inv := fun _ => True); auto.
    intros s _. apply tidy_next_step_round.
  - apply kw_then.
    { destruct approx as [|? ?]; [step_io|]. step_io. intros _.
      apply kw_for_each. intros x. apply kw_Medicine_print; exact tidy_cart. }
    intros _. step_io. intros _. step_io.
Qed.

Lemma tidy_place_order : keeps tidy place_order.
Proof.
  unfold place_order.
  apply kw_while_true with (Inv := fun _ => True); auto.
  intros s _. apply tidy_place_order_round.
Qed.

Lemma tidy_run op : keeps tidy (run op).
Proof.
  destruct op; simpl.
  - apply tidy_append.
  - apply kw_typing; [exact tidy_cart | apply tidy_delete_from_cart].
  - apply kw_typing; [exact tidy_cart | apply tidy_bill_process].
  - apply kw_typing; [exact tidy_cart | apply tidy_place_order].
  - apply kw_typing; [exact tidy_cart | apply kw_display_cart; exact tidy_cart].
  - apply tidy_ensure.
Qed.

(** Every cart that the program builds from an empty one has at most one
    entry per product id. *)
Lemma built_tidy w : built w -> tidy w.
Proof.
  induction 1 as [w E|w op _ IH].
  - unfold tidy. rewrite E. constructor.
  - now apply (tidy_run op w).
Qed.

(** ** Within the limit of 4300 digits *)

Lemma length_string_of_uint d :
  String.length (NilEmpty.string_of_uint d) = nb_digits d.
Proof. induction d; simpl; congruence. Qed.

Lemma nb_digits_uint_of_string s d :
  NilEmpty.uint_of_string s = Some d -> nb_digits d = String.length s.
Proof.
  revert d. induction s as [|c s IH]; intros d; simpl.
  - now intros [= <-].
  - destruct (NilEmpty.uint_of_string s) as [d'|]; simpl.
    + specialize (IH d' eq_refl).
      unfold uint_of_char.
      destruct c as [[] [] [] [] [] [] [] []]; simpl; try discriminate;
        intros [= <-]; simpl; congruence.
    + unfold uint_of_char.
      destruct c as [[] [] [] [] [] [] [] []]; simpl; discriminate.
Qed.

Lemma digits_of_uint d : d <> Nil -> (digits (Z.of_uint d) <= nb_digits d)%nat.
Proof.
  intros N. unfold digits, Py.str_of_Z.
  rewrite Z.abs_eq by (unfold Z.of_uint; lia).
  change (Z.of_uint d) with (Z.of_int (Pos d)).
  rewrite DecimalZ.to_of. cbn [norm NilEmpty.string_of_int].
  rewrite length_string_of_uint. now apply DecimalFacts.nb_digits_unorm.
Qed.

Lemma length_c_lstrip s : (String.length (Py.c_lstrip s) <= String.length s)%nat.
Proof.
  induction s as [|c s IH]; simpl; [lia|].
  destruct (Py.is_c_space c); simpl; lia.
Qed.

Lemma length_c_rstrip s : (String.length (Py.c_rstrip s) <= String.length s)%nat.
Proof.
  induction s as [|c s IH]; simpl; [lia|].
  destruct (Py.c_rstrip s); [destruct (Py.is_c_space c)|]; simpl in *; lia.
Qed.

Lemma length_c_strip s : (String.length (Py.c_strip s) <= String.length s)%nat.
Proof.
  unfold Py.c_strip.
  pose proof (length_c_rstrip (Py.c_lstrip s)). pose proof (length_c_lstrip s). lia.
Qed.

Lemma length_drop_underscores s : forall b t,
  Py.drop_underscores b s = Some t -> (String.length t <= String.length s)%nat.
Proof.
  induction s as [|c s IH]; intros b t; cbn [Py.drop_underscores].
  - intros [= <-]. simpl. lia.
  - destruct (Ascii.eqb c "_").
    + destruct s as [|d s']; [discriminate|].
      destruct (b && Py.is_digit d)%bool; [|discriminate].
      intros H. apply IH in H. simpl in *. lia.
    + destruct (Py.drop_underscores (Py.is_digit c) s) as [t'|] eqn:E;
        [|discriminate].
      intros [= <-]. apply IH in E. simpl. lia.
Qed.

Lemma length_split_sign t :
  (String.length (snd (Py.split_sign t)) <= String.length t)%nat.
Proof.
  destruct t as [|c t]; simpl; [lia|].
  destruct c as [[] [] [] [] [] [] [] []]; simpl; lia.
Qed.

(** [int] reads no number of more digits than the text has characters. *)
Lemma digits_int_of_string s z :
  Py.int_of_string s = Some z -> (digits z <= String.length s)%nat.
Proof.
  unfold Py.int_of_string.
  destruct (Py.drop_underscores false (Py.c_strip s)) as [t|] eqn:E; [|discriminate].
  apply length_drop_underscores in E. pose proof (length_c_strip s) as L.
  pose proof (length_split_sign t) as S.
  destruct (Py.split_sign t) as [neg r]. cbn [snd] in S.
  unfold Py.digits_value, NilZero.uint_of_string.
  destruct r as [|c r]; [discriminate|].
  destruct (NilEmpty.uint_of_string (String c r)) as [d|] eqn:U; [|discriminate].
  cbn [option_map]. intros [= <-].
  pose proof (nb_digits_uint_of_string _ _ U) as D.
  assert (N : d <> Nil).
  { intros ->. simpl in D. discriminate. }
  apply digits_of_uint in N.
  assert (X : digits (if neg then - Z.of_uint d else Z.of_uint d) = digits (Z.of_uint d)).
  { unfold digits. destruct neg; [now rewrite Z.abs_opp | reflexivity]. }
  rewrite X. lia.
Qed.

Lemma printable_int_of_string s z :
  plain_text s = true -> Py.int_of_string s = Some z -> printable z = true.
Proof.
  unfold plain_text, printable. intros H E. apply andb_prop in H as [_ H].
  apply Nat.leb_le in H. apply Nat.leb_le. apply digits_int_of_string in E. lia.
Qed.

Lemma printable_small z : -9 <= z <= 9 -> printable z = true.
Proof.
  intros H.
  assert (C : z = -9 \/ z = -8 \/ z = -7 \/ z = -6 \/ z = -5 \/ z = -4 \/ z = -3 \/
              z = -2 \/ z = -1 \/ z = 0 \/ z = 1 \/ z = 2 \/ z = 3 \/ z = 4 \/
              z = 5 \/ z = 6 \/ z = 7 \/ z = 8 \/ z = 9) by lia.
  repeat (destruct C as [->|C]; [reflexivity|]). subst. reflexivity.
Qed.

Lemma lookup_In fieldnames : forall cells key s,
  lookup fieldnames cells key = Some (Some s) -> In s cells.
Proof.
  induction fieldnames as [|f fs IH]; intros cells key s; cbn [lookup];
    [discriminate|].
  destruct (lookup fs (tl cells) key) as [v|] eqn:E.
  - intros [= ->]. apply IH in E. destruct cells; [contradiction | now right].
  - destruct (String.eqb f key); [|discriminate].
    intros [= H]. destruct cells; [discriminate|]. injection H as ->. now left.
Qed.

Lemma DictReader_cells rows r :
  In r (DictReader rows) -> In (snd r) rows.
Proof.
  destruct rows as [|f rest]; [contradiction|]. cbn [DictReader].
  rewrite in_map_iff. intros (c & <- & H). apply filter_In in H as [H _].
  now right.
Qed.

Lemma writable_cart_item rows r :
  forallb (forallb plain_text) rows = true -> In r (DictReader rows) ->
  writable (cart_item r) = true.
Proof.
  intros P H. apply DictReader_cells in H.
  rewrite forallb_forall in P. specialize (P _ H). rewrite forallb_forall in P.
  unfold writable, cart_item, set_quantity, medicine_of_row, Medicine_init,
    quantity_of_row, get. cbn [id quantity].
  apply andb_true_intro. split.
  - destruct (lookup (fst r) (snd r) "id") as [[s|]|] eqn:E; try reflexivity.
    destruct (Py.int_of_string s) eqn:Z; [|reflexivity].
    apply lookup_In in E. eapply printable_int_of_string; eauto.
  - destruct (lookup (fst r) (snd r) "quantity") as [[s|]|] eqn:E; try reflexivity.
    destruct (Py.int_of_string s) eqn:Z; [|reflexivity].
    apply lookup_In in E. eapply printable_int_of_string; eauto.
Qed.

(** The entries read from a cart file of plain cells can be written under the
    limit. *)
Lemma plain_cart_is_writable w :
  plain_file (cart_file w) = true -> forallb writable (cart_of w) = true.
Proof.
  unfold plain_file, cart_of. destruct (cart_file w) as [rows|]; [|reflexivity].
  intros P. apply forallb_forall. intros it H. unfold cart_items in H.
  apply in_map_iff in H as (r & <- & H). apply filter_In in H as [H _].
  now apply (writable_cart_item rows).
Qed.

Lemma rows_within_limit_writable items :
  forallb writable items = true ->
  rows_within_limit items = (map cart_row items, true).
Proof.
  induction items as [|it rest IH]; cbn [forallb rows_within_limit map];
    [reflexivity|].
  intros H. apply andb_prop in H as [-> H]. now rewrite IH.
Qed.

(** Within the limit the cart is written in full, as with the limit
    lifted; beyond it, the write stops before the first entry that [str]
    refuses. *)
Lemma write_within_limit items w :
  forallb writable items = true ->
  write_cart_within_limit items w = write_cart_from_items items w.
Proof.
  intros H. unfold write_cart_within_limit.
  now rewrite rows_within_limit_writable.
Qed.

Lemma write_beyond_limit l1 it l2 w :
  forallb writable l1 = true -> writable it = false ->
  write_cart_within_limit (l1 ++ it :: l2) w =
  (Raise ValueError, with_cart (Some (CART_HEADER :: map cart_row l1)) w).
Proof.
  intros H N. unfold write_cart_within_limit.
  assert (E : rows_within_limit (l1 ++ it :: l2) = (map cart_row l1, false)).
  { induction l1 as [|x l1 IH]; cbn [List.app rows_within_limit map forallb] in *.
    - now rewrite N.
    - apply andb_prop in H as [-> H]. now rewrite IH. }
  now rewrite E.
Qed.

Lemma writable_add_or_merge items med qty :
  forallb writable items = true -> printable (id med) = true ->
  printable (quantity_for (id med) items + qty) = true ->
  forallb writable (add_or_merge items med qty) = true.
Proof.
  unfold quantity_for, find_item.
  induction items as [|it rest IH]; cbn [forallb add_or_merge find]; intros H P Q.
  - unfold writable. cbn [id quantity set_quantity].
    rewrite P. simpl in Q. now rewrite Q.
  - apply andb_prop in H as [H1 H2].
    destruct (id it =? id med) eqn:E; cbn [forallb].
    + rewrite H2, andb_true_r. unfold writable in *. cbn [id quantity set_quantity].
      apply andb_prop in H1 as [-> _]. now rewrite Q.
    + rewrite H1. now apply IH.
Qed.

Lemma writable_read_back items :
  forallb writable (map read_back items) = forallb writable items.
Proof. induction items as [|it rest IH]; simpl; [reflexivity | now rewrite IH]. Qed.

(** Under the limit [append_to_cart] does what it does with the limit
    lifted, when the numbers that it reads and writes have at most 4300
    digits; the cart that it leaves is then within the limit again. *)
Lemma append_within_limit med qty w :
  forallb writable (cart_of w) = true -> printable (id med) = true ->
  printable (quantity_for (id med) (cart_of w) + qty) = true ->
  append_to_cart_within_limit med qty w = append_to_cart med qty w /\
  forallb writable (cart_of (exec (append_to_cart med qty) w)) = true.
Proof.
  intros H P Q. split.
  - unfold append_to_cart_within_limit, append_to_cart.
    destruct (qty <=? 0); [reflexivity|].
    unfold bind. rewrite read_cart_eq.
    now apply write_within_limit, writable_add_or_merge.
  - destruct (Z.leb_spec qty 0) as [L|L].
    + now rewrite cart_of_append_nonpositive.
    + rewrite cart_of_append by exact L. rewrite writable_read_back.
      now apply writable_add_or_merge.
Qed.

(** Beyond the limit the cart loses entries: when the quantity of the second
    entry, of 4300 digits, is raised by one, [csv.writer] raises
    [ValueError] after the first row, and the cart file is left with that
    row only. *)
Example append_beyond_limit :
  append_to_cart_within_limit paracetamol 1 full_cart_world =
  (Raise ValueError,
   with_cart
     (Some [ CART_HEADER; ["102"; "Dolo"; "650mg"; "Fever"; "30.00"; "1"] ])
     full_cart_world).
Proof. vm_compute. reflexivity. Qed.

Lemma find_item_add_or_merge_other p items med qty :
  p <> id med ->
  find_item p (add_or_merge items med qty) = find_item p items.
Proof.
  intros N. unfold find_item.
  induction items as [|it rest IH]; cbn [add_or_merge find].
  - cbn [id set_quantity]. destruct (Z.eqb_spec (id med) p); [congruence|reflexivity].
  - destruct (Z.eqb_spec (id it) (id med)) as [E|E]; cbn [find id set_quantity].
    + destruct (Z.eqb_spec (id it) p); [congruence|reflexivity].
    + destruct (id it =? p); [reflexivity|exact IH].
Qed.

Lemma quantity_for_append p med qty w :
  quantity_for p (cart_of (exec (append_to_cart med qty) w)) =
  quantity_for p (cart_of w) + (if (p =? id med) && (0 <? qty) then qty else 0).
Proof.
  destruct (Z.ltb_spec 0 qty) as [Q|Q].
  - rewrite cart_of_append by exact Q. rewrite quantity_for_read_back.
    destruct (Z.eqb_spec p (id med)) as [E|E]; cbn [andb].
    + subst p. destruct (quantity_for_add_or_merge (cart_of w) med qty) as (e & F & G).
      unfold quantity_for at 1. now rewrite F.
    + unfold quantity_for. rewrite find_item_add_or_merge_other by exact E.
      now rewrite Z.add_0_r.
  - rewrite cart_of_append_nonpositive by exact Q.
    rewrite andb_false_r. now rewrite Z.add_0_r.
Qed.

Lemma two_appends_within_limit a qa b qb w :
  forallb writable (cart_of w) = true ->
  printable (id a) = true -> printable (id b) = true ->
  printable (quantity_for (id a) (cart_of w) + qa) = true ->
  printable (quantity_for (id b) (cart_of (exec (append_to_cart a qa) w)) + qb)
    = true ->
  (append_to_cart_within_limit a qa;; append_to_cart_within_limit b qb) w =
  (append_to_cart a qa;; append_to_cart b qb) w.
Proof.
  intros H Pa Pb Qa Qb.
  destruct (append_within_limit a qa w H Pa Qa) as [E1 H1].
  unfold bind. rewrite E1.
  pose proof (eval_append a qa w) as R. unfold eval in R. unfold exec in *.
  destruct (append_to_cart a qa w) as [o w1]. cbn [fst snd] in *. subst o.
  apply (append_within_limit b qb w1 H1 Pb Qb).
Qed.

(** ASCII text in the store *)
Lemma plain_text_ascii s : plain_text s = true -> ascii_text s = true.
Proof. unfold plain_text. intros H. now apply andb_prop in H as [H _]. Qed.

Lemma plain_store_ailments w :
  plain_file (store_file w) = true ->
  forallb (fun m => ascii_text (ailment m)) (store_of w) = true.
Proof.
  unfold plain_file, store_of. destruct (store_file w) as [rows|]; [|reflexivity].
  intros P. apply forallb_forall. intros m H. unfold store_items in H.
  apply in_map_iff in H as (r & <- & H). apply filter_In in H as [H _].
  apply DictReader_cells in H.
  rewrite forallb_forall in P. specialize (P _ H). rewrite forallb_forall in P.
  unfold ailment, medicine_of_row, Medicine_init, get. cbn [disease].
  destruct (lookup (fst r) (snd r) "disease") as [[s|]|] eqn:E; try reflexivity.
  apply lookup_In in E. now apply plain_text_ascii, P.
Qed.

(** ** Adding to the cart and persistence *)

Lemma exec_two_appends med1 q1 med2 q2 w :
  exec (append_to_cart med1 q1;; append_to_cart med2 q2) w =
  exec (append_to_cart med2 q2) (exec (append_to_cart med1 q1) w).
Proof. apply exec_bind_unit, (eval_append med1 q1 w). Qed.




(** C7.  [append_to_cart] with a quantity that is zero or negative returns
    at once, without an error, and leaves the world as it was: the cart file
    is not written, so it is byte for byte the same. *)
Theorem append_nonpositive_is_noop (w : World) (med : Medicine) (qty : Z) :
  qty <= 0 ->
  append_to_cart med qty w = (Return tt, w).
Proof.
  intros Hq. unfold append_to_cart.
  destruct (Z.leb_spec qty 0); [reflexivity | lia].
Qed.

Lemma append_nonpositive_is_noop_witness :
  append_to_cart paracetamol (-4) two_item_world = (Return tt, two_item_world).
Proof.
  apply append_nonpositive_is_noop. discriminate.
Defined.

(** C3.  On a cart with no entry [bill_process] prints its refusal and
    returns: it asks nothing, draws no tracking id, writes no receipt and
    leaves the cart file as it is. *)
Theorem empty_cart_checkout_refused (w : World) :
  eval read_cart w = Return [] ->
  bill_process w =
    (Return tt,
     with_stdout (stdout w ++ ["Cart is empty! Add items before billing."%string]) w)
  /\ output_dir (exec bill_process w) = output_dir w
  /\ cart_file (exec bill_process w) = cart_file w.
Proof.
  intros H. unfold eval in H. rewrite read_cart_eq in H. simpl in H.
  injection H as H.
  assert (E : bill_process w =
              (Return tt,
               with_stdout
                 (stdout w ++ ["Cart is empty! Add items before billing."%string]) w)).
  { unfold bill_process, bind. rewrite read_cart_eq, H. reflexivity. }
  unfold exec. rewrite E. auto.
Qed.

Lemma empty_cart_checkout_refused_witness :
  output_dir (exec bill_process fresh_world) = output_dir fresh_world /\
  cart_file (exec bill_process fresh_world) = cart_file fresh_world.
Proof.
  exact (proj2 (empty_cart_checkout_refused fresh_world eq_refl)).
Defined.

Lemma without_cost_read_back it :
  without_cost (cart_row (read_back it)) = without_cost (cart_row it).
Proof.
  unfold cart_row, read_back, without_cost; simpl.
  destruct (name it), (intensity it), (disease it); reflexivity.
Qed.

Lemma cart_row_read_back it :
  stable_cost it -> cart_row (read_back it) = cart_row it.
Proof.
  unfold stable_cost, cart_row. intros ->. simpl.
  destruct (name it), (intensity it), (disease it); reflexivity.
Qed.

Lemma cart_rows_read_back items :
  Forall stable_cost items ->
  map cart_row (map read_back items) = map cart_row items.
Proof.
  induction 1 as [|it items Hit _ IH]; simpl; auto.
  now rewrite cart_row_read_back, IH.
Qed.

(** C9.  Writing back the cart that was read gives a file that reads as the
    same entries: the same product ids and quantities, in the same order.
    This holds of every cart file, also of one that the program did not
    write.  When the program wrote the file, the rows written back are its
    rows, cell for cell, the cost cell left aside; and they are its rows
    altogether when the costs are stable. *)
Theorem round_trip_persistence (w : World) :
  let w' := exec (items <- read_cart;; write_cart_from_items items) w in
  (exists before after,
     eval read_cart w = Return before /\
     cart_file w' = Some (CART_HEADER :: map cart_row before) /\
     eval read_cart w' = Return after /\
     map id_quantity after = map id_quantity before) /\
  (forall items0,
     cart_file w = Some (CART_HEADER :: map cart_row items0) ->
     (exists rows',
        cart_file w' = Some (CART_HEADER :: rows') /\
        map without_cost rows' = map without_cost (map cart_row items0)) /\
     (Forall stable_cost items0 -> cart_file w' = cart_file w)).
Proof.
  intros w'.
  assert (E : w' = exec (write_cart_from_items (cart_of w)) w).
  { unfold w', exec, bind. now rewrite read_cart_eq. }
  split.
  - exists (cart_of w), (map read_back (cart_of w)).
    repeat split.
    + unfold eval. now rewrite read_cart_eq.
    + rewrite E. reflexivity.
    + unfold eval. rewrite read_cart_eq, E, cart_of_written. reflexivity.
    + apply id_quantity_read_back.
  - intros items0 H. split.
    + eexists. split; [rewrite E; reflexivity|].
      unfold cart_of. rewrite H, cart_items_written, !map_map.
      apply map_ext. intros it. apply without_cost_read_back.
    + intros Hs. rewrite E, H. unfold exec, cart_of; simpl.
      now rewrite H, cart_items_written, cart_rows_read_back.
Qed.

Lemma round_trip_persistence_witness :
  cart_file (exec (items <- read_cart;; write_cart_from_items items)
                  two_item_world)
  = cart_file two_item_world.
Proof.
  apply (proj2 (round_trip_persistence two_item_world)
           [set_quantity paracetamol 2; set_quantity azithromycin 1]).
  - vm_compute. reflexivity.
  - repeat constructor; vm_compute; reflexivity.
Defined.




(** ** [delete_item] *)

Lemma input_int_typed prompt msg typed rest a w :
  stdin w = typed :: rest ->
  Py.int_of_string (Py.strip typed) = Some a ->
  input_int prompt msg w =
  (Return (Some a), with_stdin rest (with_stdout (stdout w ++ [prompt]) w)).
Proof.
  intros Hs Ha. unfold input_int, try_except, bind, input, lift.
  rewrite Hs, Ha. reflexivity.
Qed.

Lemma delete_item_absent items p w :
  absent p items ->
  delete_item items p w =
  (Return (inl items),
   with_stdout (stdout w ++ ["Medicine ID not found in cart."%string]) w).
Proof.
  intros Ha. apply find_item_absent in Ha.
  unfold delete_item. rewrite Ha. reflexivity.
Qed.

Lemma delete_item_found items p found typed rest a w :
  find_item p items = Some found ->
  stdin w = typed :: rest ->
  Py.int_of_string (Py.strip typed) = Some a ->
  cart_file (exec (delete_item items p) w) =
  Some (CART_HEADER :: map cart_row (remove_quantity items found a)).
Proof.
  intros F Hs Ha. unfold exec, delete_item. rewrite F.
  unfold bind at 1. cbn [print fst snd].
  unfold bind at 1.
  erewrite input_int_typed by (simpl; eauto).
  set (w1 := with_stdin rest _).
  unfold bind at 1.
  assert (P : exists w2,
             (if quantity found <=? a
              then print ("Removed all " ++ str_of_text (name found) ++
                          " from cart.")%string
              else print ("Removed " ++ Py.str_of_Z a ++ " of " ++
                          str_of_text (name found) ++ ". Remaining: " ++
                          Py.str_of_Z (quantity found - a))%string) w1
             = (Return tt, w2)).
  { destruct (quantity found <=? a); eexists; reflexivity. }
  destruct P as [w2 ->].
  remember (remove_quantity items found a) as items' eqn:R. clear R.
  unfold bind at 1. cbn [write_cart_from_items fst snd].
  destruct items' as [|it its].
  - reflexivity.
  - unfold bind, input. cbn [stdin stdout with_cart with_stdout with_stdin].
    destruct (stdin w2); [reflexivity|].
    destruct (String.eqb _ _); reflexivity.
Qed.

Lemma find_item_tidy p items e :
  one_entry_per_id items -> In e items -> id e = p ->
  find_item p items = Some e.
Proof.
  intros Hn Hin He. apply in_split in Hin as (l1 & l2 & ->).
  destruct (one_entry_split _ _ _ Hn) as [H1 _]. rewrite He in H1.
  now apply find_item_found.
Qed.

(** C2.  In [delete_item] (lines 260-281): for an id that no entry of the
    cart has, the message is printed and neither the list nor any file
    changes; for the entry [e] found for the id (in a cart with one entry
    per id: any entry of that id) and the amount [a] typed, the entry is
    removed from the list and from the persisted cart when [a >= quantity e],
    and is left with [quantity e - a] when [0 < a < quantity e]; the other
    entries and the order stay. *)
Theorem deletion_boundary (w : World) (items : list Medicine) (p : Z) :
  (absent p items ->
   delete_item items p w =
     (Return (inl items),
      with_stdout (stdout w ++ ["Medicine ID not found in cart."%string]) w) /\
   cart_file (exec (delete_item items p) w) = cart_file w) /\
  (forall e typed rest a,
     find_item p items = Some e ->
     stdin w = typed :: rest -> Py.int_of_string (Py.strip typed) = Some a ->
     let w' := exec (delete_item items p) w in
     exists l1 l2,
       items = l1 ++ e :: l2 /\ absent p l1 /\ id e = p /\
       (quantity e <= a ->
        remove_quantity items e a = l1 ++ l2 /\
        cart_file w' = Some (CART_HEADER :: map cart_row (l1 ++ l2)) /\
        map id_quantity (cart_of w') = map id_quantity (l1 ++ l2) /\
        (one_entry_per_id items -> absent p (cart_of w'))) /\
       (0 < a < quantity e ->
        remove_quantity items e a = l1 ++ set_quantity e (quantity e - a) :: l2 /\
        cart_file w' =
          Some (CART_HEADER ::
                map cart_row (l1 ++ set_quantity e (quantity e - a) :: l2)) /\
        map id_quantity (cart_of w') =
          map id_quantity l1 ++ (p, quantity e - a) :: map id_quantity l2)) /\
  (forall e, one_entry_per_id items -> In e items -> id e = p ->
             find_item p items = Some e).
Proof.
  split; [|split].
  - intros Ha. unfold exec. rewrite delete_item_absent by auto. auto.
  - intros e typed rest a F Hs Ha w'.
    destruct (find_item_split _ _ _ F) as (l1 & l2 & E & H1 & He).
    exists l1, l2. repeat split; auto.
    + subst items. unfold remove_quantity.
      destruct (Z.leb_spec (quantity e) a); [|lia].
      rewrite He. now apply remove_found_split.
    + pose proof (delete_item_found _ _ _ _ _ _ _ F Hs Ha) as C.
      fold w' in C. rewrite C. subst items. unfold remove_quantity.
      destruct (Z.leb_spec (quantity e) a); [|lia].
      rewrite He, remove_found_split by auto. reflexivity.
    + pose proof (delete_item_found _ _ _ _ _ _ _ F Hs Ha) as C.
      fold w' in C. unfold cart_of. rewrite C, cart_items_written.
      rewrite id_quantity_read_back. subst items. unfold remove_quantity.
      destruct (Z.leb_spec (quantity e) a); [|lia].
      rewrite He, remove_found_split by auto. reflexivity.
    + intros Hn.
      pose proof (delete_item_found _ _ _ _ _ _ _ F Hs Ha) as C.
      fold w' in C. unfold cart_of. rewrite C, cart_items_written.
      subst items. unfold remove_quantity.
      destruct (Z.leb_spec (quantity e) a); [|lia].
      rewrite He, remove_found_split by auto.
      apply absent_read_back. destruct (one_entry_split _ _ _ Hn) as [_ H2].
      rewrite He in H2. unfold absent in *. apply Forall_app; auto.
    + subst items. unfold remove_quantity.
      destruct (Z.leb_spec (quantity e) a); [lia|].
      rewrite He. now apply decrease_found_split.
    + pose proof (delete_item_found _ _ _ _ _ _ _ F Hs Ha) as C.
      fold w' in C. rewrite C. subst items. unfold remove_quantity.
      destruct (Z.leb_spec (quantity e) a); [lia|].
      rewrite He, decrease_found_split by auto. reflexivity.
    + pose proof (delete_item_found _ _ _ _ _ _ _ F Hs Ha) as C.
      fold w' in C. unfold cart_of. rewrite C, cart_items_written.
      rewrite id_quantity_read_back. subst items. unfold remove_quantity.
      destruct (Z.leb_spec (quantity e) a); [lia|].
      rewrite He, decrease_found_split by auto.
      rewrite map_app. simpl. unfold id_quantity at 2. simpl.
      now rewrite He.
  - intros e. apply find_item_tidy.
Qed.

Lemma deletion_boundary_witness :
  exists l1 l2,
    cart_of two_item_world = l1 ++ set_quantity paracetamol 2 :: l2 /\
    cart_file
      (exec (delete_item (cart_of two_item_world) 101)
            (with_stdin ["2"%string] two_item_world)) =
    Some (CART_HEADER :: map cart_row (l1 ++ l2)).
Proof.
  destruct (proj1 (proj2 (deletion_boundary
                            (with_stdin ["2"%string] two_item_world)
                            (cart_of two_item_world) 101))
              (set_quantity paracetamol 2) "2"%string [] 2)
    as (l1 & l2 & E & _ & _ & H & _).
  - vm_compute. reflexivity.
  - reflexivity.
  - vm_compute. reflexivity.
  - exists l1, l2. split; [exact E|].
    apply H. vm_compute. discriminate.
Defined.

(** An amount that is zero or negative is taken like any amount below the
    quantity: nothing is refused, and the entry is written with
    [quantity e - a], which is not less than it had. *)
Lemma nonpositive_amount_accepted w items p e typed rest a :
  find_item p items = Some e ->
  stdin w = typed :: rest -> Py.int_of_string (Py.strip typed) = Some a ->
  a <= 0 -> 0 < quantity e ->
  exists l1 l2,
    items = l1 ++ e :: l2 /\
    cart_file (exec (delete_item items p) w) =
      Some (CART_HEADER ::
            map cart_row (l1 ++ set_quantity e (quantity e - a) :: l2)) /\
    quantity e <= quantity e - a.
Proof.
  intros F Hs Ha Hn Hq.
  destruct (find_item_split _ _ _ F) as (l1 & l2 & E & H1 & He).
  exists l1, l2. split; auto. split; [|lia].
  rewrite (delete_item_found _ _ _ _ _ _ _ F Hs Ha).
  subst items. unfold remove_quantity.
  destruct (Z.leb_spec (quantity e) a); [lia|].
  rewrite He, decrease_found_split by auto. reflexivity.
Qed.

(** C6 (what the code does).  A negative amount typed in [delete_from_cart]
    is taken as it is: with two Paracetamol in the cart, the amount [-3]
    leaves five of them in the persisted cart, reported as a removal. *)
Theorem negative_amount_raises_quantity :
  let w' := exec delete_from_cart
              (with_stdin [""; "101"; "-3"; "n"]%string two_item_world) in
  cart_file w' =
    Some [ CART_HEADER;
           ["101"; "Paracetamol"; "500mg"; "Fever"; "20.00"; "5"]%string;
           ["103"; "Azithromycin"; "250mg"; "Infection"; "85.00"; "1"]%string ]
  /\ In "Removed -3 of Paracetamol. Remaining: 5"%string (stdout w')
  /\ eval delete_from_cart
       (with_stdin [""; "101"; "-3"; "n"]%string two_item_world) = Return tt.
Proof.
  vm_compute. repeat split. intuition.
Qed.

(** ** Following a computation that returns *)

Lemma bind_returns {A B} (c : M A) (k : A -> M B) w b w' :
  bind c k w = (Return b, w') ->
  exists a w1, c w = (Return a, w1) /\ k a w1 = (Return b, w').
Proof.
  unfold bind. destruct (c w) as [[a|e|] w1]; intros H; try discriminate.
  now exists a, w1.
Qed.

Lemma print_returns s w a w' :
  print s w = (Return a, w') -> w' = with_stdout (stdout w ++ [s]) w.
Proof. now intros [= _ <-]. Qed.

Lemma input_returns s w l w' :
  input s w = (Return l, w') ->
  exists rest, stdin w = l :: rest /\
               w' = with_stdin rest (with_stdout (stdout w ++ [s]) w).
Proof.
  unfold input. destruct (stdin w) as [|l0 rest]; intros [= <- <-].
  now exists rest.
Qed.

Lemma subtotal_of_returns it w x w' :
  subtotal_of it w = (Return x, w') -> w' = w /\ subtotal it = Some x.
Proof.
  unfold subtotal_of, subtotal, lift.
  destruct (Py.fmul_int _ _); intros [= <- <-]; auto.
Qed.

(** the additions of [sum_subtotals], on the list of the subtotals *)
Lemma sum_subtotals_returns items acc w t w' :
  sum_subtotals items acc w = (Return t, w') ->
  w' = w /\ exists l, subtotals items = Some l /\ t = fold_left Py.fadd l acc.
Proof.
  revert acc w. induction items as [|it items IH]; intros acc w; simpl.
  - intros [= <- <-]. split; auto. now exists [].
  - intros H. apply bind_returns in H as (x & w1 & H1 & H2).
    apply subtotal_of_returns in H1 as [-> Hx].
    apply IH in H2 as [-> (l & Hl & ->)].
    split; auto. exists (x :: l). now rewrite Hx, Hl.
Qed.

Lemma sum_subtotals_total items w t w' :
  sum_subtotals items Py.fzero w = (Return t, w') ->
  w' = w /\ grand_total items = Some t.
Proof.
  intros H. apply sum_subtotals_returns in H as [-> (l & Hl & ->)].
  split; auto. unfold grand_total. now rewrite Hl.
Qed.

(** the total that [display_cart] shows is made of the same additions *)
Lemma display_lines_total items acc w t w' :
  display_lines items acc w = (Return t, w') ->
  exists l, subtotals items = Some l /\ t = fold_left Py.fadd l acc.
Proof.
  revert acc w. induction items as [|it items IH]; intros acc w; simpl.
  - intros [= <- <-]. now exists [].
  - intros H. apply bind_returns in H as (x & w1 & H1 & H).
    apply subtotal_of_returns in H1 as [-> Hx].
    apply bind_returns in H as (l0 & w2 & _ & H).
    apply bind_returns in H as (u & w3 & _ & H).
    apply IH in H as (l & Hl & ->).
    exists (x :: l). now rewrite Hx, Hl.
Qed.

(** and the other way round: [sum_subtotals] raises only for a quantity
    that is too large for a float *)
Lemma sum_subtotals_runs items acc w :
  sum_subtotals items acc w =
  match subtotals items with
  | Some l => (Return (fold_left Py.fadd l acc), w)
  | None => (Raise OverflowError, w)
  end.
Proof.
  revert acc. induction items as [|it items IH]; intros acc; simpl; auto.
  unfold bind, subtotal_of, lift, subtotal.
  destruct (Py.fmul_int (cost it) (quantity it)) as [x|]; simpl; auto.
  rewrite IH. destruct (subtotals items); reflexivity.
Qed.

Lemma save_bill_returns n a p items total tid w path w' :
  save_bill n a p items total tid w = (Return path, w') ->
  exists written,
    bill_lines items (bill_head n a p) = (written, None) /\
    path = (OUTPUT_DIR ++ "/" ++ bill_filename tid)%string /\
    w' = with_output
           (write_file (bill_filename tid) (written ++ bill_foot total tid)%string
                       (output_dir w)) w.
Proof.
  unfold save_bill.
  destruct (bill_lines items _) as [written [e|]]; intros [= <- <-].
  now exists written.
Qed.

Lemma with_stdout_same w : with_stdout (stdout w ++ []) w = w.
Proof. rewrite app_nil_r. now destruct w. Qed.

Lemma with_stdout_twice l1 l2 w :
  with_stdout (stdout (with_stdout (stdout w ++ l1) w) ++ l2)
              (with_stdout (stdout w ++ l1) w) =
  with_stdout (stdout w ++ (l1 ++ l2)) w.
Proof. simpl. now rewrite app_assoc. Qed.

Lemma for_each_prints {A} (l : list A) (f : A -> M unit) :
  (forall x, prints_only (f x)) -> prints_only (for_each l f).
Proof.
  intros Hf. induction l as [|x l IH]; intros w a w'; simpl.
  - intros [= _ <-]. exists []. now rewrite with_stdout_same.
  - intros H. apply bind_returns in H as ([] & w1 & H1 & H2).
    apply Hf in H1 as (l1 & ->). apply IH in H2 as (l2 & ->).
    exists (l1 ++ l2). apply with_stdout_twice.
Qed.


#[local] Ltac follow H :=
  repeat (cbv beta zeta in H;
          apply bind_returns in H;
          let a := fresh "a" in
          let w := fresh "w" in
          let E := fresh "E" in
          destruct H as (a & w & E & H)).

Lemma generate_tracking_id_returns w t w' :
  generate_tracking_id w = (Return t, w') ->
  t = Py.upper (Py.take 10 (uuid4_hex w (uuid4_calls w))) /\
  w' = with_uuid4_calls (S (uuid4_calls w)) w.
Proof. unfold generate_tracking_id. intros [= <- <-]. auto. Qed.

Lemma clear_cart_returns w a w' :
  clear_cart w = (Return a, w') -> w' = with_cart (Some [CART_HEADER]) w.
Proof. now intros [= _ <-]. Qed.

(** rewriting a world by the step that gave it, one field at a time *)
#[local] Ltac unwind :=
  repeat match goal with
         | E : ?x = _ |- context [?x] =>
             is_var x;
             match type of x with World => idtac end;
             rewrite E;
             cbn [stdin stdout output_dir cart_file store_file instr_file
                  uuid4_hex uuid4_calls with_stdin with_stdout with_output
                  with_cart with_uuid4_calls]
         end.

#[local] Ltac unwind_in H :=
  repeat match type of H with
         | context [?x] =>
             is_var x;
             match type of x with World => idtac end;
             match goal with
             | E : x = _ |- _ =>
                 rewrite E in H;
                 cbn [stdin stdout output_dir cart_file store_file instr_file
                      uuid4_hex uuid4_calls with_stdin with_stdout with_output
                      with_cart with_uuid4_calls] in H
             end
         end.

(** What a checkout that returns has done. *)
Lemma bill_process_returns w it items w' :
  cart_of w = it :: items ->
  bill_process w = (Return tt, w') ->
  exists n a p total written,
    let tid := Py.upper (Py.take 10 (uuid4_hex w (uuid4_calls w))) in
    (exists rest, stdin w = n :: a :: p :: rest) /\
    grand_total (it :: items) = Some total /\
    bill_lines (it :: items) (bill_head (Py.strip n) (Py.strip a) (Py.strip p))
      = (written, None) /\
    output_dir w' =
      write_file (bill_filename tid) (written ++ bill_foot total tid)%string
                 (output_dir w) /\
    cart_file w' = Some [CART_HEADER] /\
    In ("TOTAL COST: ₹" ++ Py.format_2f total)%string (stdout w').
Proof.
  intros C H. unfold bill_process in H.
  apply bind_returns in H as (items0 & w0 & E0 & H).
  rewrite read_cart_eq in E0. injection E0 as <- <-. rewrite C in H.
  follow H.
  repeat match goal with
         | E : print _ _ = (Return _, _) |- _ => apply print_returns in E
         | E : input _ _ = (Return _, _) |- _ =>
             apply input_returns in E; destruct E as (? & ? & ?)
         | E : sum_subtotals _ _ _ = (Return _, _) |- _ =>
             apply sum_subtotals_total in E; destruct E as (? & ?)
         | E : generate_tracking_id _ = (Return _, _) |- _ =>
             apply generate_tracking_id_returns in E; destruct E as (? & ?)
         | E : save_bill _ _ _ _ _ _ _ = (Return _, _) |- _ =>
             apply save_bill_returns in E; destruct E as (? & ? & ? & ?)
         | E : clear_cart _ = (Return _, _) |- _ =>
             apply clear_cart_returns in E
         | E : for_each _ _ _ = (Return _, _) |- _ =>
             apply for_each_prints in E;
             [destruct E as (? & ?)
             | intros ? ? ? ? Hx; follow Hx;
               match goal with
               | E1 : subtotal_of _ _ = _ |- _ =>
                   apply subtotal_of_returns in E1; destruct E1 as (-> & _)
               end;
               apply print_returns in Hx; eexists; exact Hx]
         end.
  injection H as <-.
  match goal with
  | Hn : stdin _ = ?n :: _, Ha : stdin _ = ?a :: _, Hp : stdin _ = ?p :: ?rest,
    Ht : grand_total _ = Some ?total, Hl : bill_lines _ _ = (?written, None),
    Hi : ?tid = Py.upper _
    |- _ =>
      match type of Hl with
      | context [bill_head (Py.strip n) (Py.strip a) (Py.strip p)] =>
          exists n, a, p, total, written; cbv zeta;
          unwind_in Hn; unwind_in Ha; unwind_in Hp; unwind_in Hi;
          rewrite <- Hi;
          split; [exists rest; congruence|];
          split; [exact Ht|]; split; [exact Hl|];
          split; [|split]; unwind
      end
  end.
  - reflexivity.
  - reflexivity.
  - repeat (rewrite in_app_iff; simpl). tauto.
Qed.

(** ** A checkout that goes through *)

Lemma rf_ret {A} n (a : A) : returns_from n n (ret a).
Proof. intros w H. now exists a, w. Qed.

Lemma rf_print n s : returns_from n n (print s).
Proof. intros w H. eexists. eexists. split; [reflexivity | exact H]. Qed.

Lemma rf_input n s : returns_from (S n) n (input s).
Proof.
  intros w H. unfold input. destruct (stdin w) as [|l rest] eqn:E.
  - simpl in H. lia.
  - eexists. eexists. split; [reflexivity|]. simpl in *. lia.
Qed.

Lemma rf_bind {A B} n m k (c : M A) (f : A -> M B) :
  returns_from n m c -> (forall a, returns_from m k (f a)) ->
  returns_from n k (bind c f).
Proof.
  intros Hc Hf w H. destruct (Hc w H) as (a & w1 & E1 & H1).
  destruct (Hf a w1 H1) as (b & w2 & E2 & H2).
  exists b, w2. unfold bind. rewrite E1. auto.
Qed.

Lemma rf_generate_tracking_id n : returns_from n n generate_tracking_id.
Proof. intros w H. eexists. eexists. split; [reflexivity | exact H]. Qed.

Lemma rf_clear_cart n : returns_from n n clear_cart.
Proof. intros w H. eexists. eexists. split; [reflexivity | exact H]. Qed.

Lemma rf_sum_subtotals n items :
  subtotals items <> None -> returns_from n n (sum_subtotals items Py.fzero).
Proof.
  intros Hs w H. rewrite sum_subtotals_runs.
  destruct (subtotals items); [|congruence]. eexists. eexists. eauto.
Qed.

Lemma subtotals_cons it items :
  subtotals (it :: items) <> None ->
  subtotal it <> None /\ subtotals items <> None.
Proof.
  simpl. destruct (subtotal it), (subtotals items); split; congruence.
Qed.

Lemma bill_lines_billable items written :
  billable items -> snd (bill_lines items written) = None.
Proof.
  intros [Hn Hs]. revert written.
  induction Hn as [|it items Hit Hn IH]; intros written; simpl; auto.
  apply subtotals_cons in Hs as [H1 H2]. unfold subtotal in H1.
  destruct (Py.fmul_int (cost it) (quantity it)); [|congruence].
  destruct (name it); [|congruence]. now apply IH.
Qed.

Lemma rf_save_bill n name_ a p items total t :
  billable items -> returns_from n n (save_bill name_ a p items total t).
Proof.
  intros Hb w H. unfold save_bill.
  pose proof (bill_lines_billable items (bill_head name_ a p) Hb) as E.
  destruct (bill_lines items _) as [written o]. simpl in E. subst o.
  eexists. eexists. split; [reflexivity | exact H].
Qed.

Lemma rf_for_each {A} n (l : list A) (f : A -> M unit) :
  Forall (fun x => returns_from n n (f x)) l -> returns_from n n (for_each l f).
Proof.
  induction 1 as [|x l Hx _ IH]; simpl.
  - apply rf_ret.
  - eapply rf_bind; [exact Hx | intros _; exact IH].
Qed.

Lemma rf_summary_lines n items :
  subtotals items <> None ->
  Forall (fun it =>
            returns_from n n
              (subtotal <- subtotal_of it;;
               print (str_of_text (name it) ++ " (" ++ str_of_text (intensity it) ++
                      ") x " ++ Py.str_of_Z (quantity it) ++ " → ₹" ++
                      Py.format_2f subtotal)%string))
         items.
Proof.
  induction items as [|it items IH]; intros Hs; constructor.
  - apply subtotals_cons in Hs as [H1 _].
    eapply rf_bind; [|intros x; apply rf_print].
    intros w H. unfold subtotal_of, lift. unfold subtotal in H1.
    destruct (Py.fmul_int (cost it) (quantity it)); [|congruence].
    eexists. eexists. split; [reflexivity | exact H].
  - apply IH. now apply subtotals_cons in Hs.
Qed.

(** With entries in the cart that all have a name and a quantity that a
    float can hold, and four lines typed, the checkout returns. *)
Lemma bill_process_succeeds w items :
  eval read_cart w = Return items -> items <> [] -> billable items ->
  (4 <= List.length (stdin w))%nat ->
  eval bill_process w = Return tt.
Proof.
  unfold eval at 1. rewrite read_cart_eq. simpl. intros [= <-] Hne Hb Hl.
  destruct (cart_of w) as [|it items] eqn:C; [congruence|].
  assert (R : exists a w', bill_process w = (Return a, w') /\
                           (0 <= List.length (stdin w'))%nat).
  { unfold bill_process, bind at 1. rewrite read_cart_eq, C. cbn [fst snd].
    revert Hl. generalize w.
    match goal with
    | |- forall w0, _ -> exists a w', ?c w0 = _ /\ _ =>
        change (returns_from 4 0 c)
    end.
    repeat first
      [ apply rf_ret
      | eapply rf_bind;
        [ first [ apply rf_print | apply rf_input
                | apply rf_sum_subtotals, Hb
                | apply rf_generate_tracking_id
                | apply rf_save_bill, Hb
                | apply rf_clear_cart
                | apply rf_for_each, rf_summary_lines, Hb ]
        | intros ? ] ]. }
  destruct R as ([] & w' & E & _). unfold eval. now rewrite E.
Qed.

Lemma bill_process_run w items :
  eval read_cart w = Return items -> items <> [] ->
  eval bill_process w = Return tt ->
  exists it rest, cart_of w = it :: rest /\ items = it :: rest /\
                  bill_process w = (Return tt, exec bill_process w).
Proof.
  unfold eval, exec. rewrite read_cart_eq. simpl. intros [= <-] Hne Hr.
  destruct (cart_of w) as [|it rest] eqn:C; [congruence|].
  exists it, rest. repeat split.
  destruct (bill_process w) as [o w']. simpl in *. now subst.
Qed.

Lemma in_write_file fname text d : In (fname, text) (write_file fname text d).
Proof. unfold write_file. apply in_or_app. right. now left. Qed.

(** C4.  When [bill_process] returns on a cart that has entries, the cart
    file holds the header row and nothing else, and [read_cart] finds no
    entry.  It does return when every entry has a name and a quantity that
    a float can hold and the customer types the four lines asked for. *)
Theorem checkout_clears_cart (w : World) (items : list Medicine) :
  eval read_cart w = Return items -> items <> [] ->
  let w' := exec bill_process w in
  (eval bill_process w = Return tt ->
   cart_file w' = Some [CART_HEADER] /\ eval read_cart w' = Return []) /\
  (billable items -> (4 <= List.length (stdin w))%nat ->
   eval bill_process w = Return tt).
Proof.
  intros Hr Hne w'. split.
  - intros Hb.
    destruct (bill_process_run w items Hr Hne Hb) as (it & rest & C & _ & E).
    destruct (bill_process_returns w it rest _ C E)
      as (n & a & p & total & written & _ & _ & _ & _ & Hc & _).
    fold w' in Hc. split; auto.
    unfold eval. rewrite read_cart_eq. unfold cart_of. rewrite Hc. reflexivity.
  - intros Hb Hl. now apply (bill_process_succeeds w items).
Qed.

Lemma checkout_clears_cart_witness :
  cart_file (exec bill_process billing_world) = Some [CART_HEADER] /\
  eval read_cart (exec bill_process billing_world) = Return [].
Proof.
  destruct (checkout_clears_cart billing_world
              [set_quantity paracetamol 2; set_quantity azithromycin 1])
    as [H1 H2].
  - vm_compute. reflexivity.
  - discriminate.
  - apply H1, H2.
    + split; [repeat constructor; discriminate | vm_compute; discriminate].
    + vm_compute. repeat constructor.
Defined.

(** ** Two decimals *)

(** [div_half_even n d] is an integer nearest to [n / d]. *)
Lemma div_half_even_nearest n d :
  0 <= n -> 0 < d -> 2 * Z.abs (n - Py.div_half_even n d * d) <= d.
Proof.
  intros Hn Hd. unfold Py.div_half_even.
  pose proof (Z.div_mod n d ltac:(lia)) as E.
  pose proof (Z.mod_pos_bound n d Hd) as B.
  destruct (Z.compare_spec (2 * (n mod d)) d) as [C|C|C];
    [destruct (Z.even (n / d))| |]; nia.
Qed.

(** The hundredths that [format_2f] prints for the float [m * 2^e] are
    those nearest to it: exact when [e >= 0], and within half a hundredth
    otherwise. *)
Lemma hundredths_nearest m e :
  (0 <= e -> Py.hundredths m e = Zpos m * 2 ^ e * 100) /\
  (e < 0 ->
   2 * Z.abs (Zpos m * 100 - Py.hundredths m e * 2 ^ (- e)) <= 2 ^ (- e)).
Proof.
  unfold Py.hundredths. split; intros H.
  - destruct (Z.leb_spec 0 e); [reflexivity | lia].
  - destruct (Z.leb_spec 0 e); [lia|].
    apply div_half_even_nearest; [lia|].
    apply Z.pow_pos_nonneg; lia.
Qed.

(** The two decimals that [format_2f] prints are the hundredths nearest to
    the number that the float stands for. *)
Lemma two_decimals_nearest s m e :
  exists h : Z,
    Py.format_2f (S754_finite s m e) = Py.format_hundredths s h /\
    (Qabs (inject_Z (Zpos m) * Qpower 2 e * 100 - inject_Z h) <= 1 # 2)%Q.
Proof.
  exists (Py.hundredths m e). split; [reflexivity|].
  destruct (hundredths_nearest m e) as [Hp Hn].
  destruct (Z.leb_spec 0 e) as [He|He].
  - rewrite (Hp He).
    assert (E : (inject_Z (Zpos m) * Qpower 2 e * 100 -
                 inject_Z (Zpos m * 2 ^ e * 100) == 0)%Q).
    { rewrite !inject_Z_mult. rewrite (Zpower_Qpower 2 e He).
      change (inject_Z 100) with 100%Q. change (inject_Z 2) with 2%Q. ring. }
    rewrite E. discriminate.
  - specialize (Hn He). set (h := Py.hundredths m e) in *.
    set (d := 2 ^ (- e)) in *.
    assert (Dpos : 0 < d) by (apply Z.pow_pos_nonneg; lia).
    assert (P : (Qpower 2 e == / inject_Z d)%Q).
    { replace e with (- - e) by lia. rewrite Qpower_opp.
      unfold d. rewrite (Zpower_Qpower 2 (- e)) by lia. reflexivity. }
    assert (E : (inject_Z (Zpos m) * Qpower 2 e * 100 - inject_Z h ==
                 inject_Z (Zpos m * 100 - h * d) / inject_Z d)%Q).
    { rewrite P. unfold Zminus. rewrite inject_Z_plus, inject_Z_opp, !inject_Z_mult.
      change (inject_Z 100) with 100%Q. field.
      intros H. unfold Qeq in H. cbn in H. lia. }
    rewrite E. unfold Qdiv. rewrite Qabs_Qmult.
    rewrite (Qabs_pos (/ inject_Z d)).
    2:{ apply Qinv_le_0_compat. unfold Qle. cbn. lia. }
    apply Qle_shift_div_r.
    { unfold Qlt. cbn. lia. }
    unfold Qabs, inject_Z, Qle, Qmult. cbn [Qnum Qden]. lia.
Qed.

(** ** The total and the exact sum *)

Lemma has_value_spec x q :
  has_value x q = true -> exists v, value x = Some v /\ (v == q)%Q.
Proof.
  unfold has_value. destruct (value x) as [v|]; [|discriminate].
  intros H. exists v. split; [reflexivity|]. now apply Qeq_bool_iff.
Qed.

(** When nothing is rounded on the way, the float that the additions end
    with stands for the exact sum. *)
Lemma unrounded_exact items acc a :
  value acc = Some a -> unrounded items acc = true ->
  exists l t E,
    subtotals items = Some l /\
    value (fold_left Py.fadd l acc) = Some t /\
    exact_total items = Some E /\ (t == a + E)%Q.
Proof.
  revert acc a. induction items as [|it rest IH]; intros acc a Va U.
  - exists [], a, 0%Q. cbn. repeat split; auto. now rewrite Qplus_0_r.
  - cbn [unrounded] in U. rewrite Va in U.
    destruct (subtotal it) as [x|] eqn:S; [|discriminate].
    destruct (exact_subtotal it) as [p|] eqn:P; [|discriminate].
    apply andb_prop in U. destruct U as [U Ur].
    apply andb_prop in U. destruct U as [_ Us].
    destruct (has_value_spec _ _ Us) as (s & Vs & Es).
    destruct (IH _ _ Vs Ur) as (l & t & E & Sl & Vt & El & Et).
    exists (x :: l), t, (p + E)%Q. cbn [subtotals exact_total fold_left].
    rewrite S, Sl, P, El. repeat split; auto.
    rewrite Et, Es. now rewrite Qplus_assoc.
Qed.




(** The receipt and the screen of the example, in full. *)
Example checkout_of_the_example :
  let w' := exec bill_process billing_world in
  In "TOTAL COST: ₹125.00"%string (stdout w') /\
  output_dir w' =
    [("bill_3F2A9C01D4.txt",
      "CHEMIST 4 U" ++ NL ++
      "============================================================" ++ NL ++
      "Customer: Ann" ++ NL ++
      "Address:  12 Hill Road" ++ NL ++
      "Phone:    555-0100" ++ NL ++
      "------------------------------------------------------------" ++ NL ++
      "Item                           Qty      Rate    Subtotal" ++ NL ++
      "------------------------------------------------------------" ++ NL ++
      "Paracetamol                      2  ₹   20.00  ₹     40.00" ++ NL ++
      "Azithromycin                     1  ₹   85.00  ₹     85.00" ++ NL ++
      "------------------------------------------------------------" ++ NL ++
      "Total: ₹125.00" ++ NL ++
      "Payment Mode: Cash on Delivery" ++ NL ++
      "Tracking ID: 3F2A9C01D4" ++ NL ++
      "============================================================" ++ NL ++
      "Thank you for shopping with Chemist 4 U!" ++ NL)%string].
Proof.
  vm_compute. split; [|reflexivity]. intuition.
Qed.

(** ** Search *)

Lemma lower_same a b : Py.lower a = Py.lower b <-> same_ignoring_case a b.
Proof.
  revert b. induction a as [|x a IH]; intros [|y b]; simpl; try tauto;
    try (split; [discriminate | tauto]).
  rewrite <- IH. split.
  - now intros [= ? ?].
  - now intros [-> ->].
Qed.

Lemma prefix_occurs a b :
  String.prefix a b = true <-> exists post, b = (a ++ post)%string.
Proof.
  revert b. induction a as [|x a IH]; intros b.
  - destruct b; simpl; (split; [intros _; eexists; reflexivity | reflexivity]).
  - destruct b as [|y b]; simpl.
    + split; [discriminate | intros [post [=]]].
    + destruct (ascii_dec x y) as [->|N].
      * rewrite IH. split; intros [post E]; exists post; congruence.
      * split; [discriminate|]. intros [post E]. injection E as E1 E2.
        congruence.
Qed.

Lemma contains_occurs needle hay :
  Py.contains needle hay = true <-> occurs_in needle hay.
Proof.
  unfold occurs_in. induction hay as [|c hay IH].
  - change (Py.contains needle "")
      with (String.prefix needle "" || false)%bool.
    rewrite orb_false_r, prefix_occurs. split.
    + intros [post E]. now exists EmptyString, post.
    + intros ([|x pre] & post & E); [now exists post | discriminate].
  - change (Py.contains needle (String c hay))
      with (String.prefix needle (String c hay) || Py.contains needle hay)%bool.
    rewrite orb_true_iff, IH, prefix_occurs. split.
    + intros [[post E] | (pre & post & E)].
      * now exists EmptyString, post.
      * exists (String c pre), post. simpl. now rewrite E.
    + intros ([|x pre] & post & E).
      * left. now exists post.
      * right. injection E as _ E. now exists pre, post.
Qed.

Lemma disease_key_ailment m : disease_key m = Py.lower (Py.strip (ailment m)).
Proof. reflexivity. Qed.

Lemma find_by_disease_eq term w :
  find_by_disease term w =
  (Return
     (filter (fun m => String.eqb (disease_key m) (Py.lower (Py.strip term)))
             (store_of w)),
   w).
Proof. unfold find_by_disease, bind. now rewrite load_store_eq. Qed.

Lemma exact_match_test term m :
  String.eqb (disease_key m) (Py.lower (Py.strip term)) = true <->
  exact_match term m.
Proof.
  rewrite String.eqb_eq, disease_key_ailment. apply lower_same.
Qed.

Lemma approximate_match_test term m :
  Py.contains (Py.lower (Py.strip term)) (disease_key m) = true <->
  approximate_match term m.
Proof. rewrite disease_key_ailment. apply contains_occurs. Qed.



(** ** The loops have fuel enough *)

Lemma safe_ret {A} (a : A) : safe (ret a).
Proof. intros w. simpl. split; [discriminate | lia]. Qed.

Lemma safe_raise {A} e : safe (@raise A e).
Proof. intros w. simpl. split; [discriminate | lia]. Qed.

Lemma safe_print s : safe (print s).
Proof. intros w. simpl. split; [discriminate | lia]. Qed.

Lemma safe_input s : safe (input s).
Proof.
  intros w. unfold input. destruct (stdin w) eqn:E; simpl; rewrite ?E; simpl;
    (split; [discriminate | lia]).
Qed.

Lemma safe_lift {A} e (o : option A) : safe (lift e o).
Proof. destruct o; [apply safe_ret | apply safe_raise]. Qed.

Lemma safe_read_cart : safe read_cart.
Proof. intros w. rewrite read_cart_eq. simpl. split; [discriminate | lia]. Qed.

Lemma safe_load_store : safe load_store.
Proof. intros w. rewrite load_store_eq. simpl. split; [discriminate | lia]. Qed.

Lemma safe_write items : safe (write_cart_from_items items).
Proof. intros w. simpl. split; [discriminate | lia]. Qed.

Lemma safe_clear_cart : safe clear_cart.
Proof. intros w. simpl. split; [discriminate | lia]. Qed.

Lemma safe_generate_tracking_id : safe generate_tracking_id.
Proof. intros w. simpl. split; [discriminate | lia]. Qed.

Lemma safe_save_bill n a p items total t : safe (save_bill n a p items total t).
Proof.
  intros w. unfold save_bill.
  destruct (bill_lines items _) as [written [e|]]; simpl;
    (split; [discriminate | lia]).
Qed.

Lemma safe_bind {A B} (c : M A) (k : A -> M B) :
  safe c -> (forall a, safe (k a)) -> safe (bind c k).
Proof.
  intros Hc Hk w. specialize (Hc w). unfold bind.
  destruct (c w) as [[a|e|] w1]; simpl in *; destruct Hc as [H1 H2].
  - destruct (Hk a w1) as [H3 H4]. split; [exact H3 | lia].
  - split; [discriminate | exact H2].
  - contradiction.
Qed.

Lemma safe_try_except {A} (c h : M A) : safe c -> safe h -> safe (try_except c h).
Proof.
  intros Hc Hh w. specialize (Hc w). unfold try_except.
  destruct (c w) as [[a|e|] w1]; simpl in *; destruct Hc as [H1 H2]; auto.
  destruct (Hh w1) as [H3 H4]. split; [exact H3 | lia].
Qed.

Lemma safe_for_each {A} (l : list A) (f : A -> M unit) :
  (forall x, safe (f x)) -> safe (for_each l f).
Proof.
  intros Hf. induction l as [|x l IH]; simpl.
  - apply safe_ret.
  - apply safe_bind; auto.
Qed.

Lemma reads_input s : reads (input s).
Proof.
  intros w a w' H. apply input_returns in H as (rest & E & ->).
  simpl. rewrite E. simpl. lia.
Qed.

Lemma reads_first {A B} (c : M A) (k : A -> M B) :
  reads c -> (forall a, safe (k a)) -> reads (bind c k).
Proof.
  intros Hc Hk w b w' H. apply bind_returns in H as (a & w1 & H1 & H2).
  apply Hc in H1. destruct (Hk a w1) as [_ H3]. rewrite H2 in H3. simpl in H3.
  lia.
Qed.

Lemma reads_later {A B} (c : M A) (k : A -> M B) :
  safe c -> (forall a, reads (k a)) -> reads (bind c k).
Proof.
  intros Hc Hk w b w' H. apply bind_returns in H as (a & w1 & H1 & H2).
  apply Hk in H2. destruct (Hc w) as [_ H3]. rewrite H1 in H3. simpl in H3.
  lia.
Qed.

Lemma safe_loop {S A} (body : S -> M (S + A)) :
  (forall s, safe (body s)) -> (forall s, reads (body s)) ->
  forall fuel s w,
    (List.length (stdin w) < fuel)%nat ->
    fst (loop fuel body s w) <> OutOfFuel /\
    (List.length (stdin (snd (loop fuel body s w))) <= List.length (stdin w))%nat.
Proof.
  intros Hs Hr. induction fuel as [|fuel IH]; intros s w Hf; [lia|].
  simpl. unfold bind. destruct (Hs s w) as [H1 H2].
  destruct (body s w) as [[[s'|a]|e|] w1] eqn:E; simpl in *.
  - apply Hr in E. destruct (IH s' w1) as [H3 H4]; [lia|].
    split; [exact H3 | lia].
  - split; [discriminate | exact H2].
  - split; [discriminate | exact H2].
  - contradiction.
Qed.

Lemma safe_while_true {S A} (body : S -> M (S + A)) s :
  (forall s, safe (body s)) -> (forall s, reads (body s)) ->
  safe (while_true body s).
Proof.
  intros Hs Hr w. unfold while_true. apply safe_loop; auto.
Qed.

Create HintDb safety discriminated.

#[local] Hint Resolve safe_ret safe_raise safe_print safe_input safe_lift
  safe_read_cart safe_load_store safe_write safe_clear_cart
  safe_generate_tracking_id safe_save_bill : safety.

#[local] Ltac safe_case :=
  match goal with
  | |- safe (match ?x with _ => _ end) => destruct x
  | |- safe (if ?x then _ else _) => destruct x
  end.

#[local] Ltac reads_goal := idtac.

#[local] Ltac safe_step :=
  first [ solve [auto 1 with safety nocore]
        | apply safe_bind; [|intros ?]
        | apply safe_try_except
        | apply safe_for_each; intros ?
        | apply safe_while_true; [intros ? | intros ?; reads_goal]
        | progress cbv beta zeta
        | safe_case ].

#[local] Ltac safe_auto := repeat safe_step.

#[local] Ltac reads_step :=
  first [ solve [auto 1 with safety nocore]
        | apply reads_first; [solve [auto 1 with safety nocore] | intros ?; safe_auto]
        | apply reads_later; [solve [safe_auto] | intros ?]
        | progress cbv beta zeta
        | match goal with
          | |- reads (match ?x with _ => _ end) => destruct x
          | |- reads (if ?x then _ else _) => destruct x
          end ].

#[local] Ltac reads_auto := repeat reads_step.

#[local] Ltac reads_goal ::= solve [reads_auto].

#[local] Hint Resolve reads_input : safety.

Lemma safe_subtotal_of it : safe (subtotal_of it).
Proof. unfold subtotal_of. safe_auto. Qed.
#[local] Hint Resolve safe_subtotal_of : safety.

Lemma safe_item_line it x : safe (item_line it x).
Proof. unfold item_line, format_text. safe_auto. Qed.
#[local] Hint Resolve safe_item_line : safety.

Lemma safe_display_lines items total : safe (display_lines items total).
Proof.
  revert total. induction items as [|it items IH]; intros total; simpl.
  - apply safe_ret.
  - safe_auto; apply IH.
Qed.
#[local] Hint Resolve safe_display_lines : safety.

Lemma safe_sum_subtotals items acc : safe (sum_subtotals items acc).
Proof.
  revert acc. induction items as [|it items IH]; intros acc; simpl.
  - apply safe_ret.
  - safe_auto; apply IH.
Qed.
#[local] Hint Resolve safe_sum_subtotals : safety.

Lemma safe_display_cart b : safe (display_cart b).
Proof. unfold display_cart. safe_auto. Qed.
#[local] Hint Resolve safe_display_cart : safety.

Lemma reads_display_cart_false : reads (display_cart false).
Proof. unfold display_cart. reads_auto. Qed.
#[local] Hint Resolve reads_display_cart_false : safety.

Lemma safe_input_int prompt msg : safe (input_int prompt msg).
Proof. unfold input_int. safe_auto. Qed.
#[local] Hint Resolve safe_input_int : safety.

Lemma safe_delete_item items p : safe (delete_item items p).
Proof. unfold delete_item. safe_auto. Qed.
#[local] Hint Resolve safe_delete_item : safety.

Lemma safe_delete_round items : safe (delete_round items).
Proof. unfold delete_round. safe_auto. Qed.
#[local] Hint Resolve safe_delete_round : safety.

Lemma reads_delete_round items : reads (delete_round items).
Proof. unfold delete_round. reads_auto. Qed.
#[local] Hint Resolve reads_delete_round : safety.

Lemma safe_delete_from_cart : safe delete_from_cart.
Proof. unfold delete_from_cart. safe_auto. Qed.
#[local] Hint Resolve safe_delete_from_cart : safety.

Lemma safe_bill_process : safe bill_process.
Proof. unfold bill_process. safe_auto. Qed.
#[local] Hint Resolve safe_bill_process : safety.

Lemma safe_bill_if_cart msg : safe (bill_if_cart msg).
Proof. unfold bill_if_cart. safe_auto. Qed.
#[local] Hint Resolve safe_bill_if_cart : safety.

Lemma safe_next_step_round u : safe (next_step_round u).
Proof. unfold next_step_round. safe_auto. Qed.
#[local] Hint Resolve safe_next_step_round : safety.

Lemma reads_next_step_round u : reads (next_step_round u).
Proof. unfold next_step_round. reads_auto. Qed.
#[local] Hint Resolve reads_next_step_round : safety.

Lemma safe_append med qty : safe (append_to_cart med qty).
Proof. unfold append_to_cart. safe_auto. Qed.
#[local] Hint Resolve safe_append : safety.

Lemma safe_Medicine_print m : safe (Medicine_print m).
Proof. unfold Medicine_print. safe_auto. Qed.
#[local] Hint Resolve safe_Medicine_print : safety.

Lemma safe_search d : safe (search d).
Proof. unfold search, find_by_disease. safe_auto. Qed.
#[local] Hint Resolve safe_search : safety.

Lemma safe_input_quantity : safe input_quantity.
Proof. unfold input_quantity. safe_auto. Qed.
#[local] Hint Resolve safe_input_quantity : safety.

Lemma safe_place_order_round u : safe (place_order_round u).
Proof. unfold place_order_round. safe_auto. Qed.
#[local] Hint Resolve safe_place_order_round : safety.

Lemma reads_place_order_round u : reads (place_order_round u).
Proof. unfold place_order_round. reads_auto. Qed.
#[local] Hint Resolve reads_place_order_round : safety.

Lemma safe_place_order : safe place_order.
Proof. unfold place_order. safe_auto. Qed.

(** X1.  The loops of the program never use up their fuel: on every input
    [place_order], [delete_from_cart], [bill_process] and [display_cart]
    return or raise one of Python's exceptions, since every round of their
    loops reads a line. *)
Theorem loops_have_fuel (w : World) :
  eval place_order w <> OutOfFuel /\
  eval delete_from_cart w <> OutOfFuel /\
  eval bill_process w <> OutOfFuel /\
  forall b, eval (display_cart b) w <> OutOfFuel.
Proof.
  repeat split.
  - apply safe_place_order.
  - apply safe_delete_from_cart.
  - apply safe_bill_process.
  - intros b. apply safe_display_cart.
Qed.

(** * Further properties of the program *)

(** ** First run *)

Lemma ensure_files w :
  let w' := exec ensure_folders_and_files w in
  store_file w' = Some (or_else sample (store_file w)) /\
  cart_file w' = Some (or_else [CART_HEADER] (cart_file w)) /\
  instr_file w' = Some (or_else instructions_text (instr_file w)).
Proof.
  destruct w as [s c i o si so h n].
  destruct s, c, i; repeat split; reflexivity.
Qed.

(** X2.  [ensure_folders_and_files] creates the files that are missing,
    with their initial content, and touches nothing else: a file that
    exists is kept as it is, nothing is printed or read, the receipts stay,
    and the cart reads as before (a missing cart and the new one are both
    empty).  Afterwards the three files exist, and a second call changes
    nothing. *)
Theorem ensure_creates_only_missing (w : World) :
  let w' := exec ensure_folders_and_files w in
  eval ensure_folders_and_files w = Return tt /\
  store_file w' = Some (or_else sample (store_file w)) /\
  cart_file w' = Some (or_else [CART_HEADER] (cart_file w)) /\
  instr_file w' = Some (or_else instructions_text (instr_file w)) /\
  output_dir w' = output_dir w /\ stdin w' = stdin w /\ stdout w' = stdout w /\
  eval read_cart w' = eval read_cart w /\
  exec ensure_folders_and_files w' = w'.
Proof.
  destruct w as [s c i o si so h n].
  destruct s, c, i; cbv [exec eval ensure_folders_and_files store_file cart_file
    instr_file with_store with_cart with_instr or_else fst snd output_dir
    stdin stdout uuid4_hex uuid4_calls read_cart];
    repeat split; reflexivity.
Qed.

(** ** Reading and writing the cart *)

(** What is written is what is read: the fields of an entry that the file
    keeps. *)
Lemma written_fields_read_back items :
  map written_fields (map read_back items) = map written_fields items.
Proof.
  rewrite map_map. apply map_ext. intros it. reflexivity.
Qed.

(** X4.  Entries whose ids and quantities have at most 4300 digits are
    written in full, under the limit as with the limit lifted, and the cart
    that [write_cart_from_items] writes is then read by [read_cart] entry
    for entry and in order, with the ids, the quantities and the texts that
    were written (a text that was [None] is read as the empty string); no
    entry is skipped, whatever its id.  A write replaces the cart that was
    there: of two writes the later one counts. *)
Theorem written_cart_reads_back (items : list Medicine) (w : World) :
  forallb writable items = true ->
  let w' := exec (write_cart_from_items items) w in
  write_cart_within_limit items w = (Return tt, w') /\
  eval read_cart w' = Return (cart_of w') /\
  map written_fields (cart_of w') = map written_fields items /\
  List.length (cart_of w') = List.length items /\
  forall items0,
    forallb writable items0 = true ->
    exec (write_cart_within_limit items)
      (exec (write_cart_within_limit items0) w) = w'.
Proof.
  intros H. cbv zeta. rewrite cart_of_written. repeat split.
  - now rewrite write_within_limit.
  - unfold eval. rewrite read_cart_eq. cbn [fst]. now rewrite cart_of_written.
  - apply written_fields_read_back.
  - apply length_map.
  - intros items0 H0. unfold exec. now rewrite !write_within_limit.
Qed.

Lemma written_cart_reads_back_witness :
  map written_fields
    (cart_of (exec (write_cart_from_items [paracetamol; dolo]) fresh_world)) =
  map written_fields [paracetamol; dolo].
Proof.
  refine (proj1 (proj2 (proj2
            (written_cart_reads_back [paracetamol; dolo] fresh_world _)))).
  vm_compute. reflexivity.
Defined.

(** ** Adding to the cart *)

Lemma length_add_or_merge items med qty :
  List.length (add_or_merge items med qty) =
  (List.length items +
   match find_item (id med) items with Some _ => 0 | None => 1 end)%nat.
Proof.
  unfold find_item. induction items as [|it rest IH]; cbn [add_or_merge find List.length].
  - reflexivity.
  - destruct (id it =? id med); cbn [List.length]; [lia | rewrite IH; lia].
Qed.

(** X5.  The account of [append_to_cart], on every cart of plain cells
    (also one that was edited by hand and holds a product twice), for an id
    and a new quantity of at most 4300 digits: the call returns, under the
    limit as with the limit lifted; the quantity found for the product of
    [med] rises by [qty] when [qty] is positive, the quantity found for any
    other product stays, and the cart gets one entry more exactly when
    [qty] is positive and the product was not in it. *)
Theorem append_accounting (w : World) (med : Medicine) (qty : Z) (p : Z) :
  plain_file (cart_file w) = true -> printable (id med) = true ->
  printable (quantity_for (id med) (cart_of w) + qty) = true ->
  let w' := exec (append_to_cart med qty) w in
  append_to_cart_within_limit med qty w = (Return tt, w') /\
  quantity_for p (cart_of w') =
    quantity_for p (cart_of w) + (if (p =? id med) && (0 <? qty) then qty else 0) /\
  List.length (cart_of w') =
    (List.length (cart_of w) +
     match find_item (id med) (cart_of w) with
     | Some _ => 0
     | None => if (0 <? qty)%Z then 1 else 0
     end)%nat.
Proof.
  intros Hp Pi Pq. cbv zeta. split; [|split; [apply quantity_for_append|]].
  - rewrite (proj1 (append_within_limit med qty w
                      (plain_cart_is_writable w Hp) Pi Pq)).
    pose proof (eval_append med qty w) as R. unfold eval, exec in *.
    destruct (append_to_cart med qty w) as [o w1]. cbn [fst snd] in *.
    now subst o.
  - destruct (Z.ltb_spec 0 qty) as [Q|Q].
    + rewrite cart_of_append by exact Q. rewrite length_map.
      apply length_add_or_merge.
    + rewrite cart_of_append_nonpositive by exact Q.
      destruct (find_item (id med) (cart_of w)); lia.
Qed.

Lemma append_accounting_witness :
  quantity_for 101 (cart_of (exec (append_to_cart paracetamol 3) two_item_world)) =
  quantity_for 101 (cart_of two_item_world) + 3.
Proof.
  refine (proj1 (proj2
            (append_accounting two_item_world paracetamol 3 101 _ _ _)));
    vm_compute; reflexivity.
Defined.

(** X6.  Two additions made in either order give the same quantities: on a
    cart of plain cells, and for ids and quantities reached of at most 4300
    digits, both orders return, under the limit as with the limit lifted,
    and for every product the quantity found in the cart after
    [append_to_cart a qa] and then [append_to_cart b qb] is the one found
    after the two calls in the other order. *)
Theorem appends_commute_on_quantities (w : World) (a b : Medicine) (qa qb p : Z) :
  plain_file (cart_file w) = true ->
  printable (id a) = true -> printable (id b) = true ->
  printable (quantity_for (id a) (cart_of w) + qa) = true ->
  printable (quantity_for (id b) (cart_of w) + qb) = true ->
  printable (quantity_for (id a) (cart_of w) + qa + qb) = true ->
  (append_to_cart_within_limit a qa;; append_to_cart_within_limit b qb) w =
    (append_to_cart a qa;; append_to_cart b qb) w /\
  (append_to_cart_within_limit b qb;; append_to_cart_within_limit a qa) w =
    (append_to_cart b qb;; append_to_cart a qa) w /\
  quantity_for p
    (cart_of (exec (append_to_cart a qa;; append_to_cart b qb) w)) =
  quantity_for p
    (cart_of (exec (append_to_cart b qb;; append_to_cart a qa) w)).
Proof.
  intros Hp Pa Pb Qa Qb Qab.
  pose proof (plain_cart_is_writable w Hp) as Hw.
  split; [|split].
  - apply two_appends_within_limit; auto.
    rewrite quantity_for_append.
    destruct (Z.eqb_spec (id b) (id a)) as [E|E]; cbn [andb].
    + destruct (0 <? qa); [now rewrite E | now rewrite Z.add_0_r].
    + now rewrite Z.add_0_r.
  - apply two_appends_within_limit; auto.
    rewrite quantity_for_append.
    destruct (Z.eqb_spec (id a) (id b)) as [E|E]; cbn [andb].
    + destruct (0 <? qb); [|now rewrite Z.add_0_r].
      now replace (quantity_for (id a) (cart_of w) + qb + qa)
        with (quantity_for (id a) (cart_of w) + qa + qb) by lia.
    + now rewrite Z.add_0_r.
  - rewrite !exec_two_appends, !quantity_for_append. lia.
Qed.

Lemma appends_commute_on_quantities_witness :
  quantity_for 101
    (cart_of (exec (append_to_cart paracetamol 1;; append_to_cart dolo 2)
                two_item_world)) =
  quantity_for 101
    (cart_of (exec (append_to_cart dolo 2;; append_to_cart paracetamol 1)
                two_item_world)).
Proof.
  refine (proj2 (proj2
            (appends_commute_on_quantities two_item_world paracetamol dolo 1 2 101
               _ _ _ _ _ _)));
    vm_compute; reflexivity.
Defined.

(** ** What the functions leave alone *)

Create HintDb frames discriminated.

#[local] Ltac keeps_case :=
  match goal with
  | |- keeps _ (match ?x with _ => _ end) => destruct x
  | |- keeps _ (if ?x then _ else _) => destruct x
  end.

(** An invariant [I] that printing and reading do not break is kept by the
    functions that only print and read; one that does not look at the
    random source, the receipts or the cart either is kept by all. *)
Section Frames.

Variable I : World -> Prop.

Hypothesis I_out : forall s w, I w -> I (with_stdout (stdout w ++ [s]) w).
Hypothesis I_in : forall l w, I w -> I (with_stdin l w).
Hypothesis I_uuid : forall n w, I w -> I (with_uuid4_calls n w).
Hypothesis I_receipts : forall d w, I w -> I (with_output d w).
Hypothesis I_written : forall f w, I w -> I (with_cart f w).

Lemma keeps_ret {A} (a : A) : keeps I (ret a).
Proof. now apply kw_ret. Qed.

Lemma keeps_raise {A} (e : exn) : keeps I (@raise A e).
Proof. apply kw_raise. Qed.

Lemma keeps_then {A B} (c : M A) (k : A -> M B) :
  keeps I c -> (forall a, keeps I (k a)) -> keeps I (bind c k).
Proof. intros Hc Hk. now apply kw_then. Qed.

Lemma keeps_try {A} (c h : M A) : keeps I c -> keeps I h -> keeps I (try_except c h).
Proof. apply kw_try_except. Qed.

Lemma keeps_while {S A} (body : S -> M (S + A)) s :
  (forall s, keeps I (body s)) -> keeps I (while_true body s).
Proof.
  intros Hb. apply kw_while_true with (Inv := fun _ => True); [|exact Logic.I].
  intros s' _. eapply kw_weaken; [apply Hb|]. now intros [].
Qed.

Lemma fr_print s : keeps I (print s).
Proof. intros w Hw. simpl. split; auto. Qed.

Lemma fr_input s : keeps I (input s).
Proof. intros w Hw. unfold input. destruct (stdin w); simpl; split; auto. Qed.

Lemma fr_generate_tracking_id : keeps I generate_tracking_id.
Proof. intros w Hw. simpl. split; auto. Qed.

Lemma fr_save_bill n a p items total t : keeps I (save_bill n a p items total t).
Proof.
  intros w Hw. unfold save_bill.
  destruct (bill_lines items _) as [written [e|]]; simpl; split; auto.
Qed.

Lemma fr_write items : keeps I (write_cart_from_items items).
Proof. intros w Hw. simpl. split; auto. Qed.

Lemma fr_clear_cart : keeps I clear_cart.
Proof. intros w Hw. simpl. split; auto. Qed.

#[local] Hint Resolve keeps_ret keeps_raise fr_print fr_input
  fr_generate_tracking_id fr_save_bill fr_write : frames.
#[local] Hint Resolve kw_lift kw_read_cart kw_load_store kw_subtotal_of
  kw_sum_subtotals : frames.

#[local] Ltac keeps_step :=
  first [ solve [auto 1 with frames nocore]
        | apply keeps_then; [|intros ?]
        | apply keeps_try
        | apply kw_for_each; intros ?
        | apply keeps_while; intros ?
        | progress cbv beta zeta
        | keeps_case ].

#[local] Ltac keeps_auto := repeat keeps_step.

Lemma fr_item_line it x : keeps I (item_line it x).
Proof. unfold item_line, format_text. keeps_auto. Qed.
#[local] Hint Resolve fr_item_line : frames.

Lemma fr_display_lines items total : keeps I (display_lines items total).
Proof.
  revert total. induction items as [|it items IH]; intros total;
    cbn [display_lines]; keeps_auto.
Qed.
#[local] Hint Resolve fr_display_lines : frames.

Lemma fr_Medicine_print m : keeps I (Medicine_print m).
Proof. unfold Medicine_print. keeps_auto. Qed.
#[local] Hint Resolve fr_Medicine_print : frames.

Lemma fr_display_cart b : keeps I (display_cart b).
Proof. unfold display_cart. keeps_auto. Qed.
#[local] Hint Resolve fr_display_cart : frames.

Lemma fr_input_int prompt msg : keeps I (input_int prompt msg).
Proof. unfold input_int. keeps_auto. Qed.
#[local] Hint Resolve fr_input_int : frames.

Lemma fr_search d : keeps I (search d).
Proof. unfold search, find_by_disease. keeps_auto. Qed.
#[local] Hint Resolve fr_search : frames.

Lemma fr_display_store : keeps I display_store.
Proof. unfold display_store. keeps_auto. Qed.
#[local] Hint Resolve fr_display_store : frames.

Lemma fr_instructions : keeps I instructions.
Proof.
  unfold instructions. apply keeps_then; [|intros ?; keeps_auto].
  intros w Hw. destruct (instr_file w); apply fr_print; exact Hw.
Qed.
#[local] Hint Resolve fr_instructions : frames.

Lemma fr_append med qty : keeps I (append_to_cart med qty).
Proof. unfold append_to_cart. keeps_auto. Qed.

Lemma fr_delete_item items p : keeps I (delete_item items p).
Proof. unfold delete_item. keeps_auto. Qed.
#[local] Hint Resolve fr_delete_item : frames.

Lemma fr_delete_round items : keeps I (delete_round items).
Proof. unfold delete_round. keeps_auto. Qed.
#[local] Hint Resolve fr_delete_round : frames.

Lemma fr_delete_from_cart : keeps I delete_from_cart.
Proof. unfold delete_from_cart. keeps_auto. Qed.

(** for an invariant that looks at the cart: the three functions that
    change it keep it *)
Hypothesis I_clear : keeps I clear_cart.
Hypothesis I_append : forall med qty, keeps I (append_to_cart med qty).
Hypothesis I_delete : keeps I delete_from_cart.

Lemma fr_bill_process : keeps I bill_process.
Proof. unfold bill_process. keeps_auto. Qed.
#[local] Hint Resolve fr_bill_process : frames.

Lemma fr_bill_if_cart msg : keeps I (bill_if_cart msg).
Proof. unfold bill_if_cart. keeps_auto. Qed.
#[local] Hint Resolve fr_bill_if_cart : frames.

Lemma fr_next_step_round u : keeps I (next_step_round u).
Proof. unfold next_step_round. keeps_auto. Qed.
#[local] Hint Resolve fr_next_step_round : frames.

Lemma fr_input_quantity : keeps I input_quantity.
Proof. unfold input_quantity. keeps_auto. Qed.
#[local] Hint Resolve fr_input_quantity : frames.

Lemma fr_place_order_round u : keeps I (place_order_round u).
Proof. unfold place_order_round. keeps_auto. Qed.
#[local] Hint Resolve fr_place_order_round : frames.

Lemma fr_place_order : keeps I place_order.
Proof. unfold place_order. keeps_auto. Qed.
#[local] Hint Resolve fr_place_order : frames.

Lemma fr_menu_round u : keeps I (menu_round u).
Proof. unfold menu_round. keeps_auto. Qed.
#[local] Hint Resolve fr_menu_round : frames.

Lemma fr_menu_loop : keeps I (while_true menu_round tt).
Proof. keeps_auto. Qed.

End Frames.

Lemma frame_bill_process (I : World -> Prop) :
  (forall s w, I w -> I (with_stdout (stdout w ++ [s]) w)) ->
  (forall l w, I w -> I (with_stdin l w)) ->
  (forall n w, I w -> I (with_uuid4_calls n w)) ->
  (forall d w, I w -> I (with_output d w)) ->
  (forall f w, I w -> I (with_cart f w)) ->
  keeps I bill_process.
Proof.
  intros Io Ii Iu Ir Iw. apply fr_bill_process; auto. now apply fr_clear_cart.
Qed.

Lemma frame_place_order (I : World -> Prop) :
  (forall s w, I w -> I (with_stdout (stdout w ++ [s]) w)) ->
  (forall l w, I w -> I (with_stdin l w)) ->
  (forall n w, I w -> I (with_uuid4_calls n w)) ->
  (forall d w, I w -> I (with_output d w)) ->
  (forall f w, I w -> I (with_cart f w)) ->
  keeps I place_order.
Proof.
  intros Io Ii Iu Ir Iw. apply fr_place_order; auto.
  - now apply fr_clear_cart.
  - intros med qty. now apply fr_append.
  - now apply fr_delete_from_cart.
Qed.

Lemma frame_menu_loop (I : World -> Prop) :
  (forall s w, I w -> I (with_stdout (stdout w ++ [s]) w)) ->
  (forall l w, I w -> I (with_stdin l w)) ->
  (forall n w, I w -> I (with_uuid4_calls n w)) ->
  (forall d w, I w -> I (with_output d w)) ->
  (forall f w, I w -> I (with_cart f w)) ->
  keeps I (while_true menu_round tt).
Proof.
  intros Io Ii Iu Ir Iw. apply fr_menu_loop; auto.
  - now apply fr_clear_cart.
  - intros med qty. now apply fr_append.
  - now apply fr_delete_from_cart.
Qed.

Lemma keeps_exec {A} (I : World -> Prop) (c : M A) w :
  keeps I c -> I w -> I (exec c w).
Proof. intros Hc Hw. apply (Hc w Hw). Qed.

(** X7.  Looking changes nothing: [display_cart] (with or without its
    menu), [display_store], [instructions] and the search of [place_order]
    ([find_by_disease] and the approximate search after it) leave the
    store, the cart, the instructions and the receipts exactly as they were,
    however they end. *)
Theorem views_change_no_file (w : World) :
  (forall b, files (exec (display_cart b) w) = files w) /\
  files (exec display_store w) = files w /\
  files (exec instructions w) = files w /\
  (forall term, files (exec (find_by_disease term) w) = files w) /\
  (forall term, files (exec (search term) w) = files w).
Proof.
  pose (I := fun w' => files w' = files w).
  assert (Io : forall s w0, I w0 -> I (with_stdout (stdout w0 ++ [s]) w0))
    by (intros s w0 H; exact H).
  assert (Ii : forall l w0, I w0 -> I (with_stdin l w0)) by (intros l w0 H; exact H).
  repeat split; intros.
  - apply (keeps_exec I); [now apply fr_display_cart | reflexivity].
  - apply (keeps_exec I); [now apply fr_display_store | reflexivity].
  - apply (keeps_exec I); [now apply fr_instructions | reflexivity].
  - unfold exec. now rewrite find_by_disease_eq.
  - apply (keeps_exec I); [now apply fr_search | reflexivity].
Qed.

(** X8.  Editing the cart changes the cart only: [append_to_cart] and
    [delete_from_cart], whatever is typed and however they end, leave the
    store, the instructions and the receipts as they were, and
    [append_to_cart] neither prints nor reads. *)
Theorem cart_edits_change_the_cart_only (w : World) :
  (forall med qty,
     let w' := exec (append_to_cart med qty) w in
     store_file w' = store_file w /\ instr_file w' = instr_file w /\
     output_dir w' = output_dir w /\ stdout w' = stdout w /\ stdin w' = stdin w) /\
  (let w' := exec delete_from_cart w in
   store_file w' = store_file w /\ instr_file w' = instr_file w /\
   output_dir w' = output_dir w).
Proof.
  split.
  - intros med qty.
    pose (I := fun w' => store_file w' = store_file w /\ instr_file w' = instr_file w /\
                         output_dir w' = output_dir w /\ stdout w' = stdout w /\
                         stdin w' = stdin w).
    apply (keeps_exec I); [|now unfold I].
    apply fr_append. intros f w0 H. exact H.
  - pose (I := fun w' => store_file w' = store_file w /\ instr_file w' = instr_file w /\
                         output_dir w' = output_dir w).
    apply (keeps_exec I); [|now unfold I].
    apply fr_delete_from_cart; intros ? w0 H; exact H.
Qed.

(** X9.  The program never rewrites its catalog: [bill_process],
    [place_order] and the loop of [main_menu] leave the store and the
    instructions as they were, whatever is typed and however they end; so
    after [main_menu] they are the files that were there, or the initial
    ones where a file was missing. *)
Theorem catalog_is_never_rewritten (w : World) :
  let kept w' := store_file w' = store_file w /\ instr_file w' = instr_file w in
  kept (exec bill_process w) /\
  kept (exec place_order w) /\
  kept (exec (while_true menu_round tt) w) /\
  store_file (exec main_menu w) = Some (or_else sample (store_file w)) /\
  instr_file (exec main_menu w) = Some (or_else instructions_text (instr_file w)).
Proof.
  assert (K : forall w0,
             store_file (exec (while_true menu_round tt) w0) = store_file w0 /\
             instr_file (exec (while_true menu_round tt) w0) = instr_file w0).
  { intros w0.
    pose (I := fun w' => store_file w' = store_file w0 /\ instr_file w' = instr_file w0).
    apply (keeps_exec I); [|now unfold I].
    apply frame_menu_loop; intros ? w1 H; exact H. }
  cbv zeta.
  pose (I := fun w' => store_file w' = store_file w /\ instr_file w' = instr_file w).
  split; [|split; [|split]].
  - apply (keeps_exec I); [|now unfold I].
    apply frame_bill_process; intros ? w1 H; exact H.
  - apply (keeps_exec I); [|now unfold I].
    apply frame_place_order; intros ? w1 H; exact H.
  - apply K.
  - unfold main_menu. rewrite exec_bind_unit by reflexivity.
    destruct (K (exec ensure_folders_and_files w)) as [Ks Ki].
    rewrite Ks, Ki.
    now destruct (ensure_files w) as (Es & _ & Ei).
Qed.

(** ** What the prompts answer *)

Lemma keeps_True {A} (c : M A) : keeps (fun _ => True) c.
Proof. intros w _. split; trivial. Qed.

Lemma display_cart_result b :
  keeps_with (fun _ => True) (display_cart b)
    (fun r => if b then r = Some "b"%string \/ r = Some "d"%string \/ r = Some "m"%string
              else r = None).
Proof.
  unfold display_cart.
  apply kw_then; [apply keeps_True|]. intros items.
  do 3 (apply kw_then; [apply keeps_True|]; intros _).
  destruct items as [|it items].
  - apply kw_then; [apply keeps_True|]. intros _.
    destruct b; (apply kw_then; [apply keeps_True|]; intros _; apply kw_ret; auto).
  - do 5 (apply kw_then; [apply keeps_True|]; intros ?).
    destruct b; cbn [negb].
    + apply kw_while_true with (Inv := fun _ => True); [|exact I].
      intros [] _.
      apply kw_then; [apply keeps_True|]. intros _.
      apply kw_then; [apply keeps_True|]. intros ch.
      cbv zeta.
      destruct (String.eqb_spec (Py.lower (Py.strip ch)) "b") as [-> | _];
        [apply kw_ret; auto|].
      destruct (String.eqb_spec (Py.lower (Py.strip ch)) "d") as [-> | _];
        [apply kw_ret; auto|].
      destruct (String.eqb_spec (Py.lower (Py.strip ch)) "m") as [-> | _];
        [apply kw_ret; auto|].
      cbn [orb].
      apply kw_then; [apply keeps_True|]. intros _. now apply kw_ret.
    + apply kw_then; [apply keeps_True|]. intros _. now apply kw_ret.
Qed.

(** X10.  What [display_cart] answers when it returns: [None] when it was
    called to show the cart only, and otherwise one of ["b"], ["d"] and
    ["m"], in lower case whatever was typed; on an empty cart the answer is
    ["m"], so that no bill or deletion is offered. *)
Theorem display_cart_answers (b : bool) (w w' : World) (r : option string) :
  display_cart b w = (Return r, w') ->
  (if b then r = Some "b"%string \/ r = Some "d"%string \/ r = Some "m"%string
   else r = None) /\
  (cart_of w = [] -> b = true -> r = Some "m"%string).
Proof.
  intros E. split.
  - destruct (display_cart_result b w Logic.I) as [_ H].
    apply H. now rewrite E.
  - intros C ->. revert E. unfold display_cart.
    unfold bind at 1. rewrite read_cart_eq, C.
    unfold bind, print, input; cbn [stdin with_stdout].
    destruct (stdin w); [discriminate|]. now intros [= <- _].
Qed.

Lemma display_cart_answers_witness :
  Some "d"%string = Some "b"%string \/ Some "d"%string = Some "d"%string \/
  Some "d"%string = Some "m"%string.
Proof.
  refine (proj1 (display_cart_answers true
                   (with_stdin ["x"; " D "]%string two_item_world)
                   (exec (display_cart true)
                      (with_stdin ["x"; " D "]%string two_item_world))
                   (Some "d"%string) _)).
  vm_compute. reflexivity.
Defined.

(** X11.  The quantity that [place_order] asks for (lines 405-414) is
    handed on only when it is [1] or more: the question never yields zero
    or a negative number. *)
Theorem asked_quantity_is_positive (w w' : World) (q : Z) :
  input_quantity w = (Return (Some q), w') -> 0 < q.
Proof.
  unfold input_quantity, try_except, bind, input, lift.
  destruct (stdin w) as [|l rest]; cbn.
  - discriminate.
  - destruct (Py.int_of_string (Py.strip l)) as [z|]; cbn.
    + destruct (Z.leb_spec z 0); cbn; intros [= <- _]. lia.
    + discriminate.
Qed.

Lemma asked_quantity_is_positive_witness : 0 < 3.
Proof.
  refine (asked_quantity_is_positive (with_stdin [" 3 "%string] world0)
            (exec input_quantity (with_stdin [" 3 "%string] world0)) 3 _).
  vm_compute. reflexivity.
Defined.

(** ** What a deletion can change *)

Lemma subseq_refl {A} (l : list A) : subseq l l.
Proof. induction l; [apply subseq_nil | now apply subseq_keep]. Qed.

Lemma subseq_trans {A} (a b c : list A) : subseq a b -> subseq b c -> subseq a c.
Proof.
  intros H1 H2. revert a H1.
  induction H2 as [|x b c H2 IH|x b c H2 IH]; intros a H1.
  - exact H1.
  - apply subseq_skip, IH, H1.
  - inversion H1; subst.
    + apply subseq_skip, IH. assumption.
    + apply subseq_keep, IH. assumption.
Qed.

Lemma remove_found_ids p items :
  subseq (map id (remove_found p items)) (map id items).
Proof.
  induction items as [|it rest IH]; cbn [remove_found map].
  - constructor.
  - destruct (id it =? p); cbn [map].
    + apply subseq_skip, subseq_refl.
    + apply subseq_keep, IH.
Qed.

Lemma decrease_found_ids p a items :
  map id (decrease_found p a items) = map id items.
Proof.
  induction items as [|it rest IH]; cbn [decrease_found map]; [reflexivity|].
  destruct (id it =? p); cbn [map]; [reflexivity | now rewrite IH].
Qed.

Lemma remove_quantity_ids items found q :
  subseq (map id (remove_quantity items found q)) (map id items).
Proof.
  unfold remove_quantity. destruct (quantity found <=? q).
  - apply remove_found_ids.
  - rewrite decrease_found_ids. apply subseq_refl.
Qed.

Lemma entries_for_remove_found p p' items :
  p' <> p -> entries_for p (remove_found p' items) = entries_for p items.
Proof.
  intros N. unfold entries_for.
  induction items as [|it rest IH]; cbn [remove_found filter]; [reflexivity|].
  destruct (Z.eqb_spec (id it) p') as [E|E].
  - destruct (Z.eqb_spec (id it) p); [congruence|reflexivity].
  - cbn [filter]. now rewrite IH.
Qed.

Lemma entries_for_decrease_found p p' a items :
  p' <> p -> entries_for p (decrease_found p' a items) = entries_for p items.
Proof.
  intros N. unfold entries_for.
  induction items as [|it rest IH]; cbn [decrease_found filter]; [reflexivity|].
  destruct (Z.eqb_spec (id it) p') as [E|E].
  - cbn [filter id set_quantity].
    destruct (Z.eqb_spec (id it) p); [congruence|reflexivity].
  - cbn [filter]. now rewrite IH.
Qed.

Lemma entries_for_read_back p items :
  entries_for p (map read_back items) = map read_back (entries_for p items).
Proof.
  unfold entries_for. induction items as [|it rest IH]; cbn [map filter]; [reflexivity|].
  cbn [id read_back]. destruct (id it =? p); cbn [map]; now rewrite IH.
Qed.

(** An invariant [I] of the cart file is kept by [delete_from_cart] when
    the lists [G] that the loop may write keep it, and [G] is kept by the
    deletion of an entry of an id other than [0]. *)
Section Deleting.

Variable I : World -> Prop.
Variable G : list Medicine -> Prop.

Hypothesis I_cart : forall w w', cart_file w' = cart_file w -> I w -> I w'.
Hypothesis I_write :
  forall items w, G items -> I (exec (write_cart_from_items items) w).
Hypothesis G_remove :
  forall items found q,
    G items -> find_item (id found) items = Some found -> id found <> 0 ->
    G (remove_quantity items found q).
Hypothesis G_read : forall w, I w -> G (cart_of w).

#[local] Ltac step_del :=
  first [ apply kw_then; [first [ apply kw_print | apply kw_input
                                | apply kw_read_cart ];
                          exact I_cart |]
        | apply kw_ret; auto ].

Lemma del_item items id_to_del :
  id_to_del <> 0 -> G items ->
  keeps_with I (delete_item items id_to_del)
    (fun r => match r with inl items' => G items' | inr _ => True end).
Proof.
  intros N Hn. unfold delete_item.
  destruct (find_item id_to_del items) as [found|] eqn:F.
  - pose proof (find_item_id _ _ _ F) as Hid. subst id_to_del.
    step_del. intros _.
    apply kw_then; [apply kw_input_int; exact I_cart|]. intros [qty_del|].
    + pose proof (G_remove _ _ qty_del Hn F N) as Hn'.
      apply kw_then.
      { destruct (_ <=? _); apply kw_print; exact I_cart. }
      intros _. apply kw_then.
      { intros w _. split; [now apply I_write | trivial]. }
      intros _.
      destruct (remove_quantity items found qty_del) eqn:R.
      * step_del. intros _. step_del.
      * step_del. intros more. destruct (String.eqb _ _); step_del.
    + step_del.
  - step_del. intros _. step_del.
Qed.

Lemma del_round items :
  G items ->
  keeps_with I (delete_round items)
    (fun r => match r with inl items' => G items' | inr _ => True end).
Proof.
  intros Hn. unfold delete_round.
  apply kw_then; [apply kw_display_cart; exact I_cart|]. intros _.
  apply kw_then; [apply kw_input_int; exact I_cart|]. intros [id_to_del|].
  - destruct (Z.eqb_spec id_to_del 0); [step_del|]. now apply del_item.
  - step_del.
Qed.

Lemma del_from_cart : keeps I delete_from_cart.
Proof.
  intros w Hw. unfold delete_from_cart, bind. rewrite read_cart_eq.
  pose proof (G_read w Hw) as Hg.
  destruct (cart_of w) as [|it items] eqn:C.
  - apply (kw_print I I_cart _ w Hw).
  - apply (kw_while_true I G delete_round (fun _ => True)
             del_round (it :: items)); auto.
Qed.

End Deleting.

(** X12.  [delete_from_cart] only takes away: whatever is typed and however
    it ends, the products of the cart afterwards are products of the cart
    before, in the same order; none is added and none changes place. *)
Theorem deletion_only_removes (w : World) :
  subseq (map id (cart_of (exec delete_from_cart w))) (map id (cart_of w)).
Proof.
  pose (I := fun w' => subseq (map id (cart_of w')) (map id (cart_of w))).
  pose (G := fun items => subseq (map id items) (map id (cart_of w))).
  apply (keeps_exec I); [|apply subseq_refl].
  apply (del_from_cart I G).
  - unfold I, cart_of. now intros w1 w2 ->.
  - intros items w1 H. unfold I. rewrite cart_of_written, id_read_back. exact H.
  - intros items found q H _ _. unfold G.
    eapply subseq_trans; [apply remove_quantity_ids | exact H].
  - intros w1 H. exact H.
Qed.

(** X13.  An entry of id [0] cannot be deleted, [0] being the answer that
    cancels: whatever is typed, [delete_from_cart] leaves the entries of id
    [0] (those of the rows whose id is no integer) as they were, in number,
    texts and quantities. *)
Theorem id_zero_is_never_deleted (w : World) :
  map written_fields (entries_for 0 (cart_of (exec delete_from_cart w))) =
  map written_fields (entries_for 0 (cart_of w)).
Proof.
  pose (z := map written_fields (entries_for 0 (cart_of w))).
  pose (I := fun w' => map written_fields (entries_for 0 (cart_of w')) = z).
  pose (G := fun items => map written_fields (entries_for 0 items) = z).
  apply (keeps_exec I); [|reflexivity].
  apply (del_from_cart I G).
  - unfold I, cart_of. now intros w1 w2 ->.
  - intros items w1 H. unfold I.
    rewrite cart_of_written, entries_for_read_back, written_fields_read_back.
    exact H.
  - intros items found q H _ N. unfold G, remove_quantity.
    destruct (quantity found <=? q).
    + rewrite entries_for_remove_found by exact N. exact H.
    + rewrite entries_for_decrease_found by exact N. exact H.
  - intros w1 H. exact H.
Qed.

(** ** Checkout, however it ends *)

Lemma triple_bind {A B} P (c : M A) (k : A -> M B) R R' J :
  triple P c R J -> (forall a, triple (R a) (k a) R' J) ->
  triple P (bind c k) R' J.
Proof.
  intros Hc Hk w Hw. specialize (Hc w Hw). unfold bind.
  destruct (c w) as [[a|e|] w1]; auto. apply (Hk a w1 Hc).
Qed.

Lemma triple_keeps {A} (I : World -> Prop) (c : M A) (J : World -> Prop) :
  keeps I c -> (forall w, I w -> J w) -> triple I c (fun _ w => I w) J.
Proof.
  intros Hc HJ w Hw. destruct (Hc w Hw) as [H _].
  destruct (c w) as [[a|e|] w1]; cbn in *; auto.
Qed.

Lemma triple_pure {A} (F : Prop) P (c : M A) R J :
  (F -> triple P c R J) -> triple (fun w => F /\ P w) c R J.
Proof. intros H w [HF HP]. now apply H. Qed.

Lemma triple_exec {A} P (c : M A) R J w :
  triple P c R J -> P w -> (forall a w', R a w' -> J w') -> J (exec c w).
Proof.
  intros Hc Hw HR. specialize (Hc w Hw). unfold exec.
  destruct (c w) as [[a|e|] w1]; cbn; eauto.
Qed.

Lemma bill_process_ends w0 : checkout_end w0 (exec bill_process w0).
Proof.
  pose (P0 := fun w' => cart_file w' = cart_file w0 /\ output_dir w' = output_dir w0 /\
                        uuid4_hex w' = uuid4_hex w0 /\ uuid4_calls w' = uuid4_calls w0).
  pose (P1 := fun w' => cart_file w' = cart_file w0 /\ output_dir w' = output_dir w0).
  assert (P0J : forall w, P0 w -> checkout_end w0 w).
  { intros w (Hc & Ho & _). left. auto. }
  assert (P1J : forall w, P1 w -> checkout_end w0 w).
  { intros w (Hc & Ho). left. auto. }
  assert (P0o : forall s w, P0 w -> P0 (with_stdout (stdout w ++ [s]) w))
    by (intros s w H; exact H).
  assert (P0i : forall l w, P0 w -> P0 (with_stdin l w)) by (intros l w H; exact H).
  assert (P1o : forall s w, P1 w -> P1 (with_stdout (stdout w ++ [s]) w))
    by (intros s w H; exact H).
  apply (triple_exec P0 bill_process (fun _ w' => checkout_end w0 w') (checkout_end w0));
    [| repeat split | auto].
  unfold bill_process.
  apply triple_bind with (R := fun items w' => items = cart_of w0 /\ P0 w').
  { intros w H. rewrite read_cart_eq. split; [|exact H].
    unfold cart_of. now destruct H as [-> _]. }
  intros items. apply triple_pure. intros ->.
  destruct (cart_of w0) as [|it items] eqn:C.
  { intros w H. cbn. now apply P0J. }
  remember (it :: items) as its eqn:Eits.
  do 3 (eapply triple_bind; [apply triple_keeps; [now apply fr_print | exact P0J]|];
        intros ?; cbv beta).
  do 3 (eapply triple_bind; [apply triple_keeps; [now apply fr_input | exact P0J]|];
        intros ?; cbv beta).
  cbv zeta.
  apply triple_bind
    with (R := fun total w' => grand_total its = Some total /\ P0 w').
  { intros w H. rewrite sum_subtotals_runs. unfold grand_total.
    destruct (subtotals its); cbn; auto. }
  intros total. apply triple_pure. intros T.
  apply triple_bind
    with (R := fun tid w' => tid = next_tracking_id w0 /\ P1 w').
  { intros w (Hc & Ho & Hh & Hn). cbn. unfold next_tracking_id.
    rewrite Hh, Hn. repeat split; assumption. }
  intros tid. apply triple_pure. intros ->.
  set (tid := next_tracking_id w0).
  pose (P2 := fun w' =>
    (cart_file w' = cart_file w0 \/ cart_file w' = Some [CART_HEADER]) /\
    exists content,
      complete_receipt its tid content /\
      output_dir w' = write_file (bill_filename tid) content (output_dir w0)).
  assert (P2J : forall w, P2 w -> checkout_end w0 w).
  { intros w ([Hc|Hc] & content & Hr & Ho).
    - left. split; [exact Hc|]. right. now exists content.
    - right. split; [exact Hc|]. exists content. now rewrite C. }
  assert (P2o : forall s w, P2 w -> P2 (with_stdout (stdout w ++ [s]) w))
    by (intros s w H; exact H).
  assert (P2i : forall l w, P2 w -> P2 (with_stdin l w)) by (intros l w H; exact H).
  apply triple_bind with (R := fun _ w' => P2 w').
  { intros w (Hc & Ho). unfold save_bill.
    destruct (bill_lines its _) as [written [e|]] eqn:B;
      cbn [output_dir cart_file with_output].
    - left. split; [exact Hc|]. right. rewrite Ho. now eexists.
    - split; [now left|]. eexists. split; [|rewrite Ho; reflexivity].
      do 5 eexists. repeat split; eassumption. }
  intros path.
  do 3 (eapply triple_bind; [apply triple_keeps; [now apply fr_print | exact P2J]|];
        intros ?; cbv beta).
  eapply triple_bind.
  { apply triple_keeps; [|exact P2J]. apply kw_for_each. intros x.
    apply keeps_then; [apply kw_subtotal_of|]. intros ?. now apply fr_print. }
  intros ?. cbv beta.
  do 6 (eapply triple_bind; [apply triple_keeps; [now apply fr_print | exact P2J]|];
        intros ?; cbv beta).
  apply triple_bind with (R := fun _ w' => P2 w').
  { intros w (_ & H). cbn. split; [now right | exact H]. }
  intros ?. cbv beta.
  eapply triple_bind; [apply triple_keeps; [now apply fr_input | exact P2J]|].
  intros ?. intros w H. cbn. now apply P2J.
Qed.

(** X14.  [bill_process] never loses a cart: whatever is typed and however
    it ends (with an error too), either the cart file is as it was, or it
    has been cleared and the receipts hold a whole receipt for the cart that
    was there, with its grand total, under the name of the tracking
    identifier that was drawn. *)
Theorem checkout_never_loses_the_cart (w : World) :
  let w' := exec bill_process w in
  cart_file w' = cart_file w \/
  (cart_file w' = Some [CART_HEADER] /\
   exists content,
     complete_receipt (cart_of w) (next_tracking_id w) content /\
     In (bill_filename (next_tracking_id w), content) (output_dir w')).
Proof.
  cbv zeta. destruct (bill_process_ends w) as [[Hc _] | (Hc & content & Hr & Ho)].
  - now left.
  - right. split; [exact Hc|]. exists content. split; [exact Hr|].
    rewrite Ho. apply in_write_file.
Qed.

(** X15.  [bill_process] writes at most one file, the receipt named after
    the tracking identifier it draws: whatever is typed and however it ends,
    the receipts are as they were or have that one file written, so that
    every earlier receipt of another name is still there afterwards. *)
Theorem checkout_writes_one_receipt (w : World) :
  let w' := exec bill_process w in
  (output_dir w' = output_dir w \/
   exists content,
     output_dir w' =
     write_file (bill_filename (next_tracking_id w)) content (output_dir w)) /\
  forall fname content,
    In (fname, content) (output_dir w) ->
    fname <> bill_filename (next_tracking_id w) ->
    In (fname, content) (output_dir w').
Proof.
  cbv zeta.
  assert (O : output_dir (exec bill_process w) = output_dir w \/
              exists content,
                output_dir (exec bill_process w) =
                write_file (bill_filename (next_tracking_id w)) content
                           (output_dir w)).
  { destruct (bill_process_ends w) as [[_ [Ho | [c Ho]]] | (_ & c & _ & Ho)];
      [now left | right; now exists c | right; now exists c]. }
  split; [exact O|].
  intros fname content Hin Hn.
  destruct O as [-> | [c ->]]; [exact Hin|].
  unfold write_file. apply in_or_app. left.
  apply filter_In. split; [exact Hin|]. cbn [fst].
  destruct (String.eqb_spec fname (bill_filename (next_tracking_id w)));
    [contradiction | reflexivity].
Qed.

Lemma checkout_writes_one_receipt_witness :
  In ("bill_OLD.txt", "paid")%string
     (output_dir
        (exec bill_process
              (with_output [("bill_OLD.txt", "paid")%string] billing_world))).
Proof.
  apply (proj2 (checkout_writes_one_receipt
                  (with_output [("bill_OLD.txt", "paid")%string] billing_world))).
  - cbn. left. reflexivity.
  - vm_compute. discriminate.
Defined.

(** ** Runs *)

Lemma bind_ret_eq {A B} (c : M A) (k : A -> M B) w a w1 :
  c w = (Return a, w1) -> bind c k w = k a w1.
Proof. intros E. unfold bind. now rewrite E. Qed.

Lemma bind_raise_eq {A B} (c : M A) (k : A -> M B) w e w1 :
  c w = (Raise e, w1) -> bind c k w = (Raise e, w1).
Proof. intros E. unfold bind. now rewrite E. Qed.

Lemma input_eq s w l rest :
  stdin w = l :: rest ->
  input s w = (Return l, with_stdin rest (with_stdout (stdout w ++ [s]) w)).
Proof. intros E. unfold input. now rewrite E. Qed.

#[local] Ltac fields :=
  cbn [stdin stdout output_dir cart_file store_file instr_file uuid4_hex
       uuid4_calls with_stdin with_stdout with_output with_cart
       with_uuid4_calls with_store with_instr].

(** one statement that returns, run *)
#[local] Ltac run_print := erewrite bind_ret_eq by reflexivity; cbv beta.
#[local] Ltac run_input H :=
  erewrite bind_ret_eq by (apply input_eq; fields; first [exact H | reflexivity]);
  cbv beta.

Lemma display_lines_nameless it rest total w :
  name it = None -> subtotal it <> None ->
  display_lines (it :: rest) total w = (Raise TypeError, w).
Proof.
  intros N S. cbn [display_lines]. unfold subtotal_of. unfold subtotal in S.
  destruct (Py.fmul_int (cost it) (quantity it)) as [x|]; [|contradiction].
  cbn [lift]. erewrite bind_ret_eq by reflexivity.
  apply bind_raise_eq. unfold item_line, format_text. rewrite N. reflexivity.
Qed.

Lemma display_cart_nameless b w it rest :
  cart_of w = it :: rest -> name it = None -> subtotal it <> None ->
  exists w1, display_cart b w = (Raise TypeError, w1).
Proof.
  intros C N S. unfold display_cart.
  rewrite (bind_ret_eq _ _ _ _ _ (read_cart_eq w)), C.
  do 3 run_print. do 2 run_print.
  eexists. apply bind_raise_eq. now apply display_lines_nameless.
Qed.

(** X16.  A cart entry without a name (the entry of a row of the cart file
    that has no second cell) stops every cart screen with a [TypeError] when
    its line is to be formatted: [display_cart], [delete_from_cart], which
    shows the cart first, and [bill_process] after its three questions,
    which leaves the cart as it was and, among the receipts, a file that
    ends after the head of the table. *)
Theorem nameless_entry_stops_the_cart_screens (w : World) (it : Medicine)
  (rest : list Medicine) :
  cart_of w = it :: rest -> name it = None -> subtotals (it :: rest) <> None ->
  (forall b, eval (display_cart b) w = Raise TypeError) /\
  eval delete_from_cart w = Raise TypeError /\
  (forall n a p more,
     stdin w = n :: a :: p :: more ->
     let w' := exec bill_process w in
     eval bill_process w = Raise TypeError /\
     cart_file w' = cart_file w /\
     output_dir w' =
       write_file (bill_filename (next_tracking_id w))
                  (bill_head (Py.strip n) (Py.strip a) (Py.strip p))
                  (output_dir w)).
Proof.
  intros C N S.
  assert (S1 : subtotal it <> None).
  { now apply subtotals_cons in S. }
  split; [|split].
  - intros b. destruct (display_cart_nameless b w it rest C N S1) as [w1 E].
    unfold eval. now rewrite E.
  - destruct (display_cart_nameless false w it rest C N S1) as [w1 E].
    unfold eval, delete_from_cart.
    rewrite (bind_ret_eq _ _ _ _ _ (read_cart_eq w)), C.
    unfold while_true. cbn [loop].
    erewrite bind_raise_eq; [reflexivity|].
    unfold delete_round. apply bind_raise_eq. exact E.
  - intros n a p more I. cbv zeta. unfold eval, exec, bill_process.
    rewrite (bind_ret_eq _ _ _ _ _ (read_cart_eq w)), C.
    do 3 run_print. do 3 (run_input I). cbv zeta.
    destruct (subtotals (it :: rest)) as [l|] eqn:SL; [|contradiction].
    erewrite bind_ret_eq by (rewrite sum_subtotals_runs, SL; reflexivity).
    erewrite bind_ret_eq by reflexivity.
    erewrite bind_raise_eq.
    2:{ unfold save_bill. cbn [bill_lines]. unfold subtotal in S1.
        destruct (Py.fmul_int (cost it) (quantity it)); [|contradiction].
        rewrite N. reflexivity. }
    repeat split.
Qed.

Lemma nameless_entry_stops_the_cart_screens_witness :
  eval (display_cart false)
       (with_cart (Some [CART_HEADER; ["7"%string]]) fresh_world)
  = Raise TypeError.
Proof.
  refine (proj1 (nameless_entry_stops_the_cart_screens
                   (with_cart (Some [CART_HEADER; ["7"%string]]) fresh_world)
                   (cart_item (CART_HEADER, ["7"%string])) [] _ _ _) false).
  - reflexivity.
  - reflexivity.
  - vm_compute. discriminate.
Defined.

Lemma place_order_round_back u w l rest :
  stdin w = l :: rest -> Py.lower (Py.strip l) = "back"%string ->
  exists w1,
    place_order_round u w = (Return (inr tt), w1) /\
    files w1 = files w /\ stdin w1 = rest /\ uuid4_calls w1 = uuid4_calls w.
Proof.
  intros I B. unfold place_order_round.
  do 2 run_print. run_input I. cbv zeta. rewrite B. cbn [String.eqb Ascii.eqb Bool.eqb].
  eexists. split; [reflexivity|]. repeat split.
Qed.

(** X17.  Answering [back] to the first question of [place_order], in any
    mix of upper and lower case and with spaces around it, returns at once:
    nothing is searched, no file is changed and only that line is read. *)
Theorem place_order_back (w : World) (l : string) (rest : list string) :
  stdin w = l :: rest -> Py.lower (Py.strip l) = "back"%string ->
  let w' := exec place_order w in
  eval place_order w = Return tt /\ files w' = files w /\ stdin w' = rest.
Proof.
  intros I B. cbv zeta.
  destruct (place_order_round_back tt w l rest I B) as (w1 & E & F & R & _).
  unfold eval, exec, place_order, while_true. cbn [loop].
  rewrite (bind_ret_eq _ _ _ _ _ E). cbn [ret fst snd]. auto.
Qed.

Lemma place_order_back_witness :
  eval place_order (with_stdin [" Back "; "fever"]%string fresh_world) = Return tt /\
  stdin (exec place_order (with_stdin [" Back "; "fever"]%string fresh_world))
  = ["fever"%string].
Proof.
  refine ((fun H => conj (proj1 H) (proj2 (proj2 H)))
            (place_order_back (with_stdin [" Back "; "fever"]%string fresh_world)
               " Back "%string ["fever"%string] _ _)).
  - reflexivity.
  - reflexivity.
Defined.

(** ** What the screens show *)

Lemma display_lines_grand_total items w t w' :
  display_lines items Py.fzero w = (Return t, w') -> grand_total items = Some t.
Proof.
  intros E. destruct (display_lines_total _ _ _ _ _ E) as (l & S & ->).
  unfold grand_total. now rewrite S.
Qed.

(** X18.  The total that [display_cart] shows for a cart that has entries
    is the grand total that [bill_process] charges for it: when
    [display_cart] returns, a line [Total = ₹] with the sum of the
    subtotals, in two decimals, has been printed. *)
Theorem cart_screen_shows_the_grand_total (b : bool) (w w' : World)
  (r : option string) :
  display_cart b w = (Return r, w') -> cart_of w <> [] ->
  exists total,
    grand_total (cart_of w) = Some total /\
    In ("Total = ₹" ++ Py.format_2f total)%string (stdout w').
Proof.
  intros E C. unfold display_cart in E.
  rewrite (bind_ret_eq _ _ _ _ _ (read_cart_eq w)) in E.
  destruct (cart_of w) as [|it items]; [contradiction|]. clear C.
  do 5 (apply bind_returns in E; destruct E as (? & ? & _ & E)).
  apply bind_returns in E. destruct E as (total & w1 & T & E).
  apply display_lines_grand_total in T.
  exists total. split; [exact T|].
  apply bind_returns in E. destruct E as (? & ? & _ & E).
  apply bind_returns in E. destruct E as ([] & w2 & P & E).
  apply print_returns in P.
  pose (I := fun w0 => In ("Total = ₹" ++ Py.format_2f total)%string (stdout w0)).
  assert (Io : forall s w0, I w0 -> I (with_stdout (stdout w0 ++ [s]) w0)).
  { intros s w0 H. unfold I. cbn [stdout with_stdout]. apply in_or_app. now left. }
  assert (Ii : forall l w0, I w0 -> I (with_stdin l w0)) by (intros l w0 H; exact H).
  assert (I2 : I w2).
  { subst w2. unfold I. cbn [stdout with_stdout]. apply in_or_app. right. now left. }
  assert (K : forall A (c : M A), keeps I c -> forall a, c w2 = (Return a, w') -> I w').
  { intros A c Hc a Ec. destruct (Hc w2 I2) as [H _]. now rewrite Ec in H. }
  destruct b; cbn [negb] in E.
  - refine (K _ _ _ _ E). apply keeps_while. intros [].
    apply keeps_then; [now apply fr_print|]. intros _.
    apply keeps_then; [now apply fr_input|]. intros ch. cbv zeta.
    destruct (_ || _ || _)%bool; [apply keeps_ret|].
    apply keeps_then; [now apply fr_print|]. intros _. apply keeps_ret.
  - refine (K _ _ _ _ E).
    apply keeps_then; [now apply fr_input|]. intros _. apply keeps_ret.
Qed.

Lemma cart_screen_shows_the_grand_total_witness :
  exists total,
    grand_total (cart_of (with_stdin [""%string] two_item_world)) = Some total /\
    In ("Total = ₹" ++ Py.format_2f total)%string
       (stdout (exec (display_cart false) (with_stdin [""%string] two_item_world))).
Proof.
  refine (cart_screen_shows_the_grand_total false
            (with_stdin [""%string] two_item_world)
            (exec (display_cart false) (with_stdin [""%string] two_item_world))
            None _ _).
  - vm_compute. reflexivity.
  - vm_compute. discriminate.
Defined.

Lemma with_stdout_app l1 l2 w :
  with_stdout (stdout (with_stdout (stdout w ++ l1) w) ++ l2)
              (with_stdout (stdout w ++ l1) w) =
  with_stdout (stdout w ++ l1 ++ l2) w.
Proof. unfold with_stdout. cbn. now rewrite <- app_assoc. Qed.

Lemma Medicine_print_eq m w :
  Medicine_print m w = (Return tt, with_stdout (stdout w ++ medicine_lines m) w).
Proof.
  unfold Medicine_print, medicine_lines, bind, print.
  rewrite !with_stdout_app. reflexivity.
Qed.

Lemma for_each_Medicine_print meds w :
  for_each meds Medicine_print w =
  (Return tt, with_stdout (stdout w ++ flat_map medicine_lines meds) w).
Proof.
  revert w. induction meds as [|m meds IH]; intros w; cbn [for_each flat_map].
  - now rewrite with_stdout_same.
  - rewrite (bind_ret_eq _ _ _ _ _ (Medicine_print_eq m w)).
    rewrite IH. now rewrite with_stdout_app.
Qed.

(** X19.  [display_store] shows the whole store: after the three lines of
    its title it prints, for every medicine that [load_store] reads and in
    the order of the file, the six lines of [Medicine.print] (or one line
    that says there is none), then asks for one line of input and returns;
    the loading animation apart, it prints nothing else. *)
Theorem display_store_lists_the_store (w : World) (l : string) (rest : list string) :
  stdin w = l :: rest ->
  display_store w =
  (Return tt,
   with_stdin rest
     (with_stdout
        (stdout w ++
         [rule "=" 60; (TAB ++ TAB ++ "CHEMIST 4 U - MEDICINE LIST")%string;
          rule "=" 60] ++
         match store_of w with
         | [] => ["No medicines in store."%string]
         | meds => flat_map medicine_lines meds
         end ++
         ["Press Enter to return to menu..."%string]) w)).
Proof.
  intros I. unfold display_store.
  rewrite (bind_ret_eq _ _ _ _ _ (load_store_eq w)).
  do 3 run_print.
  destruct (store_of w) as [|m meds].
  - run_print. run_input I. cbn [ret]. do 2 f_equal.
    rewrite !with_stdout_app. reflexivity.
  - erewrite bind_ret_eq by apply for_each_Medicine_print. cbv beta.
    run_input I. cbn [ret]. do 2 f_equal.
    rewrite !with_stdout_app. reflexivity.
Qed.

Lemma display_store_lists_the_store_witness :
  eval display_store (with_stdin [""%string] fresh_world) = Return tt.
Proof.
  refine (f_equal fst
            (display_store_lists_the_store (with_stdin [""%string] fresh_world)
               ""%string [] _)).
  reflexivity.
Defined.

(** ** The search *)

Lemma append_empty (s : string) : (s ++ "")%string = s.
Proof. induction s as [|c s IH]; cbn; [reflexivity | now rewrite IH]. Qed.

Lemma contains_self s : Py.contains s s = true.
Proof.
  apply contains_occurs. exists ""%string, ""%string.
  cbn. now rewrite append_empty.
Qed.

Lemma contains_empty hay : Py.contains "" hay = true.
Proof. apply contains_occurs. now exists ""%string, hay. Qed.

(** X20.  The approximate search is wider than the exact one: every
    medicine that [find_by_disease] returns for a term is among the
    approximate matches of line 378 for that term. *)
Theorem exact_matches_are_approximate (w w' : World) (term : string)
  (results : list Medicine) :
  find_by_disease term w = (Return results, w') ->
  incl results (approximate_matches term (store_of w)).
Proof.
  rewrite find_by_disease_eq. intros [= <- _] m Hm.
  apply filter_In in Hm. destruct Hm as [Hin He].
  apply filter_In. split; [exact Hin|].
  apply String.eqb_eq in He. rewrite <- He. apply contains_self.
Qed.

Lemma exact_matches_are_approximate_witness :
  incl [paracetamol; dolo] (approximate_matches "FEVER " (store_of fresh_world)).
Proof.
  refine (exact_matches_are_approximate fresh_world fresh_world "FEVER "%string
            [paracetamol; dolo] _).
  vm_compute. reflexivity.
Defined.

(** X21.  An empty search lists the store: when the term typed in
    [place_order] is empty or blank and no medicine of the store has an
    empty or blank disease, the exact search finds nothing and the
    approximate one gives every medicine of the store, in the order of the
    file. *)
Theorem empty_search_lists_the_store (w : World) (term : string) :
  Py.strip term = ""%string ->
  Forall (fun m => disease_key m <> ""%string) (store_of w) ->
  eval (find_by_disease term) w = Return [] /\
  eval (search term) w = Return (Approximate (store_of w)).
Proof.
  intros T D.
  assert (F : filter (fun m => String.eqb (disease_key m) (Py.lower (Py.strip term)))
                     (store_of w) = []).
  { rewrite T. cbn [Py.lower]. induction D as [|m meds Hm _ IH]; [reflexivity|].
    cbn [filter]. destruct (String.eqb_spec (disease_key m) ""); [contradiction|].
    exact IH. }
  assert (A : approximate_matches term (store_of w) = store_of w).
  { unfold approximate_matches. rewrite T. cbn [Py.lower].
    clear. induction (store_of w) as [|m meds IH]; [reflexivity|].
    cbn [filter]. rewrite contains_empty. now rewrite IH. }
  split.
  - unfold eval. rewrite find_by_disease_eq. cbn [fst]. now rewrite F.
  - unfold eval, search. rewrite (bind_ret_eq _ _ _ _ _ (find_by_disease_eq term w)).
    rewrite F. run_print. rewrite (bind_ret_eq _ _ _ _ _ (load_store_eq _)).
    cbn [ret fst]. unfold store_of at 1. fields. fold (store_of w). now rewrite A.
Qed.

Lemma nonempty_keys meds :
  forallb (fun m => negb (String.eqb (disease_key m) "")) meds = true ->
  Forall (fun m => disease_key m <> ""%string) meds.
Proof.
  induction meds as [|m meds IH]; cbn [forallb]; intros H; constructor.
  - apply andb_prop in H. destruct H as [H _].
    destruct (String.eqb_spec (disease_key m) ""); [discriminate | assumption].
  - apply IH. apply andb_prop in H. tauto.
Qed.

Lemma empty_search_lists_the_store_witness :
  eval (search "  ") fresh_world = Return (Approximate (store_of fresh_world)).
Proof.
  refine (proj2 (empty_search_lists_the_store fresh_world "  "%string _ _)).
  - reflexivity.
  - apply nonempty_keys. vm_compute. reflexivity.
Defined.

(** ** Tracking identifiers *)

Lemma length_take n s : String.length (Py.take n s) = Nat.min n (String.length s).
Proof.
  revert s. induction n as [|n IH]; intros [|c s]; cbn; try reflexivity.
  now rewrite IH.
Qed.

Lemma length_upper s : String.length (Py.upper s) = String.length s.
Proof. induction s as [|c s IH]; cbn; [reflexivity | now rewrite IH]. Qed.

Lemma all_chars_take P n s : all_chars P s = true -> all_chars P (Py.take n s) = true.
Proof.
  revert s. induction n as [|n IH]; intros [|c s]; cbn; try reflexivity.
  intros H. apply andb_prop in H. destruct H as [Hc Hs].
  now rewrite Hc, IH.
Qed.

Lemma upper_hex_digit_upper c :
  lower_hex_digit c = true -> upper_hex_digit (Py.upper_char c) = true.
Proof.
  destruct c as [[] [] [] [] [] [] [] []]; vm_compute; intros H;
    first [reflexivity | discriminate H].
Qed.

Lemma all_chars_upper s :
  all_chars lower_hex_digit s = true -> all_chars upper_hex_digit (Py.upper s) = true.
Proof.
  induction s as [|c s IH]; cbn [all_chars Py.upper]; [reflexivity|].
  intros H. apply andb_prop in H. destruct H as [Hc Hs].
  now rewrite (upper_hex_digit_upper c Hc), IH.
Qed.

(** X22.  A tracking identifier is ten digits of the upper-case hexadecimal
    alphabet: so [generate_tracking_id] answers when [uuid.uuid4().hex] is a
    string of ten or more hexadecimal digits in lower case, as it always is;
    and each call draws a new [uuid4]. *)
Theorem tracking_id_shape (w : World) :
  all_chars lower_hex_digit (uuid4_hex w (uuid4_calls w)) = true ->
  (10 <= String.length (uuid4_hex w (uuid4_calls w)))%nat ->
  exists t w',
    generate_tracking_id w = (Return t, w') /\
    String.length t = 10%nat /\
    all_chars upper_hex_digit t = true /\
    uuid4_calls w' = S (uuid4_calls w) /\ files w' = files w.
Proof.
  intros H L. eexists. eexists. split; [reflexivity|]. repeat split.
  - rewrite length_upper, length_take. lia.
  - now apply all_chars_upper, all_chars_take.
Qed.

Lemma tracking_id_shape_witness :
  exists t w',
    generate_tracking_id world0 = (Return t, w') /\
    String.length t = 10%nat /\
    all_chars upper_hex_digit t = true /\
    uuid4_calls w' = S (uuid4_calls world0) /\ files w' = files world0.
Proof.
  apply (tracking_id_shape world0).
  - reflexivity.
  - vm_compute. repeat constructor.
Defined.

(** ** Rows *)

(** X23.  [Medicine.to_row] gives the cells that [write_cart_from_items]
    writes for the medicine, so that a row made of them is read by
    [read_cart] with the id, the texts and the quantity of the medicine. *)
Theorem to_row_is_the_written_row (it : Medicine) :
  map cell (Medicine_to_row it) = cart_row it /\
  written_fields (cart_item (CART_HEADER, map cell (Medicine_to_row it)))
  = written_fields it.
Proof.
  split; [reflexivity|].
  change (map cell (Medicine_to_row it)) with (cart_row it).
  now rewrite cart_item_written.
Qed.

(** ** What the whole program keeps *)

Lemma tidy_menu_loop : keeps tidy (while_true menu_round tt).
Proof.
  apply fr_menu_loop; try (intros ? w H; exact H).
  - apply tidy_clear_cart.
  - apply tidy_append.
  - apply tidy_delete_from_cart.
Qed.

(** X24.  A session keeps the cart tidy: when the cart holds at most one
    entry per product id, so it does after [main_menu], whatever was typed
    (orders, deletions, checkouts) and however the session ended. *)
Theorem menu_keeps_the_cart_tidy (w : World) :
  tidy w -> tidy (exec main_menu w).
Proof.
  intros H. unfold main_menu. rewrite exec_bind_unit by reflexivity.
  apply (keeps_exec tidy); [apply tidy_menu_loop|].
  now apply (keeps_exec tidy); [apply tidy_ensure|].
Qed.

Lemma menu_keeps_the_cart_tidy_witness :
  tidy (exec main_menu
          (with_stdin ["2"; "fever"; "101"; "3"; "m"; "5"]%string two_item_world)).
Proof.
  apply (menu_keeps_the_cart_tidy
           (with_stdin ["2"; "fever"; "101"; "3"; "m"; "5"]%string two_item_world)).
  unfold tidy, one_entry_per_id. vm_compute.
  repeat constructor; cbn; intuition discriminate.
Defined.

Lemma positive_cart w w' : cart_file w' = cart_file w -> positive w -> positive w'.
Proof. unfold positive, cart_of. now intros ->. Qed.

Lemma positive_written items w :
  Forall (fun it => 0 < quantity it) items ->
  positive (exec (write_cart_from_items items) w).
Proof.
  intros H. unfold positive. rewrite cart_of_written.
  apply Forall_map. exact H.
Qed.

Lemma positive_add_or_merge items med qty :
  0 < qty -> Forall (fun it => 0 < quantity it) items ->
  Forall (fun it => 0 < quantity it) (add_or_merge items med qty).
Proof.
  intros Q H. induction H as [|it rest Hit Hrest IH]; cbn [add_or_merge].
  - constructor; [exact Q | constructor].
  - destruct (id it =? id med); constructor; auto. cbn. lia.
Qed.

Lemma positive_append med qty : keeps positive (append_to_cart med qty).
Proof.
  intros w H. split; [|trivial].
  change (positive (exec (append_to_cart med qty) w)).
  destruct (Z.ltb_spec 0 qty) as [Q|Q].
  - unfold positive. rewrite cart_of_append by exact Q.
    apply Forall_map. now apply positive_add_or_merge.
  - now rewrite cart_of_append_nonpositive.
Qed.

Lemma positive_remove_quantity items found q :
  Forall (fun it => 0 < quantity it) items ->
  find_item (id found) items = Some found ->
  Forall (fun it => 0 < quantity it) (remove_quantity items found q).
Proof.
  intros H F. destruct (find_item_split _ _ _ F) as (l1 & l2 & -> & A & _).
  apply Forall_app in H. destruct H as [H1 H2].
  unfold remove_quantity. destruct (Z.leb_spec (quantity found) q).
  - rewrite remove_found_split by auto. apply Forall_app. split; [exact H1|].
    now inversion H2.
  - rewrite decrease_found_split by auto. apply Forall_app. split; [exact H1|].
    inversion H2; subst. constructor; [cbn; lia | assumption].
Qed.

Lemma positive_delete : keeps positive delete_from_cart.
Proof.
  apply (del_from_cart positive (Forall (fun it => 0 < quantity it))).
  - exact positive_cart.
  - intros items w H. now apply positive_written.
  - intros items found q H F _. now apply positive_remove_quantity.
  - intros w H. exact H.
Qed.

Lemma positive_menu_loop : keeps positive (while_true menu_round tt).
Proof.
  apply fr_menu_loop; try (intros ? w H; exact H).
  - intros w _. split; [constructor | trivial].
  - apply positive_append.
  - apply positive_delete.
Qed.

(** X25.  A session never leaves an entry of quantity zero or less in the
    cart: when every entry of the cart has a quantity of [1] or more, so it
    is after [main_menu], whatever was typed and however the session ended
    (an order is refused unless its quantity is positive, and a deletion
    that would leave nothing of an entry takes the entry away). *)
Theorem menu_keeps_quantities_positive (w : World) :
  positive w -> positive (exec main_menu w).
Proof.
  intros H. unfold main_menu. rewrite exec_bind_unit by reflexivity.
  apply (keeps_exec positive); [apply positive_menu_loop|].
  unfold positive. now rewrite cart_of_ensure.
Qed.

Lemma menu_keeps_quantities_positive_witness :
  positive (exec main_menu
              (with_stdin ["4"; "d"; ""; "101"; "-3"; "n"; "n"; "5"]%string
                          two_item_world)).
Proof.
  apply (menu_keeps_quantities_positive
           (with_stdin ["4"; "d"; ""; "101"; "-3"; "n"; "n"; "5"]%string
                       two_item_world)).
  unfold positive. vm_compute. repeat constructor.
Defined.

(** ** The menu ends *)

Lemma safe_ensure : safe ensure_folders_and_files.
Proof.
  intros w. split; [discriminate|].
  destruct w as [s c i o si so h n]. destruct s, c, i; cbn; lia.
Qed.
#[local] Hint Resolve safe_ensure : safety.

Lemma safe_display_store : safe display_store.
Proof. unfold display_store. safe_auto. Qed.
#[local] Hint Resolve safe_display_store : safety.

Lemma safe_instructions : safe instructions.
Proof.
  unfold instructions. apply safe_bind; [|intros ?; safe_auto].
  intros w. destruct (instr_file w); apply safe_print.
Qed.
#[local] Hint Resolve safe_instructions safe_place_order : safety.

Lemma safe_menu_round u : safe (menu_round u).
Proof. unfold menu_round. safe_auto. Qed.
#[local] Hint Resolve safe_menu_round : safety.

Lemma reads_menu_round u : reads (menu_round u).
Proof. unfold menu_round. reads_auto. Qed.
#[local] Hint Resolve reads_menu_round : safety.

Lemma safe_main_menu : safe main_menu.
Proof. unfold main_menu. safe_auto. Qed.

(** X26.  A session ends: on every input [main_menu] leaves through choice
    [5] or stops with an exception (an [EOFError] when the input runs out),
    since every round of its loop, as of the loops it calls, reads a line;
    so do [display_store] and [instructions].  In the model: the fuel of
    the loops is never used up. *)
Theorem menu_ends (w : World) :
  eval main_menu w <> OutOfFuel /\
  eval display_store w <> OutOfFuel /\
  eval instructions w <> OutOfFuel.
Proof.
  repeat split.
  - apply safe_main_menu.
  - apply safe_display_store.
  - apply safe_instructions.
Qed.

(** ** An order, a cancelled deletion, the way out *)

Section Steps.

Variable w0 : World.
Variable J : World -> Prop.

Lemma st_ret {A} P (a : A) : triple P (ret a) (fun r w => r = a /\ P w) J.
Proof. intros w H. cbn. auto. Qed.

Lemma st_print c ls s :
  triple (poised w0 c ls) (print s) (fun _ => poised w0 c ls) J.
Proof. intros w H. exact H. Qed.

Lemma st_input c l ls s :
  triple (poised w0 c (l :: ls)) (input s)
         (fun r w => r = l /\ poised w0 c ls w) J.
Proof.
  intros w (Hs & Hi & Ho & Hc & Hl). unfold input. rewrite Hl.
  repeat split; assumption.
Qed.

Lemma st_load_store c ls :
  triple (poised w0 c ls) load_store
         (fun r w => r = store_of w0 /\ poised w0 c ls w) J.
Proof.
  intros w H. rewrite load_store_eq. split; [|exact H].
  unfold store_of. now destruct H as (-> & _).
Qed.

Lemma st_read_cart c ls :
  triple (poised w0 c ls) read_cart
         (fun r w => r = cart_of (with_cart c w0) /\ poised w0 c ls w) J.
Proof.
  intros w H. rewrite read_cart_eq. split; [|exact H].
  unfold cart_of. cbn [cart_file with_cart]. now destruct H as (_ & _ & _ & -> & _).
Qed.

Lemma st_for_each_print c ls meds :
  triple (poised w0 c ls) (for_each meds Medicine_print)
         (fun _ => poised w0 c ls) J.
Proof. intros w H. rewrite for_each_Medicine_print. exact H. Qed.

Lemma st_input_int c l ls prompt msg z :
  Py.int_of_string (Py.strip l) = Some z ->
  triple (poised w0 c (l :: ls)) (input_int prompt msg)
         (fun r w => r = Some z /\ poised w0 c ls w) J.
Proof.
  intros Z w (Hs & Hi & Ho & Hc & Hl).
  rewrite (input_int_typed prompt msg l ls z w Hl Z).
  repeat split; assumption.
Qed.

Lemma st_input_quantity c l ls q :
  Py.int_of_string (Py.strip l) = Some q -> 0 < q ->
  triple (poised w0 c (l :: ls)) input_quantity
         (fun r w => r = Some q /\ poised w0 c ls w) J.
Proof.
  intros Z Q w (Hs & Hi & Ho & Hc & Hl).
  unfold input_quantity, try_except.
  rewrite (bind_ret_eq _ _ _ _ _ (input_eq _ w l ls Hl)).
  rewrite Z. cbn [lift]. erewrite bind_ret_eq by reflexivity.
  destruct (Z.leb_spec q 0); [lia|]. cbn [ret].
  repeat split; assumption.
Qed.

Lemma st_append c ls med q :
  0 < q ->
  triple (poised w0 c ls) (append_to_cart med q)
         (fun _ =>
            poised w0
              (Some (CART_HEADER ::
                     map cart_row (add_or_merge (cart_of (with_cart c w0)) med q)))
              ls) J.
Proof.
  intros Q w (Hs & Hi & Ho & Hc & Hl).
  rewrite append_to_cart_positive by exact Q.
  repeat split; try assumption.
  cbn [cart_file with_cart]. unfold cart_of. cbn [cart_file with_cart].
  now rewrite Hc.
Qed.

Lemma st_once {S A} P (body : S -> M (S + A)) s R :
  triple P (body s) (fun r w => exists a, r = inr a /\ R a w) J ->
  triple P (while_true body s) R J.
Proof.
  intros H w Hw. specialize (H w Hw). unfold while_true. cbn [loop]. unfold bind.
  destruct (body s w) as [[r|e|] w1]; try exact H.
  destruct H as (a & -> & H). exact H.
Qed.

Lemma st_post {A} P (c : M A) (R R' : A -> World -> Prop) :
  triple P c R J -> (forall a w, R a w -> R' a w) -> triple P c R' J.
Proof.
  intros H HR w Hw. specialize (H w Hw).
  destruct (c w) as [[a|e|] w1]; auto.
Qed.

End Steps.

#[local] Ltac st_then lem :=
  eapply triple_bind; [apply lem | intros ?; cbv beta].

#[local] Ltac st_known lem :=
  eapply triple_bind; [apply lem | intros ?; cbv beta; apply triple_pure; intros ->].

Lemma next_step_round_menu w0 J c l ls u :
  Py.lower (Py.strip l) = "m"%string ->
  triple (poised w0 c (l :: ls)) (next_step_round u)
         (fun r w => exists a, r = inr a /\ poised w0 c ls w) J.
Proof.
  intros Hm. unfold next_step_round.
  do 4 st_then st_print. st_known st_input. cbv zeta. rewrite Hm.
  cbn [String.eqb Ascii.eqb Bool.eqb andb].
  intros w H. cbn. now exists tt.
Qed.

Lemma search_exact w term results :
  eval (find_by_disease term) w = Return results -> results <> [] ->
  search term w = (Return (Exact results), w).
Proof.
  unfold eval. rewrite find_by_disease_eq. cbn [fst]. intros [= E] N.
  unfold search. rewrite (bind_ret_eq _ _ _ _ _ (find_by_disease_eq term w)), E.
  destruct results; [contradiction | reflexivity].
Qed.

Lemma st_search_exact w0 J c ls term results :
  eval (find_by_disease term) w0 = Return results -> results <> [] ->
  triple (poised w0 c ls) (search term)
         (fun r w => r = Exact results /\ poised w0 c ls w) J.
Proof.
  intros E N w H. rewrite (search_exact w term results); [now split| |exact N].
  revert E. unfold eval. rewrite !find_by_disease_eq. cbn [fst].
  unfold store_of. now destruct H as (-> & _).
Qed.

Lemma place_order_round_adds w0 J term idl ql nl rest results p q med u :
  Py.lower (Py.strip term) <> "back"%string ->
  eval (find_by_disease (Py.strip term)) w0 = Return results -> results <> [] ->
  Py.int_of_string (Py.strip idl) = Some p -> p <> 0 ->
  (find_item p results = Some med \/
   find_item p results = None /\ find_item p (store_of w0) = Some med) ->
  Py.int_of_string (Py.strip ql) = Some q -> 0 < q ->
  Py.lower (Py.strip nl) = "m"%string ->
  triple (poised w0 (cart_file w0) (term :: idl :: ql :: nl :: rest))
         (place_order_round u)
         (fun r w =>
            exists a, r = inr a /\
            poised w0
              (Some (CART_HEADER :: map cart_row (add_or_merge (cart_of w0) med q)))
              rest w) J.
Proof.
  intros B E N Zp P0 F Zq Q Hm. unfold place_order_round.
  do 2 st_then st_print. st_known st_input. cbv zeta.
  destruct (String.eqb_spec (Py.lower (Py.strip term)) "back"); [contradiction|].
  st_known (st_search_exact w0 J (cart_file w0) (idl :: ql :: nl :: rest)
              (Py.strip term) results E N).
  st_then st_print. st_then st_for_each_print.
  st_known (st_input_int w0 J (cart_file w0) idl (ql :: nl :: rest)
              "Enter ID to add to cart (0 to cancel): " "Invalid input." p Zp).
  destruct (Z.eqb_spec p 0); [contradiction|].
  eapply triple_bind
    with (R := fun r w => r = Some med /\
                          poised w0 (cart_file w0) (ql :: nl :: rest) w).
  { destruct F as [F | [F1 F2]].
    - rewrite F. apply st_ret.
    - rewrite F1. st_known st_load_store. rewrite F2. apply st_ret. }
  intros ?. cbv beta. apply triple_pure. intros ->.
  eapply triple_bind
    with (R := fun r w =>
                 r = true /\
                 poised w0
                   (Some (CART_HEADER ::
                          map cart_row (add_or_merge (cart_of w0) med q)))
                   (nl :: rest) w).
  { st_known (st_input_quantity w0 J (cart_file w0) ql (nl :: rest) q Zq Q).
    eapply triple_bind; [apply (st_append w0 J _ _ med q Q) | intros ?; cbv beta].
    st_then st_print.
    replace (with_cart (cart_file w0) w0) with w0
      by (now destruct w0).
    apply st_ret. }
  intros ?. cbv beta. apply triple_pure. intros ->.
  eapply triple_bind.
  { apply st_once. apply next_step_round_menu. exact Hm. }
  intros ?. cbv beta. intros w H. cbn. now exists tt.
Qed.

Lemma length_lstrip s : (String.length (Py.lstrip s) <= String.length s)%nat.
Proof.
  induction s as [|c s IH]; simpl; [lia|].
  destruct (Py.is_space c); simpl; lia.
Qed.

Lemma length_rstrip s : (String.length (Py.rstrip s) <= String.length s)%nat.
Proof.
  induction s as [|c s IH]; simpl; [lia|].
  destruct (Py.rstrip s); [destruct (Py.is_space c)|]; simpl in *; lia.
Qed.

(** a number typed on a plain line has at most 4300 digits *)
Lemma printable_typed l z :
  plain_text l = true -> Py.int_of_string (Py.strip l) = Some z ->
  printable z = true.
Proof.
  unfold plain_text, printable. intros H E. apply andb_prop in H as [_ H].
  apply Nat.leb_le in H. apply Nat.leb_le. apply digits_int_of_string in E.
  unfold Py.strip in E.
  pose proof (length_rstrip (Py.lstrip l)). pose proof (length_lstrip l). lia.
Qed.

(** X27.  An order, on plain files and lines: when the search finds
    medicines and the answers are an id other than [0], a quantity of [1] or
    more and then [M], and the quantity that the cart reaches has at most
    4300 digits, [place_order] returns after these four lines and has done
    to the cart what [append_to_cart] does, under the limit as with the
    limit lifted, with that quantity of the medicine of that id, taken from
    the results of the search or, when none of them has the id, from the
    whole store. *)
Theorem order_adds_to_the_cart (w : World) (term idl ql nl : string)
  (rest : list string) (results : list Medicine) (p q : Z) (med : Medicine) :
  stdin w = term :: idl :: ql :: nl :: rest ->
  Py.lower (Py.strip term) <> "back"%string ->
  eval (find_by_disease (Py.strip term)) w = Return results -> results <> [] ->
  Py.int_of_string (Py.strip idl) = Some p -> p <> 0 ->
  (find_item p results = Some med \/
   find_item p results = None /\ find_item p (store_of w) = Some med) ->
  Py.int_of_string (Py.strip ql) = Some q -> 0 < q ->
  Py.lower (Py.strip nl) = "m"%string ->
  plain_file (store_file w) = true -> plain_file (cart_file w) = true ->
  forallb plain_text [term; idl; ql; nl] = true ->
  printable (quantity_for (id med) (cart_of w) + q) = true ->
  eval place_order w = Return tt /\
  cart_file (exec place_order w) = cart_file (exec (append_to_cart med q) w) /\
  append_to_cart_within_limit med q w = append_to_cart med q w /\
  stdin (exec place_order w) = rest.
Proof.
  intros I B E N Zp P0 F Zq Q Hm Ps Pc Pl Pq.
  assert (Pm : printable (id med) = true).
  { assert (Hi : id med = p).
    { destruct F as [F | [_ F]]; exact (find_item_id _ _ _ F). }
    rewrite Hi. cbn [forallb] in Pl.
    apply andb_prop in Pl as [_ Pl]. apply andb_prop in Pl as [Pl _].
    exact (printable_typed idl p Pl Zp). }
  pose proof (proj1 (append_within_limit med q w
                       (plain_cart_is_writable w Pc) Pm Pq)) as L.
  pose proof (st_once _ _ _ tt _
                (place_order_round_adds w (fun _ => False) term idl ql nl rest
                   results p q med tt B E N Zp P0 F Zq Q Hm)) as T.
  specialize (T w). fold place_order in T.
  unfold eval, exec. rewrite L. rewrite append_to_cart_positive by exact Q.
  destruct (place_order w) as [[[]|e|] w1]; cbn [fst snd] in *.
  - destruct T as (_ & _ & _ & Hc & Hl); [now repeat split|]. auto.
  - destruct T. now repeat split.
  - destruct T. now repeat split.
Qed.

Lemma order_adds_to_the_cart_witness :
  cart_file (exec place_order
               (with_stdin ["fever"; "103"; "2"; "m"]%string fresh_world)) =
  cart_file (exec (append_to_cart azithromycin 2)
               (with_stdin ["fever"; "103"; "2"; "m"]%string fresh_world)).
Proof.
  refine (proj1 (proj2
    (order_adds_to_the_cart
       (with_stdin ["fever"; "103"; "2"; "m"]%string fresh_world)
       "fever" "103" "2" "m" [] [paracetamol; dolo] 103 2 azithromycin
       _ _ _ _ _ _ _ _ _ _ _ _ _ _)))%string.
  - reflexivity.
  - vm_compute. discriminate.
  - vm_compute. reflexivity.
  - discriminate.
  - reflexivity.
  - discriminate.
  - right. split; vm_compute; reflexivity.
  - reflexivity.
  - reflexivity.
  - reflexivity.
  - vm_compute. reflexivity.
  - vm_compute. reflexivity.
  - vm_compute. reflexivity.
  - vm_compute. reflexivity.
Defined.

Lemma poised_out w0 c ls s w :
  poised w0 c ls w -> poised w0 c ls (with_stdout (stdout w ++ [s]) w).
Proof. intros H. exact H. Qed.

Lemma st_display_cart_false w0 (J : World -> Prop) c l ls :
  (forall ls' w, poised w0 c ls' w -> J w) ->
  triple (poised w0 c (l :: ls)) (display_cart false)
         (fun _ => poised w0 c ls) J.
Proof.
  intros HJ. unfold display_cart.
  st_known st_read_cart. do 3 st_then st_print.
  destruct (cart_of (with_cart c w0)) as [|it items].
  - st_then st_print. st_known st_input. eapply st_post; [apply st_ret|].
    now intros ? ? [_ H].
  - do 2 st_then st_print.
    eapply triple_bind.
    { apply triple_keeps; [|apply HJ].
      apply fr_display_lines. intros s w. apply poised_out. }
    intros total. cbv beta. do 2 st_then st_print. cbn [negb].
    st_known st_input. eapply st_post; [apply st_ret|].
    now intros ? ? [_ H].
Qed.

(** X28.  Answering [0] to the first question of [delete_from_cart] cancels
    the deletion: the cart file is left as it was, whatever the cart holds
    (and also when the cart cannot be shown). *)
Theorem deletion_cancelled_by_zero (w : World) (l1 l2 : string) (rest : list string) :
  stdin w = l1 :: l2 :: rest ->
  Py.int_of_string (Py.strip l2) = Some 0 ->
  cart_file (exec delete_from_cart w) = cart_file w.
Proof.
  intros I Z.
  pose (J := fun w' => cart_file w' = cart_file w).
  assert (HJ : forall ls w', poised w (cart_file w) ls w' -> J w').
  { intros ls w' (_ & _ & _ & H & _). exact H. }
  apply (triple_exec (poised w (cart_file w) (l1 :: l2 :: rest)) delete_from_cart
           (fun _ => J) J); [|now repeat split|auto].
  unfold delete_from_cart. st_known st_read_cart.
  destruct (cart_of (with_cart (cart_file w) w)) as [|it items].
  - eapply st_post; [apply st_print|]. intros ? w'. apply HJ.
  - apply st_once. unfold delete_round.
    st_then (st_display_cart_false w J (cart_file w) l1 (l2 :: rest) HJ).
    st_known (st_input_int w J (cart_file w) l2 rest
                "Enter ID of medicine to delete (0 to cancel): " "Invalid input."
                0 Z).
    cbn [Z.eqb]. intros w' H. cbn. exists tt. split; [reflexivity|].
    now apply (HJ rest).
Qed.

Lemma deletion_cancelled_by_zero_witness :
  cart_file (exec delete_from_cart (with_stdin [""; " 0 "]%string two_item_world))
  = cart_file (with_stdin [""; " 0 "]%string two_item_world).
Proof.
  apply (deletion_cancelled_by_zero
           (with_stdin [""; " 0 "]%string two_item_world) "" " 0 " []);
    reflexivity.
Defined.

Lemma menu_round_exit w0 J c l ls u :
  Py.strip l = "5"%string ->
  triple (poised w0 c (l :: ls)) (menu_round u)
         (fun r w => exists a, r = inr a /\ poised w0 c ls w) J.
Proof.
  intros H5. unfold menu_round.
  do 8 st_then st_print. st_known st_input. cbv zeta. rewrite H5.
  cbn [String.eqb Ascii.eqb Bool.eqb andb].
  do 3 st_then st_print. intros w H. cbn. now exists tt.
Qed.

(** X29.  Choice [5] ends the session: when the first line typed is [5]
    (spaces around it do not count), [main_menu] exits after that line, and
    the files are those that [ensure_folders_and_files] leaves. *)
Theorem menu_exit (w : World) (l : string) (rest : list string) :
  stdin w = l :: rest -> Py.strip l = "5"%string ->
  eval main_menu w = Return tt /\
  files (exec main_menu w) = files (exec ensure_folders_and_files w) /\
  stdin (exec main_menu w) = rest.
Proof.
  intros I H5.
  set (w1 := exec ensure_folders_and_files w).
  assert (I1 : stdin w1 = l :: rest).
  { unfold w1. destruct w as [s c i o si so h n]. cbn in I. subst si.
    now destruct s, c, i. }
  pose proof (st_once _ _ _ tt _
                (menu_round_exit w1 (fun _ => False) (cart_file w1) l rest tt H5)) as T.
  specialize (T w1).
  assert (E : main_menu w = while_true menu_round tt w1) by reflexivity.
  unfold eval, exec. rewrite E. unfold files.
  destruct (while_true menu_round tt w1) as [[[]|e|] w2]; cbn [fst snd] in *.
  - destruct T as (-> & -> & -> & -> & Hl); [now repeat split|]. auto.
  - destruct T. now repeat split.
  - destruct T. now repeat split.
Qed.

Lemma menu_exit_witness :
  eval main_menu (with_stdin [" 5"; "2"]%string world0) = Return tt /\
  stdin (exec main_menu (with_stdin [" 5"; "2"]%string world0)) = ["2"%string].
Proof.
  refine ((fun H => conj (proj1 H) (proj2 (proj2 H)))
            (menu_exit (with_stdin [" 5"; "2"]%string world0) " 5"%string
                       ["2"%string] _ _));
    reflexivity.
Defined.

Lemma find_item_filter_none p (f : Medicine -> bool) meds :
  find_item p meds = None -> find_item p (filter f meds) = None.
Proof.
  unfold find_item. induction meds as [|m meds IH]; cbn [find filter]; [reflexivity|].
  destruct (id m =? p) eqn:E; [discriminate|]. intros H.
  destruct (f m); cbn [find]; [rewrite E|]; now apply IH.
Qed.

Lemma place_order_round_unknown w0 J term idl nl rest results p u :
  Py.lower (Py.strip term) <> "back"%string ->
  eval (find_by_disease (Py.strip term)) w0 = Return results -> results <> [] ->
  Py.int_of_string (Py.strip idl) = Some p -> p <> 0 ->
  find_item p (store_of w0) = None ->
  Py.lower (Py.strip nl) = "m"%string ->
  triple (poised w0 (cart_file w0) (term :: idl :: nl :: rest))
         (place_order_round u)
         (fun r w => exists a, r = inr a /\ poised w0 (cart_file w0) rest w) J.
Proof.
  intros B E N Zp P0 F Hm.
  assert (F' : find_item p results = None).
  { revert E. unfold eval. rewrite find_by_disease_eq. cbn [fst]. intros [= <-].
    now apply find_item_filter_none. }
  unfold place_order_round.
  do 2 st_then st_print. st_known st_input. cbv zeta.
  destruct (String.eqb_spec (Py.lower (Py.strip term)) "back"); [contradiction|].
  st_known (st_search_exact w0 J (cart_file w0) (idl :: nl :: rest)
              (Py.strip term) results E N).
  st_then st_print. st_then st_for_each_print.
  st_known (st_input_int w0 J (cart_file w0) idl (nl :: rest)
              "Enter ID to add to cart (0 to cancel): " "Invalid input." p Zp).
  destruct (Z.eqb_spec p 0); [contradiction|].
  eapply triple_bind
    with (R := fun r w => r = None /\ poised w0 (cart_file w0) (nl :: rest) w).
  { rewrite F'. st_known st_load_store. rewrite F. apply st_ret. }
  intros ?. cbv beta. apply triple_pure. intros ->.
  eapply triple_bind
    with (R := fun r w => r = true /\ poised w0 (cart_file w0) (nl :: rest) w).
  { st_then st_print. apply st_ret. }
  intros ?. cbv beta. apply triple_pure. intros ->.
  eapply triple_bind.
  { apply st_once. apply next_step_round_menu. exact Hm. }
  intros ?. cbv beta. intros w H. cbn. now exists tt.
Qed.

(** X30.  An id that no medicine of the store has adds nothing: when the
    search of [place_order] finds medicines and the answers are such an id
    (other than [0]) and then [M], [place_order] asks for no quantity,
    returns after these three lines and leaves every file as it was. *)
Theorem unknown_id_adds_nothing (w : World) (term idl nl : string)
  (rest : list string) (results : list Medicine) (p : Z) :
  stdin w = term :: idl :: nl :: rest ->
  Py.lower (Py.strip term) <> "back"%string ->
  eval (find_by_disease (Py.strip term)) w = Return results -> results <> [] ->
  Py.int_of_string (Py.strip idl) = Some p -> p <> 0 ->
  find_item p (store_of w) = None ->
  Py.lower (Py.strip nl) = "m"%string ->
  eval place_order w = Return tt /\
  files (exec place_order w) = files w /\
  stdin (exec place_order w) = rest.
Proof.
  intros I B E N Zp P0 F Hm.
  pose proof (st_once _ _ _ tt _
                (place_order_round_unknown w (fun _ => False) term idl nl rest
                   results p tt B E N Zp P0 F Hm)) as T.
  specialize (T w). fold place_order in T.
  unfold eval, exec, files.
  destruct (place_order w) as [[[]|e|] w1]; cbn [fst snd] in *.
  - destruct T as (-> & -> & -> & -> & Hl); [now repeat split|]. auto.
  - destruct T. now repeat split.
  - destruct T. now repeat split.
Qed.

Lemma unknown_id_adds_nothing_witness :
  files (exec place_order (with_stdin ["fever"; "999"; "M"]%string fresh_world))
  = files (with_stdin ["fever"; "999"; "M"]%string fresh_world).
Proof.
  refine (proj1 (proj2
    (unknown_id_adds_nothing
       (with_stdin ["fever"; "999"; "M"]%string fresh_world)
       "fever" "999" "M" [] [paracetamol; dolo] 999 _ _ _ _ _ _ _ _)))%string.
  - reflexivity.
  - vm_compute. discriminate.
  - vm_compute. reflexivity.
  - discriminate.
  - reflexivity.
  - discriminate.
  - vm_compute. reflexivity.
  - reflexivity.
Defined.
